(** * Product schema builder: the property-tree editor, the validator
      compiler and the multi-step render plan

    A shallow embedding of the state logic of
    [src/components/SchemaBuilder.tsx], [src/components/PropertyBuilder.tsx]
    and [src/components/DynamicForm.tsx], over a small model of the
    JavaScript values those components manipulate (strings, ordinary
    objects in [Object.entries] order, arrays, numbers read by
    [parseFloat]) and of the rule objects the validator compiler builds. *)

From Stdlib Require Import List Bool Arith NArith ZArith QArith Qround Lia.
From Stdlib Require Import String Ascii DecimalString DecimalPos DecimalN.
Import ListNotations.
Local Close Scope Q_scope.
Local Open Scope string_scope.
Local Open Scope list_scope.

Set Implicit Arguments.
Set Warnings "-register-all".

(* ===================================================================== *)
(** * JavaScript values *)
(* ===================================================================== *)

Module JS.

(** ** Strings

    A JavaScript string is a finite sequence of UTF-16 code units.  A code
    unit is kept as an [N]; [===] on strings is equality of the
    sequences. *)

Definition jsstring := list N.

(** The string with the code units of an ASCII literal. *)
Definition js (s : string) : jsstring :=
  List.map N_of_ascii (list_ascii_of_string s).

Definition str_eqb (a b : jsstring) : bool :=
  if list_eq_dec N.eq_dec a b then true else false.

(** [WhiteSpace] and [LineTerminator] of ECMAScript: what
    [String.prototype.trim] and [parseFloat] strip. *)
Definition is_whitespace (c : N) : bool :=
  (N.eqb c 9 || N.eqb c 10 || N.eqb c 11 || N.eqb c 12 || N.eqb c 13
   || N.eqb c 32 || N.eqb c 160 || N.eqb c 5760
   || (N.leb 8192 c && N.leb c 8202)
   || N.eqb c 8232 || N.eqb c 8233 || N.eqb c 8239 || N.eqb c 8287
   || N.eqb c 12288 || N.eqb c 65279)%bool.

Fixpoint trimStart (s : jsstring) : jsstring :=
  match s with
  | c :: rest => if is_whitespace c then trimStart rest else s
  | [] => []
  end.

Definition trimEnd (s : jsstring) : jsstring := rev (trimStart (rev s)).

Definition trim (s : jsstring) : jsstring := trimEnd (trimStart s).

(** The empty string, ['']. *)
Definition empty_string : jsstring := [].

(** Truthiness of a string: only the empty string is falsy. *)
Definition truthy_string (s : jsstring) : bool :=
  match s with [] => false | _ :: _ => true end.

(** [`${n}`] for a non-negative integer [n]: its decimal digits. *)
Definition number_to_string (n : N) : jsstring :=
  js (NilZero.string_of_uint (N.to_uint n)).

(** ** Array indices

    A property key is an array index when it is the canonical decimal
    spelling of an integer below [2^32 - 1]. *)

Definition is_digit (c : N) : bool := (N.leb 48 c && N.leb c 57)%bool.

Definition digits_value (ds : jsstring) : N :=
  fold_left (fun acc c => (acc * 10 + (c - 48))%N) ds 0%N.

Definition array_index (k : jsstring) : option N :=
  match k with
  | [] => None
  | c :: rest =>
      if (forallb is_digit k
          && (negb (N.eqb c 48) || match rest with [] => true | _ => false end)
          && N.ltb (digits_value k) 4294967295)%bool
      then Some (digits_value k)
      else None
  end.

Definition is_array_index (k : jsstring) : bool :=
  match array_index k with Some _ => true | None => false end.

(** ** Arrays *)

(** [xs.includes(x)] on an array of strings. *)
Definition includes (xs : list jsstring) (x : jsstring) : bool :=
  existsb (str_eqb x) xs.

(** [xs.slice(start, stop)] for [0 <= start] and [0 <= stop]. *)
Definition slice {A : Type} (start stop : nat) (xs : list A) : list A :=
  firstn (stop - start) (skipn start xs).

(** [xs.filter((_, i) => i !== index)]. *)
Fixpoint filter_index_ne {A : Type} (index : nat) (xs : list A) : list A :=
  match xs, index with
  | [], _ => []
  | _ :: rest, O => rest
  | x :: rest, S i => x :: filter_index_ne i rest
  end.

(** [ys = [...xs]; ys[index] = v] for an [index] inside the array.
    Outside it JavaScript would extend the array with holes, which are
    not strings: there is no result of this type then. *)
Fixpoint set_index {A : Type} (index : nat) (v : A) (xs : list A)
  : option (list A) :=
  match xs, index with
  | [], _ => None
  | _ :: rest, O => Some (v :: rest)
  | x :: rest, S i =>
      match set_index i v rest with
      | Some rest' => Some (x :: rest')
      | None => None
      end
  end.

(** ** Ordinary objects used as maps

    An object is kept as the list of its own enumerable string-keyed
    properties in the order [Object.keys] and [Object.entries] give them:
    array-index keys first, in ascending numeric order, then the other
    keys in the order they were created.  The objects are made by
    object literals and spreads, so their prototype is
    [Object.prototype]: creating a key by an object literal or a spread
    ([set]) defines an own property whatever the key, while a plain
    assignment ([assign]) to the key [__proto__] runs the setter of
    [Object.prototype] when the object has no own property of that
    name.  The components enumerate the objects they keep
    ([Object.entries], [Object.keys], spread), so the prototype such an
    assignment installs is not recorded. *)

Section Objects.
Variable V : Type.

Definition JSObject := list (jsstring * V).

Definition empty_object : JSObject := [].

Definition entries (o : JSObject) : list (jsstring * V) := o.

Definition keys (o : JSObject) : list jsstring := List.map fst o.

(** [o[k]]; [None] stands for [undefined]. *)
Fixpoint get (k : jsstring) (o : JSObject) : option V :=
  match o with
  | [] => None
  | (k', v) :: rest => if str_eqb k' k then Some v else get k rest
  end.

Definition has (k : jsstring) (o : JSObject) : bool :=
  existsb (fun kv => str_eqb (fst kv) k) o.

(** Assignment to a key the object already has: the value changes, the
    position does not. *)
Fixpoint replace (k : jsstring) (v : V) (o : JSObject) : JSObject :=
  match o with
  | [] => []
  | (k', v') :: rest =>
      if str_eqb k' k then (k, v) :: rest else (k', v') :: replace k v rest
  end.

(** Creation of an array-index key [k] of numeric value [i]: it goes
    after the index keys below it. *)
Fixpoint insert_index (k : jsstring) (i : N) (v : V) (o : JSObject)
  : JSObject :=
  match o with
  | [] => [(k, v)]
  | (k', v') :: rest =>
      match array_index k' with
      | Some i' =>
          if N.ltb i i' then (k, v) :: o
          else (k', v') :: insert_index k i v rest
      | None => (k, v) :: o
      end
  end.

(** [{...o, [k]: v}], which copies [o] key by key in order and then
    defines [k]; also [o[k] = v] for every key but [__proto__]. *)
Definition set (k : jsstring) (v : V) (o : JSObject) : JSObject :=
  if has k o then replace k v o
  else match array_index k with
       | Some i => insert_index k i v o
       | None => o ++ [(k, v)]
       end.

(** [o[k] = v] on an object whose prototype is [Object.prototype].
    For the key [__proto__], when it is no own property, the assignment
    reaches the accessor of [Object.prototype]: the prototype of [o]
    changes (when [v] is an object) and no property is made. *)
Definition assign (k : jsstring) (v : V) (o : JSObject) : JSObject :=
  if (str_eqb k (js "__proto__") && negb (has k o))%bool then o
  else set k v o.

(** [delete o[k]]. *)
Definition delete (k : jsstring) (o : JSObject) : JSObject :=
  filter (fun kv => negb (str_eqb (fst kv) k)) o.

(** The shape of a list that is the [entries] of an object: no key
    twice, the array indices in ascending order, before the rest. *)
Fixpoint index_prefix_from (lo : N) (ks : list jsstring) : bool :=
  match ks with
  | [] => true
  | k :: rest =>
      match array_index k with
      | Some i => N.leb lo i && index_prefix_from i rest
      | None => forallb (fun k' => negb (is_array_index k')) rest
      end
  end.

Fixpoint distinct (ks : list jsstring) : bool :=
  match ks with
  | [] => true
  | k :: rest => negb (includes rest k) && distinct rest
  end.

Definition well_formed (o : JSObject) : bool :=
  distinct (keys o) && index_prefix_from 0 (keys o).

End Objects.

Arguments empty_object {V}.

(** ** Numbers

    A number is kept as the text [parseFloat] read it from: the double
    nearest to [m * 10^e], signed.  What the program asks of a number -
    whether it is [NaN], whether it is falsy - is decided on this exact
    value, so no rounding is carried out here. *)

Inductive JSNumber : Type :=
| NaN
| Infinity (negative : bool)
| Decimal (negative : bool) (m : N) (e : Z).

(** The number literal [0]. *)
Definition zero : JSNumber := Decimal false 0 0.

(** [m * 10^e] is at most [2^-1075], half the least positive double: the
    nearest double is a zero. *)
Definition rounds_to_zero (m : N) (e : Z) : bool :=
  (N.eqb m 0
   || (Z.ltb e 0
       && Z.leb (Z.of_N m * 2 ^ 1075) (10 ^ (- e))))%bool.

(** Truthiness of a number: [NaN], [+0] and [-0] are falsy. *)
Definition truthy_number (x : JSNumber) : bool :=
  match x with
  | NaN => false
  | Infinity _ => true
  | Decimal _ m e => negb (rounds_to_zero m e)
  end.

Fixpoint span_digits (s : jsstring) : jsstring * jsstring :=
  match s with
  | c :: rest =>
      if is_digit c
      then let (ds, tl) := span_digits rest in (c :: ds, tl)
      else ([], s)
  | [] => ([], [])
  end.

Fixpoint starts_with (p s : jsstring) : bool :=
  match p, s with
  | [], _ => true
  | a :: p', b :: s' => N.eqb a b && starts_with p' s'
  | _ :: _, [] => false
  end.

(** The value of the digits at the head of [s], signed; 0 when [s] does
    not start with a digit. *)
Definition signed_integer (negative : bool) (s : jsstring) : Z :=
  match fst (span_digits s) with
  | [] => 0%Z
  | d => if negative then (- Z.of_N (digits_value d))%Z
         else Z.of_N (digits_value d)
  end.

(** The value of the [ExponentPart] at the head of [s], 0 when there is
    none: [e] or [E], an optional sign, at least one digit. *)
Definition exponent_part (s : jsstring) : Z :=
  match s with
  | c :: rest =>
      if (N.eqb c 101 || N.eqb c 69)%bool then
        match rest with
        | c' :: ds =>
            if N.eqb c' 43 then signed_integer false ds
            else if N.eqb c' 45 then signed_integer true ds
            else signed_integer false rest
        | [] => 0%Z
        end
      else 0%Z
  | [] => 0%Z
  end.

(** [StrUnsignedDecimalLiteral] read as the longest prefix of [s]:
    [Infinity], or digits with an optional fraction, or a fraction alone,
    each with an optional exponent. *)
Definition unsigned_literal (negative : bool) (s : jsstring) : JSNumber :=
  if starts_with (js "Infinity") s then Infinity negative
  else
    let (ip, r1) := span_digits s in
    let no_fraction :=
      match ip with
      | [] => NaN
      | _ :: _ => Decimal negative (digits_value ip) (exponent_part r1)
      end in
    match r1 with
    | c :: r2 =>
        if N.eqb c 46 then
          let (fp, r3) := span_digits r2 in
          match ip, fp with
          | [], [] => NaN
          | _, _ =>
              Decimal negative (digits_value (ip ++ fp))
                      (exponent_part r3 - Z.of_nat (List.length fp))
          end
        else no_fraction
    | [] => no_fraction
    end.

(** [parseFloat(s)]: leading white space is skipped, then an optional
    sign, then the literal; [NaN] when there is none. *)
Definition parseFloat (s : jsstring) : JSNumber :=
  match trimStart s with
  | c :: rest =>
      if N.eqb c 43 then unsigned_literal false rest
      else if N.eqb c 45 then unsigned_literal true rest
      else unsigned_literal false (c :: rest)
  | [] => NaN
  end.

(** ** Values a form field can hold

    [VObject o] is an ordinary object with the own properties [o] and
    the prototype [Object.prototype]; [VFunction] is a function, and
    [VObjectPrototype] is [Object.prototype] itself - what reading a
    member of [Object.prototype] through an ordinary object gives. *)

Inductive JSValue : Type :=
| VUndefined
| VNull
| VBoolean (b : bool)
| VNumber (x : JSNumber)
| VString (s : jsstring)
| VDate (valid : bool)
| VArray (xs : list JSValue)
| VObject (o : list (jsstring * JSValue))
| VFunction
| VObjectPrototype.

(** The function-valued members of [Object.prototype]; its one other
    member is the accessor [__proto__]. *)
Definition prototype_functions : list jsstring :=
  [js "constructor"; js "hasOwnProperty"; js "isPrototypeOf";
   js "propertyIsEnumerable"; js "toLocaleString"; js "toString";
   js "valueOf"; js "__defineGetter__"; js "__defineSetter__";
   js "__lookupGetter__"; js "__lookupSetter__"].

(** [Object.prototype[key]]: its prototype is [null]. *)
Definition read_prototype (key : jsstring) : JSValue :=
  if includes prototype_functions key then VFunction
  else if str_eqb key (js "__proto__") then VNull
  else VUndefined.

(** [data[key]] on an ordinary object with the own properties [o]: the
    own property, or else what the prototype chain gives. *)
Definition read (key : jsstring) (o : list (jsstring * JSValue)) : JSValue :=
  match get key o with
  | Some v => v
  | None =>
      if includes prototype_functions key then VFunction
      else if str_eqb key (js "__proto__") then VObjectPrototype
      else VUndefined
  end.

End JS.

Import JS.

(* ===================================================================== *)
(** * The schema data model ([src/types/schema.ts]) *)
(* ===================================================================== *)

Module Schema.

Record Items : Type := mkItems {
  items_type : jsstring;
  items_format : option jsstring
}.

(** [SchemaProperty].  An optional attribute that is absent (or
    [undefined]) is [None].  [type] is the string the object holds;
    [multiple] is read and written by the components though the
    interface does not declare it. *)
Inductive SchemaProperty : Type := mkSchemaProperty {
  type : jsstring;
  description : option jsstring;
  enum : option (list jsstring);
  format : option jsstring;
  items : option Items;
  multiple : option bool;
  properties : option (list (jsstring * SchemaProperty));
  required : option (list jsstring)
}.

(** [{ ...property, field: value }], one definition per field. *)
Definition with_type (v : jsstring) (p : SchemaProperty) :=
  mkSchemaProperty v (description p) (enum p) (format p) (items p)
                   (multiple p) (properties p) (required p).
Definition with_description (v : option jsstring) (p : SchemaProperty) :=
  mkSchemaProperty (type p) v (enum p) (format p) (items p)
                   (multiple p) (properties p) (required p).
Definition with_enum (v : option (list jsstring)) (p : SchemaProperty) :=
  mkSchemaProperty (type p) (description p) v (format p) (items p)
                   (multiple p) (properties p) (required p).
Definition with_format (v : option jsstring) (p : SchemaProperty) :=
  mkSchemaProperty (type p) (description p) (enum p) v (items p)
                   (multiple p) (properties p) (required p).
Definition with_multiple (v : option bool) (p : SchemaProperty) :=
  mkSchemaProperty (type p) (description p) (enum p) (format p) (items p)
                   v (properties p) (required p).
Definition with_properties (v : option (JSObject SchemaProperty))
                           (p : SchemaProperty) :=
  mkSchemaProperty (type p) (description p) (enum p) (format p) (items p)
                   (multiple p) v (required p).
Definition with_required (v : option (list jsstring)) (p : SchemaProperty) :=
  mkSchemaProperty (type p) (description p) (enum p) (format p) (items p)
                   (multiple p) (properties p) v.

(** [{ type: 'string', description: '' }], what both Add buttons
    insert. *)
Definition default_property : SchemaProperty :=
  mkSchemaProperty (js "string") (Some empty_string) None None None None None None.

(** [property.properties || {}] and [property.required || []]. *)
Definition properties_or_empty (p : SchemaProperty) : JSObject SchemaProperty :=
  match properties p with Some o => o | None => [] end.
Definition required_or_empty (p : SchemaProperty) : list jsstring :=
  match required p with Some r => r | None => [] end.

(** [`property_${count + 1}`]. *)
Definition property_name (count : nat) : jsstring :=
  js "property_" ++ number_to_string (N.of_nat count + 1).

End Schema.

(* ===================================================================== *)
(** * The rule objects of the validation library *)
(* ===================================================================== *)

Module Zod.

(** The rules [createZodSchema] builds, one constructor per call of the
    library it makes. *)
Inductive ZodTypeAny : Type :=
| z_string
| z_string_email (message : jsstring)
| z_date
| z_number
| z_boolean
| z_any
| z_array (element : ZodTypeAny)
| z_object (shape : list (jsstring * ZodTypeAny))
| optional (inner : ZodTypeAny).

Definition is_nan (x : JSNumber) : bool :=
  match x with NaN => true | _ => false end.

Section Parse.
(** The library's test for the syntax of an e-mail address. *)
Variable is_email : jsstring -> bool.

(** Whether a rule accepts a value.  The string, boolean and date
    rules test the kind of the value (a date must be a valid one), the
    number rule rejects [NaN] only, an array rule checks every
    element, an optional rule adds [undefined].  An object rule wants
    an object that is no array and no date, checks each key of its
    shape against [data[key]] - read through the prototype chain when
    the key is no own property - and ignores the other keys. *)
Fixpoint accepts (t : ZodTypeAny) (v : JSValue) {struct t} : bool :=
  match t with
  | z_string => match v with VString _ => true | _ => false end
  | z_string_email _ =>
      match v with VString s => is_email s | _ => false end
  | z_date => match v with VDate valid => valid | _ => false end
  | z_number =>
      match v with VNumber x => negb (is_nan x) | _ => false end
  | z_boolean => match v with VBoolean _ => true | _ => false end
  | z_any => true
  | z_array element =>
      match v with
      | VArray xs => forallb (accepts element) xs
      | _ => false
      end
  | z_object shape =>
      match v with
      | VObject o =>
          forallb (fun kt => accepts (snd kt) (read (fst kt) o)) shape
      | VObjectPrototype =>
          forallb (fun kt => accepts (snd kt) (read_prototype (fst kt)))
                  shape
      | _ => false
      end
  | optional inner =>
      match v with VUndefined => true | _ => accepts inner v end
  end.
End Parse.

End Zod.

(* ===================================================================== *)
(** * [SchemaBuilder.tsx]: the top level of the property tree *)
(* ===================================================================== *)

Module SchemaBuilder.
Import Schema.

(** The two state cells the handlers read and set. *)
Record State : Type := mkState {
  properties : JSObject SchemaProperty;
  required : list jsstring
}.

Definition addProperty (st : State) : State :=
  let propertyName := property_name (List.length (keys (properties st))) in
  mkState (set propertyName default_property (properties st)) (required st).

Definition updateProperty (name : jsstring) (property : SchemaProperty)
                          (st : State) : State :=
  mkState (set name property (properties st)) (required st).

Definition removeProperty (name : jsstring) (st : State) : State :=
  mkState (delete name (properties st))
          (filter (fun req => negb (str_eqb req name)) (required st)).

Definition toggleRequired (name : jsstring) (st : State) : State :=
  if includes (required st) name
  then mkState (properties st)
               (filter (fun req => negb (str_eqb req name)) (required st))
  else mkState (properties st) (required st ++ [name]).

(** [renameProperty].  The component calls it with the name of an entry
    it renders.  For an [oldName] that is no key the assignment would
    store [undefined], or a member of [Object.prototype], under
    [newName], which is no [SchemaProperty]: [None] - unless [newName]
    is [__proto__] and no key, where the assignment stores nothing. *)
Definition renameProperty (oldName newName : jsstring) (st : State)
  : option State :=
  if (str_eqb oldName newName || negb (truthy_string (trim newName)))%bool
  then Some st
  else
    let newRequired :=
      if includes (required st) oldName
      then List.map (fun req => if str_eqb req oldName then newName else req)
                    (required st)
      else required st in
    match get oldName (properties st) with
    | Some moved =>
        let newProperties :=
          delete oldName (assign newName moved (properties st)) in
        Some (mkState newProperties newRequired)
    | None =>
        if (str_eqb newName (js "__proto__")
            && negb (has newName (properties st)))%bool
        then Some (mkState (delete oldName (properties st)) newRequired)
        else None
    end.

End SchemaBuilder.

(* ===================================================================== *)
(** * [PropertyBuilder.tsx]: one node of the property tree *)
(* ===================================================================== *)

Module PropertyBuilder.
Import Schema.

(** Each handler is given as the property it passes to [onUpdate]; a
    handler that returns without calling [onUpdate] leaves the property
    as it is. *)

Definition addNestedProperty (property : SchemaProperty) : SchemaProperty :=
  let newPropertyName :=
    property_name (List.length (keys (properties_or_empty property))) in
  let newProperties :=
    set newPropertyName default_property (properties_or_empty property) in
  with_properties (Some newProperties) property.

Definition updateNestedProperty (propName : jsstring)
    (nestedProperty property : SchemaProperty) : SchemaProperty :=
  with_properties
    (Some (set propName nestedProperty (properties_or_empty property)))
    property.

Definition removeNestedProperty (propName : jsstring)
    (property : SchemaProperty) : SchemaProperty :=
  let newProperties := delete propName (properties_or_empty property) in
  let newRequired :=
    filter (fun req => negb (str_eqb req propName))
           (required_or_empty property) in
  with_required (Some newRequired)
    (with_properties (Some newProperties) property).

Definition toggleNestedRequired (propName : jsstring)
    (property : SchemaProperty) : SchemaProperty :=
  let currentRequired := required_or_empty property in
  let newRequired :=
    if includes currentRequired propName
    then filter (fun req => negb (str_eqb req propName)) currentRequired
    else currentRequired ++ [propName] in
  with_required (Some newRequired) property.

(** [None] as for [SchemaBuilder.renameProperty]. *)
Definition renameNestedProperty (oldName newName : jsstring)
    (property : SchemaProperty) : option SchemaProperty :=
  if (str_eqb oldName newName || negb (truthy_string (trim newName)))%bool
  then Some property
  else
    let currentRequired := required_or_empty property in
    let newRequired :=
      if includes currentRequired oldName
      then List.map (fun req => if str_eqb req oldName
                                then newName else req) currentRequired
      else currentRequired in
    match get oldName (properties_or_empty property) with
    | Some moved =>
        let newProperties :=
          delete oldName
                 (assign newName moved (properties_or_empty property)) in
        Some (with_required (Some newRequired)
                (with_properties (Some newProperties) property))
    | None =>
        if (str_eqb newName (js "__proto__")
            && negb (has newName (properties_or_empty property)))%bool
        then Some (with_required (Some newRequired)
                     (with_properties
                        (Some (delete oldName (properties_or_empty property)))
                        property))
        else None
    end.

(** The Type select. *)
Definition changeType (value : jsstring) (property : SchemaProperty)
  : SchemaProperty :=
  with_properties
    (if str_eqb value (js "object") then properties property else None)
    (with_type value property).

(** The Format select. *)
Definition changeFormat (value : jsstring) (property : SchemaProperty)
  : SchemaProperty :=
  with_format (if str_eqb value (js "none") then None else Some value)
              property.

(** The Input Type select. *)
Definition changeInputType (value : jsstring) (property : SchemaProperty)
  : SchemaProperty :=
  if str_eqb value (js "select") then
    with_format None
      (with_enum (Some (match enum property with
                        | Some e => e
                        | None => [empty_string]
                        end)) property)
  else if str_eqb value (js "text") then
    with_format None (with_enum None property)
  else
    with_format (Some value) (with_enum None property).

(** The Add Select Options button of the other copy of the component,
    which has it in place of the Input Type select and shows it while
    there is no enum. *)
Definition addSelectOptions (property : SchemaProperty) : SchemaProperty :=
  with_enum (Some [empty_string]) property.

(** The Description box. *)
Definition changeDescription (value : jsstring) (property : SchemaProperty)
  : SchemaProperty :=
  with_description (Some value) property.

(** The Selection Type switch. *)
Definition changeMultiple (checked : bool) (property : SchemaProperty)
  : SchemaProperty :=
  with_multiple (Some checked) property.

(** The Add Option button. *)
Definition addOption (property : SchemaProperty) : SchemaProperty :=
  let newEnum :=
    (match enum property with Some e => e | None => [] end)
    ++ [empty_string] in
  with_enum (Some newEnum) property.

(** The text box of option [index].  It is rendered for the indexes of
    [property.enum] only.  [None]: there is no enum to copy (the handler
    throws), or [index] is outside it. *)
Definition editOption (index : nat) (value : jsstring)
    (property : SchemaProperty) : option SchemaProperty :=
  match enum property with
  | Some e =>
      match set_index index value e with
      | Some newEnum => Some (with_enum (Some newEnum) property)
      | None => None
      end
  | None => None
  end.

(** The remove button of option [index].  [None]: there is no enum to
    filter (the handler throws). *)
Definition removeOption (index : nat) (property : SchemaProperty)
  : option SchemaProperty :=
  match enum property with
  | Some e =>
      let newEnum := filter_index_ne index e in
      Some (with_enum (if Nat.ltb 0 (List.length newEnum)
                       then Some newEnum else None) property)
  | None => None
  end.

End PropertyBuilder.

(* ===================================================================== *)
(** * [DynamicForm.tsx]: the validator compiler and the step plan *)
(* ===================================================================== *)

Module DynamicForm.
Import Schema Zod.

Definition format_is (property : SchemaProperty) (f : string) : bool :=
  match format property with
  | Some v => str_eqb v (js f)
  | None => false
  end.

(** The loop of [createZodSchema] over [Object.entries(properties)], for
    a given way [rule] of turning one property into its rule: a key
    outside [required] gets the rule made optional, and the rule is
    assigned to [shape[key]]; the library takes the own keys of
    [shape]. *)
Definition compile_shape (rule : SchemaProperty -> ZodTypeAny)
    (properties : JSObject SchemaProperty) (required : list jsstring)
  : JSObject ZodTypeAny :=
  fold_left
    (fun shape entry =>
       let key := fst entry in
       let zodType := rule (snd entry) in
       let zodType :=
         if negb (includes required key) then optional zodType else zodType in
       assign key zodType shape)
    (entries properties) empty_object.

(** The [switch (property.type)] of [createZodSchema]; the object case
    is the recursive call [createZodSchema(property.properties,
    property.required)], whose second parameter defaults to [[]]. *)
Fixpoint zodType_of (property : SchemaProperty) : ZodTypeAny :=
  if str_eqb (type property) (js "string") then
    if format_is property "email" then
      z_string_email (js "Invalid email format")
    else if (format_is property "date" || format_is property "date-time")%bool
    then z_date
    else
      match enum property with
      | Some _ =>
          match multiple property with
          | Some true => z_array z_string
          | _ => z_string
          end
      | None => z_string
      end
  else if str_eqb (type property) (js "number") then z_number
  else if str_eqb (type property) (js "boolean") then z_boolean
  else if str_eqb (type property) (js "object") then
    match properties property with
    | Some nested =>
        z_object (compile_shape zodType_of nested
                                (required_or_empty property))
    | None => z_object empty_object
    end
  else if str_eqb (type property) (js "array") then z_array z_any
  else z_any.

Definition createZodSchema (properties : JSObject SchemaProperty)
    (required : list jsstring) : ZodTypeAny :=
  z_object (compile_shape zodType_of properties required).

(** ** The number box *)

(** [parseFloat(e.target.value) || 0], what the number box hands to
    [field.onChange]. *)
Definition numberOnChange (value : jsstring) : JSNumber :=
  let parsed := parseFloat value in
  if truthy_number parsed then parsed else zero.

(** What [renderInput] makes [field.onChange] receive when [value] is
    typed into the box of a property: the number box coerces, the text
    boxes (single-line, multi-line, markdown, and the fallback box of an
    unknown type) hand the text over.  [None]: the property is not
    rendered as a box to type into (switch, date picker, select, check
    boxes, nested section). *)
Definition inputOnChange (property : SchemaProperty) (value : jsstring)
  : option JSValue :=
  if str_eqb (type property) (js "boolean") then None
  else if str_eqb (type property) (js "string") then
    if (format_is property "date" || format_is property "date-time")%bool
    then None
    else
      match enum property with
      | Some (_ :: _) => None
      | _ => Some (VString value)
      end
  else if str_eqb (type property) (js "number") then
    Some (VNumber (numberOnChange value))
  else if str_eqb (type property) (js "object") then None
  else Some (VString value).

(** A field name the form library takes as one key and not as a path
    has letters, digits and underscores only. *)
Definition is_word_char (c : N) : bool :=
  ((N.leb 48 c && N.leb c 57) || (N.leb 65 c && N.leb c 90)
   || (N.leb 97 c && N.leb c 122) || N.eqb c 95)%bool.

(** The names the path setter of the form library guards against in
    some of its versions: what it stores under them is not fixed by this
    repository. *)
Definition guarded_names : list jsstring :=
  [js "__proto__"; js "constructor"; js "prototype"].

Definition is_plain_key (name : jsstring) : bool :=
  (forallb is_word_char name && negb (includes guarded_names name))%bool.

(** The form values after typing [typed] (field name, text) into the
    boxes of top-level properties, starting from [defaultValues: {}].
    [None]: some name is no property, is not a plain key, or has no box
    to type into. *)
Fixpoint fill_from (values : JSObject JSValue)
    (properties : JSObject SchemaProperty)
    (typed : list (jsstring * jsstring)) : option (JSObject JSValue) :=
  match typed with
  | [] => Some values
  | (name, text) :: rest =>
      if is_plain_key name then
        match get name properties with
        | Some property =>
            match inputOnChange property text with
            | Some v => fill_from (set name v values) properties rest
            | None => None
            end
        | None => None
        end
      else None
  end.

Definition fill (properties : JSObject SchemaProperty)
    (typed : list (jsstring * jsstring)) : option (JSObject JSValue) :=
  fill_from empty_object properties typed.

(** ** Multi-step mode *)

(** [Math.ceil(n / 3)] for an array length [n]. *)
Definition ceil_third (n : nat) : Z :=
  Qceiling (inject_Z (Z.of_nat n) / 3)%Q.

Definition stepsCount (multiStep : bool) (A : Type)
    (propertyEntries : list A) : Z :=
  if multiStep then ceil_third (List.length propertyEntries) else 1%Z.

Definition currentStepProperties (multiStep : bool) (A : Type)
    (currentStep : nat) (propertyEntries : list A) : list A :=
  if multiStep
  then slice (currentStep * 3) ((currentStep + 1) * 3) propertyEntries
  else propertyEntries.

Definition handleNext (stepsCount : Z) (currentStep : nat) : nat :=
  if Z.ltb (Z.of_nat currentStep) (stepsCount - 1)
  then currentStep + 1 else currentStep.

Definition handlePrevious (currentStep : nat) : nat :=
  if Nat.ltb 0 currentStep then currentStep - 1 else currentStep.

(** The render plan: the properties shown at step 0, 1, ... up to the
    step count. *)
Definition steps (multiStep : bool) (A : Type) (propertyEntries : list A)
  : list (list A) :=
  List.map (fun step => currentStepProperties multiStep step propertyEntries)
           (seq 0 (Z.to_nat (stepsCount multiStep propertyEntries))).

End DynamicForm.

(* ===================================================================== *)
(** * The earlier form component: [createZodSchema] without options *)
(* ===================================================================== *)

Module BasicForm.
Import Schema Zod.

(** The second copy of the compiler in the repository differs in the
    string case only: it does not look at [enum]. *)
Fixpoint zodType_of (property : SchemaProperty) : ZodTypeAny :=
  if str_eqb (type property) (js "string") then
    if DynamicForm.format_is property "email" then
      z_string_email (js "Invalid email format")
    else if (DynamicForm.format_is property "date"
             || DynamicForm.format_is property "date-time")%bool
    then z_date
    else z_string
  else if str_eqb (type property) (js "number") then z_number
  else if str_eqb (type property) (js "boolean") then z_boolean
  else if str_eqb (type property) (js "object") then
    match properties property with
    | Some nested =>
        z_object (DynamicForm.compile_shape zodType_of nested
                                            (required_or_empty property))
    | None => z_object empty_object
    end
  else if str_eqb (type property) (js "array") then z_array z_any
  else z_any.

Definition createZodSchema (properties : JSObject SchemaProperty)
    (required : list jsstring) : ZodTypeAny :=
  z_object (DynamicForm.compile_shape zodType_of properties required).

End BasicForm.

(* ===================================================================== *)
(** * [SchemaBuilder.tsx]: saving and previewing *)
(* ===================================================================== *)

Module SchemaDocument.
Import Schema.

(** [JSONSchema], [CreateSchemaRequest] and [ProductSchema] of
    [src/types/schema.ts].  A [Date] is kept as its time value, the
    milliseconds [Date.now()] counts. *)
Record JSONSchema : Type := mkJSONSchema {
  title : jsstring;
  description : jsstring;
  type : jsstring;
  properties : JSObject SchemaProperty;
  required : list jsstring;
  additionalProperties : bool
}.

Record CreateSchemaRequest : Type := mkRequest {
  request_category : jsstring;
  request_eventType : jsstring;
  request_schema : JSONSchema
}.

Record ProductSchema : Type := mkProductSchema {
  id : jsstring;
  category : jsstring;
  eventType : jsstring;
  schema : JSONSchema;
  createdAt : N;
  updatedAt : N
}.

End SchemaDocument.

Module SaveSchema.
Import Schema.

(** The state cells of [SchemaBuilder] that [handleSave] and
    [generatePreview] read. *)
Record FormState : Type := mkFormState {
  category : jsstring;
  eventType : jsstring;
  title : jsstring;
  description : jsstring;
  additionalProperties : bool;
  tree : SchemaBuilder.State
}.

(** The initial state for the optional [initialSchema]: without one,
    empty strings, [false], [{}] and [[]]; with one, its fields -
    [x || ''] is [x] for a string, [x || false] is [x] for a boolean,
    and an object or an array is truthy. *)
Definition initialState
    (initialSchema : option SchemaDocument.CreateSchemaRequest) : FormState :=
  match initialSchema with
  | Some initial =>
      let schema := SchemaDocument.request_schema initial in
      mkFormState
        (SchemaDocument.request_category initial)
        (SchemaDocument.request_eventType initial)
        (SchemaDocument.title schema)
        (SchemaDocument.description schema)
        (SchemaDocument.additionalProperties schema)
        (SchemaBuilder.mkState (SchemaDocument.properties schema)
                               (SchemaDocument.required schema))
  | None =>
      mkFormState empty_string empty_string empty_string empty_string false
                  (SchemaBuilder.mkState empty_object [])
  end.

(** The object both [handleSave] and [generatePreview] build. *)
Definition document (st : FormState) : SchemaDocument.JSONSchema :=
  SchemaDocument.mkJSONSchema
    (title st) (description st) (js "object")
    (SchemaBuilder.properties (tree st))
    (SchemaBuilder.required (tree st))
    (additionalProperties st).

(** [handleSave]: what [onSave] receives; [None] when the handler
    shows the validation message and returns. *)
Definition handleSave (st : FormState)
  : option SchemaDocument.CreateSchemaRequest :=
  if (negb (truthy_string (trim (category st)))
      || negb (truthy_string (trim (eventType st)))
      || negb (truthy_string (trim (title st))))%bool
  then None
  else Some (SchemaDocument.mkRequest (category st) (eventType st)
                                      (document st)).

Definition generatePreview (st : FormState)
  : SchemaDocument.CreateSchemaRequest :=
  SchemaDocument.mkRequest (category st) (eventType st) (document st).

(** The [disabled] attribute of the Add Property button. *)
Definition addPropertyDisabled (st : FormState) : bool :=
  (negb (truthy_string (trim (category st)))
   || negb (truthy_string (trim (eventType st)))
   || negb (truthy_string (trim (title st))))%bool.

End SaveSchema.

(* ===================================================================== *)
(** * The page component: the list of saved schemas *)
(* ===================================================================== *)

Module Index.
Import SchemaDocument.


(** [handleEditSchema].  [new Date()] is read once for every schema
    that has the id: [clock i] is the reading at position [i]. *)
Fixpoint edit_from (i : nat) (clock : nat -> N) (edited : jsstring)
    (data : CreateSchemaRequest) (schemas : list ProductSchema)
  : list ProductSchema :=
  match schemas with
  | [] => []
  | schema :: rest =>
      (if str_eqb (id schema) edited
       then mkProductSchema (id schema)
                            (request_category data) (request_eventType data)
                            (request_schema data)
                            (createdAt schema) (clock i)
       else schema)
      :: edit_from (S i) clock edited data rest
  end.

Definition handleEditSchema (clock : nat -> N) (edited : jsstring)
    (data : CreateSchemaRequest) (schemas : list ProductSchema)
  : list ProductSchema :=
  edit_from 0 clock edited data schemas.

Definition handleDeleteSchema (deleted : jsstring)
    (schemas : list ProductSchema) : list ProductSchema :=
  filter (fun schema => negb (str_eqb (id schema) deleted)) schemas.

End Index.

(* ===================================================================== *)
(** * [PropertyBuilder.tsx]: what the selects show *)
(* ===================================================================== *)

Module PropertyBuilderView.
Import Schema.

(** The [value] of the Input Type select:
    [property.enum ? 'select' : property.format || 'text']. *)
Definition inputTypeValue (property : SchemaProperty) : jsstring :=
  match enum property with
  | Some _ => js "select"
  | None =>
      match format property with
      | Some f => if truthy_string f then f else js "text"
      | None => js "text"
      end
  end.

(** The [value] of the Format select: [property.format || 'none']. *)
Definition formatValue (property : SchemaProperty) : jsstring :=
  match format property with
  | Some f => if truthy_string f then f else js "none"
  | None => js "none"
  end.

(** The [checked] of the Selection Type switch:
    [property.multiple || false]. *)
Definition multipleChecked (property : SchemaProperty) : bool :=
  match multiple property with
  | Some b => b
  | None => false
  end.

End PropertyBuilderView.

(* ===================================================================== *)
(** * [DynamicForm.tsx]: check boxes and the buttons of a step *)
(* ===================================================================== *)

Module FormFields.
Import Schema.

(** [field.value || []] inside [renderInput], whose [field.value] is
    the form's value or [''] when there is none yet. *)
Definition currentValues (fieldValue : option (list jsstring))
  : list jsstring :=
  match fieldValue with
  | Some xs => xs
  | None => []
  end.

(** The [checked] of the box of the option [opt]. *)
Definition boxChecked (opt : jsstring)
    (fieldValue : option (list jsstring)) : bool :=
  includes (currentValues fieldValue) opt.

(** [onCheckedChange] of the box of the option [opt]: what
    [field.onChange] receives. *)
Definition onCheckedChange (opt : jsstring) (checked : bool)
    (fieldValue : option (list jsstring)) : list jsstring :=
  if checked then currentValues fieldValue ++ [opt]
  else filter (fun v => negb (str_eqb v opt)) (currentValues fieldValue).

(** A list of strings as a form value. *)
Definition strings_value (xs : list jsstring) : JSValue :=
  VArray (List.map VString xs).

(** The buttons under a step: Previous is there when
    [multiStep && currentStep > 0]; the right-hand button is Next when
    [multiStep && currentStep < stepsCount - 1] and Submit otherwise. *)
Definition previousShown (multiStep : bool) (currentStep : nat) : bool :=
  (multiStep && Nat.ltb 0 currentStep)%bool.

Definition nextShown (multiStep : bool) (stepsCount : Z) (currentStep : nat)
  : bool :=
  (multiStep && Z.ltb (Z.of_nat currentStep) (stepsCount - 1))%bool.

Definition submitShown (multiStep : bool) (stepsCount : Z) (currentStep : nat)
  : bool :=
  negb (nextShown multiStep stepsCount currentStep).

End FormFields.

(* ===================================================================== *)
(** * [ArrayInput.tsx]: the tag input *)
(* ===================================================================== *)

Module ArrayInput.

(** What a handler does: the array it hands to [onChange], when it
    calls it, and the text of the box afterwards. *)
Record Outcome : Type := mkOutcome {
  emitted : option (list jsstring);
  inputValue : jsstring
}.

Definition addItem (item : jsstring) (value : list jsstring) : Outcome :=
  let trimmedItem := trim item in
  if (truthy_string trimmedItem && negb (includes value trimmedItem))%bool
  then mkOutcome (Some (value ++ [trimmedItem])) empty_string
  else mkOutcome None empty_string.

Definition removeItem (index : nat) (current : jsstring)
    (value : list jsstring) : Outcome :=
  mkOutcome (Some (filter_index_ne index value)) current.

(** [handleKeyDown] for the key [e.key], with [current] in the box. *)
Definition handleKeyDown (key current : jsstring) (value : list jsstring)
  : Outcome :=
  if (str_eqb key (js "Enter") || str_eqb key (js " "))%bool then
    addItem current value
  else if (str_eqb key (js "Backspace") && negb (truthy_string current)
           && Nat.ltb 0 (List.length value))%bool then
    removeItem (List.length value - 1) current value
  else mkOutcome None current.

Definition handleInputBlur (current : jsstring) (value : list jsstring)
  : Outcome :=
  if truthy_string (trim current) then addItem current value
  else mkOutcome None current.

(** The [value] prop at the next render, for a parent that keeps what
    [onChange] received. *)
Definition next_value (value : list jsstring) (o : Outcome) : list jsstring :=
  match emitted o with
  | Some v => v
  | None => value
  end.

End ArrayInput.

(* ===================================================================== *)
(** * SchemaViewer.tsx: the details of a property *)
(* ===================================================================== *)

Module SchemaViewer.
Import Schema.

(** [xs.join(separator)] on an array of strings. *)
Fixpoint join (separator : jsstring) (xs : list jsstring) : jsstring :=
  match xs with
  | [] => empty_string
  | [x] => x
  | x :: rest => x ++ separator ++ join separator rest
  end.

(** [text && <element>{text}</element>]: shown when the attribute is
    there and not the empty string. *)
Definition shown (text : option jsstring) : option jsstring :=
  match text with
  | Some t => if truthy_string t then Some t else None
  | None => None
  end.

(** The block [renderPropertyDetails] builds for one property: the
    heading, the left margin in pixels, the type label, the format
    badge, the Required badge, the description, the allowed values, the
    label and format badge of the array items, and the blocks of the
    nested properties. *)
Inductive Details : Type := mkDetails {
  heading : jsstring;
  marginLeft : nat;
  typeLabel : jsstring;
  formatBadge : option jsstring;
  requiredBadge : bool;
  descriptionText : option jsstring;
  allowedValues : option jsstring;
  arrayItems : option (jsstring * option jsstring);
  nestedDetails : option (list Details)
}.

Section Render.

(** [String.prototype.toUpperCase], and the [schema.schema.required] of
    the schema on view, which the function reads from its closure. *)
Variable toUpperCase : jsstring -> jsstring.
Variable schema_required : list jsstring.

(** [type.charAt(0).toUpperCase() + type.slice(1)]. *)
Definition formatPropertyType (type : jsstring) : jsstring :=
  toUpperCase (firstn 1 type) ++ skipn 1 type.

Fixpoint renderPropertyDetails (property : SchemaProperty) (name : jsstring)
    (level : nat) : Details :=
  let indent := level * 16 in
  mkDetails
    name
    indent
    (formatPropertyType (type property))
    (shown (format property))
    (includes schema_required name)
    (shown (description property))
    (match enum property with
     | Some (x :: rest) => Some (join (js ", ") (x :: rest))
     | _ => None
     end)
    (if str_eqb (type property) (js "array") then
       match items property with
       | Some it =>
           Some (formatPropertyType (items_type it), shown (items_format it))
       | None => None
       end
     else None)
    (match properties property with
     | Some nested =>
         if str_eqb (type property) (js "object") then
           Some (List.map
                   (fun entry =>
                      renderPropertyDetails (snd entry) (fst entry) (level + 1))
                   nested)
         else None
     | None => None
     end).

(** The Properties card: [None] is the notice that no properties are
    defined. *)
Definition propertiesCard (schema_properties : JSObject SchemaProperty)
  : option (list Details) :=
  if Nat.eqb (List.length (keys schema_properties)) 0 then None
  else Some (List.map
               (fun entry => renderPropertyDetails (snd entry) (fst entry) 0)
               (entries schema_properties)).

End Render.

End SchemaViewer.

(* ===================================================================== *)
(** * Vocabulary of the statements *)
(* ===================================================================== *)

Import Schema Zod.

(** A name the rename guard takes for blank: [!newName.trim()]. *)
Definition blank (name : jsstring) : bool :=
  negb (truthy_string (trim name)).

(** The key of the last entry [Object.entries] lists. *)
Definition last_key (V : Type) (o : JSObject V) : option jsstring :=
  last (List.map (fun kv => Some (fst kv)) o) None.

(** The enum attribute, when present, is a non-empty list. *)
Definition enum_ok (p : SchemaProperty) : bool :=
  match enum p with
  | Some [] => false
  | _ => true
  end.

(** What a rule asks of a value, in the words of the table of mapping
    rules. *)
Inductive Requirement : Type :=
| ValidEmail
| DateValue
| SequenceOfStrings
| AString
| Numeric
| ABoolean
| SubRuleset (properties : JSObject SchemaProperty) (required : list jsstring)
| AnyObject
| AnySequence
| AnyValue.

(** The table, read top to bottom, first match wins. *)
Definition requirement (p : SchemaProperty) : Requirement :=
  if str_eqb (type p) (js "string") then
    if DynamicForm.format_is p "email" then ValidEmail
    else if (DynamicForm.format_is p "date"
             || DynamicForm.format_is p "date-time")%bool then DateValue
    else match enum p, multiple p with
         | Some _, Some true => SequenceOfStrings
         | _, _ => AString
         end
  else if str_eqb (type p) (js "number") then Numeric
  else if str_eqb (type p) (js "boolean") then ABoolean
  else if str_eqb (type p) (js "object") then
    match properties p with
    | Some nested => SubRuleset nested (required_or_empty p)
    | None => AnyObject
    end
  else if str_eqb (type p) (js "array") then AnySequence
  else AnyValue.

Definition is_undefined (v : JSValue) : bool :=
  match v with VUndefined => true | _ => false end.

Definition is_string (v : JSValue) : bool :=
  match v with VString _ => true | _ => false end.

(** The table of the earlier copy of the compiler: it has no row for
    options. *)
Definition basic_requirement (p : SchemaProperty) : Requirement :=
  if str_eqb (type p) (js "string") then
    if DynamicForm.format_is p "email" then ValidEmail
    else if (DynamicForm.format_is p "date"
             || DynamicForm.format_is p "date-time")%bool then DateValue
    else AString
  else if str_eqb (type p) (js "number") then Numeric
  else if str_eqb (type p) (js "boolean") then ABoolean
  else if str_eqb (type p) (js "object") then
    match properties p with
    | Some nested => SubRuleset nested (required_or_empty p)
    | None => AnyObject
    end
  else if str_eqb (type p) (js "array") then AnySequence
  else AnyValue.

Section Satisfies.
Variable is_email : jsstring -> bool.

(** A value meets a requirement, where [compile] is the compiler the
    sub-rulesets are compiled by.  An object is a value that is no
    array, no date and no function. *)
Definition meets
    (compile : JSObject SchemaProperty -> list jsstring -> ZodTypeAny)
    (r : Requirement) (v : JSValue) : bool :=
  match r with
  | ValidEmail => match v with VString s => is_email s | _ => false end
  | DateValue => match v with VDate valid => valid | _ => false end
  | SequenceOfStrings =>
      match v with VArray xs => forallb is_string xs | _ => false end
  | AString => is_string v
  | Numeric => match v with VNumber x => negb (is_nan x) | _ => false end
  | ABoolean => match v with VBoolean _ => true | _ => false end
  | SubRuleset nested required =>
      accepts is_email (compile nested required) v
  | AnyObject =>
      match v with VObject _ | VObjectPrototype => true | _ => false end
  | AnySequence => match v with VArray _ => true | _ => false end
  | AnyValue => true
  end.

(** A value meets a requirement of the form with options. *)
Definition satisfies (r : Requirement) (v : JSValue) : bool :=
  meets DynamicForm.createZodSchema r v.
End Satisfies.

(** The number of property nodes in the tree under a property, itself
    included. *)
Fixpoint size (p : SchemaProperty) : nat :=
  match properties p with
  | Some nested => S (list_sum (List.map (fun kq => size (snd kq)) nested))
  | None => 1
  end.

(** The property with every required list of its tree taken away. *)
Fixpoint without_required (p : SchemaProperty) : SchemaProperty :=
  mkSchemaProperty (type p) (description p) (enum p) (format p) (items p)
    (multiple p)
    (match properties p with
     | Some nested =>
         Some (List.map (fun kq => (fst kq, without_required (snd kq))) nested)
     | None => None
     end)
    None.

(** No property of the tree has the multiple flag set. *)
Fixpoint multiple_free (p : SchemaProperty) : bool :=
  (match multiple p with Some true => false | _ => true end
   && match properties p with
      | Some nested => forallb (fun kq => multiple_free (snd kq)) nested
      | None => true
      end)%bool.

(** The blocks of a details block in the order of the page - the block
    itself, then those of its nested properties - each with its depth
    below the block, counted from [depth]. *)
Fixpoint blocks_at (depth : nat) (d : SchemaViewer.Details)
  : list (nat * SchemaViewer.Details) :=
  (depth, d)
  :: match SchemaViewer.nestedDetails d with
     | Some nested => List.concat (List.map (blocks_at (S depth)) nested)
     | None => []
     end.

(** The required list both rename handlers compute when the old name
    is in it. *)
Definition renamed (oldName newName : jsstring) (req : list jsstring)
  : list jsstring :=
  List.map (fun r => if str_eqb r oldName then newName else r) req.

(** The rule the loop of the compiler stores for one entry, and one
    turn of that loop. *)
Definition stored (rule : SchemaProperty -> ZodTypeAny)
    (required : list jsstring) (key : jsstring) (property : SchemaProperty)
  : ZodTypeAny :=
  if negb (includes required key) then optional (rule property)
  else rule property.

Definition shape_step (rule : SchemaProperty -> ZodTypeAny)
    (required : list jsstring) (shape : JSObject ZodTypeAny)
    (entry : jsstring * SchemaProperty) : JSObject ZodTypeAny :=
  assign (fst entry) (stored rule required (fst entry) (snd entry)) shape.

(** The schema and the typed input of the price scenario. *)
Definition widget_properties : JSObject SchemaProperty :=
  [(js "name", mkSchemaProperty (js "string") None None None None None
                                None None);
   (js "price", mkSchemaProperty (js "number") None None None None None
                                 None None)].

Definition widget_required : list jsstring := [js "name"; js "price"].

Definition widget_typed : list (jsstring * jsstring) :=
  [(js "name", js "Widget"); (js "price", js "not-a-number")].

(** The values the form holds after that input, and the typed texts
    taken as values. *)
Definition widget_values : JSObject JSValue :=
  [(js "name", VString (js "Widget")); (js "price", VNumber zero)].

Definition widget_texts : JSObject JSValue :=
  [(js "name", VString (js "Widget"));
   (js "price", VString (js "not-a-number"))].

(* ===================================================================== *)
(** * Strings and objects: basic facts *)
(* ===================================================================== *)

Lemma str_eqb_eq (a b : jsstring) : str_eqb a b = true <-> a = b.
Proof.
  unfold str_eqb. destruct (list_eq_dec N.eq_dec a b); split; congruence.
Qed.

Lemma str_eqb_refl (a : jsstring) : str_eqb a a = true.
Proof. now apply str_eqb_eq. Qed.

Lemma str_eqb_neq (a b : jsstring) : str_eqb a b = false <-> a <> b.
Proof.
  unfold str_eqb. destruct (list_eq_dec N.eq_dec a b); split; congruence.
Qed.

Lemma str_eqb_sym (a b : jsstring) : str_eqb a b = str_eqb b a.
Proof.
  destruct (str_eqb b a) eqn:E.
  - apply str_eqb_eq in E. subst. apply str_eqb_refl.
  - apply str_eqb_neq in E. apply str_eqb_neq. congruence.
Qed.

Ltac str_cases a b :=
  let E := fresh "E" in
  destruct (str_eqb a b) eqn:E;
  [ apply str_eqb_eq in E | pose proof E as E'; apply str_eqb_neq in E' ].

Lemma includes_In (xs : list jsstring) (x : jsstring) :
  includes xs x = true <-> In x xs.
Proof.
  unfold includes. rewrite existsb_exists. split.
  - intros (y & Hy & E). apply str_eqb_eq in E. now subst.
  - intros H. exists x. split; [assumption | apply str_eqb_refl].
Qed.

Lemma includes_app (xs ys : list jsstring) (x : jsstring) :
  includes (xs ++ ys) x = (includes xs x || includes ys x)%bool.
Proof. unfold includes. apply existsb_app. Qed.

Lemma includes_filter_ne (xs : list jsstring) (name x : jsstring) :
  includes (filter (fun req => negb (str_eqb req name)) xs) x
  = (includes xs x && negb (str_eqb x name))%bool.
Proof.
  induction xs as [|y ys IH]; simpl; [reflexivity|].
  destruct (str_eqb y name) eqn:Ey; simpl.
  - rewrite IH. apply str_eqb_eq in Ey. subst y.
    destruct (str_eqb x name) eqn:Ex; simpl.
    + now rewrite !andb_false_r.
    + reflexivity.
  - rewrite IH. destruct (str_eqb x y) eqn:Exy; simpl; [|reflexivity].
    apply str_eqb_eq in Exy. subst y. now rewrite Ey.
Qed.

Section ObjectFacts.
Variable V : Type.
Implicit Types (o : JSObject V) (k : jsstring) (v : V).

Lemma has_get k o :
  has k o = match get k o with Some _ => true | None => false end.
Proof.
  induction o as [|[k' v'] rest IH]; simpl; [reflexivity|].
  destruct (str_eqb k' k); simpl; [reflexivity | exact IH].
Qed.

Lemma has_includes k o : has k o = includes (keys o) k.
Proof.
  induction o as [|[k' v'] rest IH]; simpl; [reflexivity|].
  unfold includes in *. simpl. rewrite IH. now rewrite (str_eqb_sym k k').
Qed.

Lemma get_app k o1 o2 :
  get k (o1 ++ o2) = match get k o1 with
                     | Some v => Some v
                     | None => get k o2
                     end.
Proof.
  induction o1 as [|[k' v'] rest IH]; simpl; [reflexivity|].
  destruct (str_eqb k' k); [reflexivity | exact IH].
Qed.

Lemma get_replace_same k v o :
  has k o = true -> get k (replace k v o) = Some v.
Proof.
  induction o as [|[k' v'] rest IH]; simpl; [discriminate|].
  destruct (str_eqb k' k) eqn:E; simpl.
  - now rewrite str_eqb_refl.
  - rewrite E. exact IH.
Qed.

Lemma get_replace_other k k' v o :
  k' <> k -> get k' (replace k v o) = get k' o.
Proof.
  intros Hne. induction o as [|[k0 v0] rest IH]; simpl; [reflexivity|].
  destruct (str_eqb k0 k) eqn:E; simpl.
  - apply str_eqb_eq in E. subst k0.
    assert (str_eqb k k' = false) as -> by (apply str_eqb_neq; congruence).
    reflexivity.
  - destruct (str_eqb k0 k'); [reflexivity | exact IH].
Qed.

Lemma keys_replace k v o : keys (replace k v o) = keys o.
Proof.
  unfold keys.
  induction o as [|[k0 v0] rest IH]; simpl; [reflexivity|].
  destruct (str_eqb k0 k) eqn:E; simpl.
  - apply str_eqb_eq in E. now subst.
  - now rewrite IH.
Qed.

(** Replacing writes in place: the entries before and after the key
    stay where they are. *)
Lemma replace_in_place k v o :
  has k o = true ->
  exists before old after,
    o = before ++ (k, old) :: after
    /\ has k before = false
    /\ replace k v o = before ++ (k, v) :: after.
Proof.
  induction o as [|[k0 v0] rest IH]; simpl; [discriminate|].
  destruct (str_eqb k0 k) eqn:E; simpl.
  - intros _. apply str_eqb_eq in E. subst k0.
    exists [], v0, rest. now repeat split.
  - intros H. destruct (IH H) as (b & old & a & -> & Hb & ->).
    exists ((k0, v0) :: b), old, a. simpl. rewrite E. now repeat split.
Qed.

Lemma get_insert_index_same k i v o :
  has k o = false -> get k (insert_index k i v o) = Some v.
Proof.
  induction o as [|[k0 v0] rest IH]; simpl.
  - now rewrite str_eqb_refl.
  - destruct (str_eqb k0 k) eqn:E; simpl; [discriminate|]. intros H.
    destruct (array_index k0) as [i'|]; [destruct (N.ltb i i')|]; simpl.
    + now rewrite str_eqb_refl.
    + rewrite E. now apply IH.
    + now rewrite str_eqb_refl.
Qed.

Lemma get_insert_index_other k k' i v o :
  k' <> k -> get k' (insert_index k i v o) = get k' o.
Proof.
  intros Hne.
  assert (str_eqb k k' = false) as Hk by (apply str_eqb_neq; congruence).
  induction o as [|[k0 v0] rest IH]; simpl.
  - now rewrite Hk.
  - destruct (array_index k0) as [i'|]; [destruct (N.ltb i i')|]; simpl.
    + now rewrite Hk.
    + now rewrite IH.
    + now rewrite Hk.
Qed.

Lemma get_set_same k v o : get k (set k v o) = Some v.
Proof.
  unfold set. destruct (has k o) eqn:H.
  - now apply get_replace_same.
  - destruct (array_index k).
    + now apply get_insert_index_same.
    + rewrite get_app. rewrite has_get in H.
      destruct (get k o); [discriminate|]. simpl. now rewrite str_eqb_refl.
Qed.

Lemma get_set_other k k' v o : k' <> k -> get k' (set k v o) = get k' o.
Proof.
  intros Hne. unfold set. destruct (has k o).
  - now apply get_replace_other.
  - destruct (array_index k).
    + now apply get_insert_index_other.
    + rewrite get_app. destruct (get k' o); [reflexivity|]. simpl.
      assert (str_eqb k k' = false) as -> by (apply str_eqb_neq; congruence).
      reflexivity.
Qed.

(** Plain assignment is [set], except at a fresh [__proto__], where it
    leaves the own properties as they are. *)
Lemma assign_set k v o :
  k <> js "__proto__" \/ has k o = true -> assign k v o = set k v o.
Proof.
  intros H. unfold assign. destruct H as [H | H].
  - apply str_eqb_neq in H. now rewrite H.
  - rewrite H. now rewrite andb_false_r.
Qed.

Lemma assign_proto v o :
  has (js "__proto__") o = false -> assign (js "__proto__") v o = o.
Proof. intros H. unfold assign. now rewrite H, str_eqb_refl. Qed.

Lemma get_assign_other k k' v o :
  k' <> k -> get k' (assign k v o) = get k' o.
Proof.
  intros Hne. unfold assign.
  destruct (_ && _)%bool; [reflexivity | now apply get_set_other].
Qed.

Lemma get_delete_same k o : get k (delete k o) = None.
Proof.
  induction o as [|[k0 v0] rest IH]; simpl; [reflexivity|].
  destruct (str_eqb k0 k) eqn:E; simpl; [exact IH|]. now rewrite E.
Qed.

Lemma get_delete_other k k' o : k' <> k -> get k' (delete k o) = get k' o.
Proof.
  intros Hne. induction o as [|[k0 v0] rest IH]; simpl; [reflexivity|].
  destruct (str_eqb k0 k) eqn:E; simpl.
  - apply str_eqb_eq in E. subst k0.
    assert (str_eqb k k' = false) as -> by (apply str_eqb_neq; congruence).
    exact IH.
  - destruct (str_eqb k0 k'); [reflexivity | exact IH].
Qed.

Lemma has_delete_same k o : has k (delete k o) = false.
Proof. rewrite has_get. now rewrite get_delete_same. Qed.

Lemma delete_app k o1 o2 : delete k (o1 ++ o2) = delete k o1 ++ delete k o2.
Proof. unfold delete. apply filter_app. Qed.

Lemma last_key_app_one o k v : last_key (o ++ [(k, v)]) = Some k.
Proof.
  unfold last_key. rewrite map_app. simpl. now rewrite last_last.
Qed.

End ObjectFacts.

Lemma get_In (V : Type) (k : jsstring) (v : V) (o : JSObject V) :
  get k o = Some v -> In (k, v) o.
Proof.
  induction o as [|[k0 v0] rest IH]; simpl; [discriminate|].
  str_cases k0 k.
  - intros H. injection H as <-. subst. now left.
  - intros H. right. now apply IH.
Qed.

Lemma get_keys (V : Type) (k : jsstring) (v : V) (o : JSObject V) :
  get k o = Some v -> In k (keys o).
Proof.
  intros H. apply get_In in H. unfold keys.
  apply in_map_iff. now exists (k, v).
Qed.

Lemma forallb_false_In (A : Type) (f : A -> bool) (x : A) (xs : list A) :
  In x xs -> f x = false -> forallb f xs = false.
Proof.
  intros Hin Hf. destruct (forallb f xs) eqn:E; [|reflexivity].
  rewrite forallb_forall in E. specialize (E x Hin). congruence.
Qed.

(* ===================================================================== *)
(** * The required list: toggling and renaming *)
(* ===================================================================== *)

(** The list both toggle handlers compute. *)
Lemma toggled_membership (req : list jsstring) (name x : jsstring) :
  includes (if includes req name
            then filter (fun r => negb (str_eqb r name)) req
            else req ++ [name]) x
  = if str_eqb x name then negb (includes req name) else includes req x.
Proof.
  destruct (includes req name) eqn:Hin.
  - rewrite includes_filter_ne. str_cases x name.
    + now rewrite andb_false_r.
    + now rewrite andb_true_r.
  - rewrite includes_app. unfold includes at 2. simpl.
    str_cases x name.
    + subst. now rewrite Hin.
    + now rewrite !orb_false_r.
Qed.

Lemma renamed_has_new (oldName newName : jsstring) (req : list jsstring) :
  includes req oldName = true ->
  includes (renamed oldName newName req) newName = true.
Proof.
  intros H. apply includes_In in H. apply includes_In.
  apply in_map_iff. exists oldName. now rewrite str_eqb_refl.
Qed.

Lemma renamed_lacks_old (oldName newName : jsstring) (req : list jsstring) :
  newName <> oldName ->
  includes (renamed oldName newName req) oldName = false.
Proof.
  intros Hne. destruct (includes _ oldName) eqn:H; [|reflexivity].
  apply includes_In in H. apply in_map_iff in H. destruct H as (r & Hr & _).
  str_cases r oldName; congruence.
Qed.

Lemma renamed_others (oldName newName x : jsstring) (req : list jsstring) :
  x <> oldName -> x <> newName ->
  includes (renamed oldName newName req) x = includes req x.
Proof.
  intros H1 H2. induction req as [|r rest IH]; [reflexivity|].
  unfold includes in *. simpl. rewrite IH. f_equal.
  str_cases r oldName.
  - subst r. transitivity false; [|symmetry]; apply str_eqb_neq; congruence.
  - reflexivity.
Qed.

(* ===================================================================== *)
(** * Re-keying an object *)
(* ===================================================================== *)

Section Rekey.
Variable V : Type.
Implicit Types (o : JSObject V) (k : jsstring) (v : V).

Lemma keys_delete k o :
  keys (delete k o) = filter (fun x => negb (str_eqb x k)) (keys o).
Proof.
  unfold keys, delete.
  induction o as [|[k0 v0] rest IH]; simpl; [reflexivity|].
  destruct (str_eqb k0 k); simpl; now rewrite IH.
Qed.

(** Re-keying onto a fresh name that is no array index: the entry goes
    to the end. *)
Lemma rekey_fresh oldName newName v o :
  newName <> oldName ->
  has newName o = false -> array_index newName = None ->
  delete oldName (set newName v o) = delete oldName o ++ [(newName, v)].
Proof.
  intros Hne Hfresh Hidx. unfold set. rewrite Hfresh, Hidx.
  rewrite delete_app. f_equal. unfold delete. simpl.
  assert (str_eqb newName oldName = false) as ->
    by now apply str_eqb_neq.
  reflexivity.
Qed.

(** Re-keying onto a name the object already has: that key keeps its
    place. *)
Lemma rekey_existing oldName newName v o :
  has newName o = true ->
  keys (delete oldName (set newName v o)) = keys (delete oldName o).
Proof.
  intros Hhas. unfold set. rewrite Hhas.
  now rewrite !keys_delete, keys_replace.
Qed.

Lemma rekey_get_new oldName newName v o :
  newName <> oldName ->
  get newName (delete oldName (set newName v o)) = Some v.
Proof.
  intros Hne. rewrite get_delete_other by assumption. apply get_set_same.
Qed.

Lemma rekey_get_other oldName newName v o k :
  k <> oldName -> k <> newName ->
  get k (delete oldName (set newName v o)) = get k o.
Proof.
  intros H1 H2. rewrite get_delete_other by assumption.
  now apply get_set_other.
Qed.

End Rekey.

(* ===================================================================== *)
(** * Assignment and deletion keep an object an object *)
(* ===================================================================== *)

Lemma distinct_cons (k : jsstring) (ks : list jsstring) :
  distinct (k :: ks) = true <-> ~ In k ks /\ distinct ks = true.
Proof.
  simpl. rewrite andb_true_iff, negb_true_iff. split.
  - intros [H1 H2]. split; [|assumption].
    intros Hin. apply includes_In in Hin. congruence.
  - intros [H1 H2]. split; [|assumption].
    destruct (includes ks k) eqn:E; [|reflexivity].
    apply includes_In in E. contradiction.
Qed.

Lemma distinct_filter (f : jsstring -> bool) (ks : list jsstring) :
  distinct ks = true -> distinct (filter f ks) = true.
Proof.
  induction ks as [|k rest IH]; [reflexivity|].
  intros H. apply distinct_cons in H. destruct H as [Hk Hd].
  simpl. destruct (f k); [|now apply IH].
  apply distinct_cons. split; [|now apply IH].
  intros Hin. apply filter_In in Hin. tauto.
Qed.

Lemma distinct_app_one (ks : list jsstring) (k : jsstring) :
  distinct ks = true -> ~ In k ks -> distinct (ks ++ [k]) = true.
Proof.
  induction ks as [|k0 rest IH]; intros Hd Hk; [reflexivity|].
  apply distinct_cons in Hd. destruct Hd as [Hk0 Hd].
  change ((k0 :: rest) ++ [k]) with (k0 :: (rest ++ [k])).
  apply distinct_cons. split.
  - rewrite in_app_iff. simpl in *. intuition congruence.
  - apply IH; [assumption|]. simpl in Hk. tauto.
Qed.

Lemma index_prefix_from_lower (lo lo' : N) (ks : list jsstring) :
  (lo' <= lo)%N ->
  index_prefix_from lo ks = true -> index_prefix_from lo' ks = true.
Proof.
  intros Hle. destruct ks as [|k rest]; [reflexivity|]. simpl.
  destruct (array_index k) as [i|]; [|auto].
  rewrite !andb_true_iff, !N.leb_le. intros [H1 H2]. split; [lia|assumption].
Qed.

Lemma index_prefix_from_filter (f : jsstring -> bool) (lo : N)
    (ks : list jsstring) :
  index_prefix_from lo ks = true -> index_prefix_from lo (filter f ks) = true.
Proof.
  revert lo. induction ks as [|k rest IH]; intros lo H; [reflexivity|].
  simpl in H. simpl filter. destruct (array_index k) as [i|] eqn:Ek.
  - apply andb_true_iff in H. destruct H as [H1 H2].
    destruct (f k).
    + simpl. rewrite Ek, H1. now apply IH.
    + apply IH. apply N.leb_le in H1.
      now apply index_prefix_from_lower with i.
  - assert (forallb (fun k' => negb (is_array_index k')) (filter f rest)
            = true) as Hf.
    { rewrite forallb_forall in *. intros x Hx.
      apply filter_In in Hx. now apply H. }
    destruct (f k).
    + simpl. now rewrite Ek.
    + clear IH H. induction (filter f rest) as [|x xs IHx]; [reflexivity|].
      simpl in *. apply andb_true_iff in Hf. destruct Hf as [Hx Hxs].
      unfold is_array_index in Hx.
      destruct (array_index x); [discriminate | assumption].
Qed.

Lemma index_prefix_from_app_one (lo : N) (ks : list jsstring) (k : jsstring) :
  array_index k = None ->
  index_prefix_from lo ks = true -> index_prefix_from lo (ks ++ [k]) = true.
Proof.
  intros Hk. revert lo. induction ks as [|k0 rest IH]; intros lo H.
  - simpl. now rewrite Hk.
  - simpl in *. destruct (array_index k0) as [i|].
    + apply andb_true_iff in H. destruct H as [H1 H2].
      rewrite H1. now apply IH.
    + rewrite forallb_app, H. simpl. unfold is_array_index. now rewrite Hk.
Qed.

Section WellFormed.
Variable V : Type.
Implicit Types (o : JSObject V) (k : jsstring) (v : V).

Lemma keys_insert_index_In k i v o x :
  In x (keys (insert_index k i v o)) <-> x = k \/ In x (keys o).
Proof.
  induction o as [|[k0 v0] rest IH]; simpl.
  - intuition.
  - destruct (array_index k0) as [i'|]; [destruct (N.ltb i i')|]; simpl.
    + intuition.
    + unfold keys in IH. rewrite IH. intuition.
    + intuition.
Qed.

Lemma distinct_insert_index k i v o :
  distinct (keys o) = true -> ~ In k (keys o) ->
  distinct (keys (insert_index k i v o)) = true.
Proof.
  induction o as [|[k0 v0] rest IH]; intros Hd Hk; [reflexivity|].
  change (keys ((k0, v0) :: rest)) with (k0 :: keys rest) in *.
  assert (distinct (k :: k0 :: keys rest) = true) as Hfront
    by (apply distinct_cons; now split).
  simpl insert_index.
  destruct (array_index k0) as [i'|]; [destruct (N.ltb i i')|];
    try exact Hfront.
  apply distinct_cons in Hd. destruct Hd as [Hk0 Hd].
  change (keys ((k0, v0) :: insert_index k i v rest))
    with (k0 :: keys (insert_index k i v rest)).
  apply distinct_cons. split.
  - rewrite keys_insert_index_In. simpl in Hk. intuition congruence.
  - apply IH; [assumption|]. simpl in Hk. tauto.
Qed.

Lemma index_prefix_from_insert_index k i v o lo :
  array_index k = Some i -> (lo <= i)%N ->
  index_prefix_from lo (keys o) = true ->
  index_prefix_from lo (keys (insert_index k i v o)) = true.
Proof.
  intros Hk. revert lo. induction o as [|[k0 v0] rest IH]; intros lo Hlo H.
  - simpl. rewrite Hk. now apply N.leb_le in Hlo as ->.
  - change (keys ((k0, v0) :: rest)) with (k0 :: keys rest) in H.
    simpl in H. simpl insert_index.
    destruct (array_index k0) as [i'|] eqn:E0.
    + apply andb_true_iff in H. destruct H as [H1 H2].
      destruct (N.ltb_spec i i') as [Hlt | Hge].
      * change (keys ((k, v) :: (k0, v0) :: rest))
          with (k :: k0 :: keys rest).
        simpl. rewrite Hk, E0, H2.
        apply N.leb_le in Hlo as ->.
        assert (N.leb i i' = true) as -> by (apply N.leb_le; lia).
        reflexivity.
      * change (keys ((k0, v0) :: insert_index k i v rest))
          with (k0 :: keys (insert_index k i v rest)).
        simpl. rewrite E0, H1. now apply IH.
    + change (keys ((k, v) :: (k0, v0) :: rest)) with (k :: k0 :: keys rest).
      simpl. rewrite Hk, E0, H.
      now apply N.leb_le in Hlo as ->.
Qed.

(** [o[k] = v] gives an object again. *)
Lemma set_well_formed k v o :
  well_formed o = true -> well_formed (set k v o) = true.
Proof.
  unfold well_formed, set. intros H.
  apply andb_true_iff in H. destruct H as [Hd Hi].
  destruct (has k o) eqn:Hhas.
  - now rewrite keys_replace, Hd, Hi.
  - assert (~ In k (keys o)) as Hk.
    { rewrite has_includes in Hhas. intros Hin.
      apply includes_In in Hin. congruence. }
    destruct (array_index k) as [i|] eqn:Ek.
    + rewrite distinct_insert_index by assumption.
      apply index_prefix_from_insert_index; [assumption | lia | assumption].
    + unfold keys. rewrite map_app. simpl.
      rewrite distinct_app_one by assumption.
      now apply index_prefix_from_app_one.
Qed.

Lemma assign_well_formed k v o :
  well_formed o = true -> well_formed (assign k v o) = true.
Proof.
  intros H. unfold assign.
  destruct (_ && _)%bool; [assumption | now apply set_well_formed].
Qed.

(** [delete o[k]] gives an object again. *)
Lemma delete_well_formed k o :
  well_formed o = true -> well_formed (delete k o) = true.
Proof.
  unfold well_formed. intros H.
  apply andb_true_iff in H. destruct H as [Hd Hi].
  rewrite keys_delete, distinct_filter by assumption.
  now apply index_prefix_from_filter.
Qed.

End WellFormed.

(** The handlers of the top level keep the properties mapping an
    object. *)
Lemma handlers_keep_properties_well_formed (st : SchemaBuilder.State) :
  well_formed (SchemaBuilder.properties st) = true ->
  well_formed (SchemaBuilder.properties (SchemaBuilder.addProperty st)) = true
  /\ (forall name property,
        well_formed (SchemaBuilder.properties
                       (SchemaBuilder.updateProperty name property st)) = true)
  /\ (forall name,
        well_formed (SchemaBuilder.properties
                       (SchemaBuilder.removeProperty name st)) = true)
  /\ (forall name,
        well_formed (SchemaBuilder.properties
                       (SchemaBuilder.toggleRequired name st)) = true)
  /\ (forall oldName newName st',
        SchemaBuilder.renameProperty oldName newName st = Some st' ->
        well_formed (SchemaBuilder.properties st') = true).
Proof.
  intros H. repeat match goal with |- _ /\ _ => split end.
  - now apply set_well_formed.
  - intros. now apply set_well_formed.
  - intros. now apply delete_well_formed.
  - intros name. unfold SchemaBuilder.toggleRequired.
    now destruct (includes _ name).
  - intros oldName newName st' Hr. unfold SchemaBuilder.renameProperty in Hr.
    destruct (_ || _)%bool.
    + now injection Hr as <-.
    + destruct (get oldName (SchemaBuilder.properties st)).
      * injection Hr as <-. simpl.
        now apply delete_well_formed, assign_well_formed.
      * destruct (_ && _)%bool; [|discriminate].
        injection Hr as <-. simpl. now apply delete_well_formed.
Qed.

(* ===================================================================== *)
(** * Toggle required *)
(* ===================================================================== *)

Import SchemaBuilder PropertyBuilder.

Lemma toggleRequired_properties (st : State) (name : jsstring) :
  SchemaBuilder.properties (toggleRequired name st)
  = SchemaBuilder.properties st.
Proof.
  unfold toggleRequired.
  now destruct (includes (SchemaBuilder.required st) name).
Qed.

Lemma toggleRequired_membership (st : State) (name x : jsstring) :
  includes (SchemaBuilder.required (toggleRequired name st)) x
  = if str_eqb x name
    then negb (includes (SchemaBuilder.required st) name)
    else includes (SchemaBuilder.required st) x.
Proof.
  rewrite <- toggled_membership. unfold toggleRequired.
  now destruct (includes (SchemaBuilder.required st) name).
Qed.

Lemma toggleNestedRequired_membership (p : SchemaProperty)
    (name x : jsstring) :
  includes (required_or_empty (toggleNestedRequired name p)) x
  = if str_eqb x name
    then negb (includes (required_or_empty p) name)
    else includes (required_or_empty p) x.
Proof. rewrite <- toggled_membership. reflexivity. Qed.

(** C5 (as amended).  Toggling required on a name flips the membership
    of that name in the local required list - added when absent, every
    occurrence removed when present - and leaves the membership of every
    other name and the properties mapping as they were.  Neither handler
    looks the name up in the mapping: the same holds for a name that is
    no property. *)
Theorem toggle_required_flips_membership :
  forall (st : State) (p : SchemaProperty) (name : jsstring),
    (SchemaBuilder.properties (toggleRequired name st)
       = SchemaBuilder.properties st
     /\ includes (SchemaBuilder.required (toggleRequired name st)) name
        = negb (includes (SchemaBuilder.required st) name)
     /\ forall other, other <> name ->
          includes (SchemaBuilder.required (toggleRequired name st)) other
          = includes (SchemaBuilder.required st) other)
    /\
    (Schema.properties (toggleNestedRequired name p) = Schema.properties p
     /\ includes (required_or_empty (toggleNestedRequired name p)) name
        = negb (includes (required_or_empty p) name)
     /\ forall other, other <> name ->
          includes (required_or_empty (toggleNestedRequired name p)) other
          = includes (required_or_empty p) other).
Proof.
  intros st p name. repeat split.
  - apply toggleRequired_properties.
  - rewrite toggleRequired_membership. now rewrite str_eqb_refl.
  - intros other Hne. rewrite toggleRequired_membership.
    now apply str_eqb_neq in Hne as ->.
  - rewrite toggleNestedRequired_membership. now rewrite str_eqb_refl.
  - intros other Hne. rewrite toggleNestedRequired_membership.
    now apply str_eqb_neq in Hne as ->.
Qed.

(** C5 (as stated) fails: with no property called [ghost] in the
    mapping, toggling required on [ghost] still changes the required
    list, from empty to [[ghost]]. *)
Lemma toggle_required_unknown_name :
  let st := mkState [(js "name", default_property)] [] in
  well_formed (SchemaBuilder.properties st) = true
  /\ has (js "ghost") (SchemaBuilder.properties st) = false
  /\ SchemaBuilder.required st = []
  /\ toggleRequired (js "ghost") st
     = mkState [(js "name", default_property)] [js "ghost"]
  /\ toggleRequired (js "ghost") st <> st
  /\ required_or_empty
       (toggleNestedRequired (js "ghost")
          (with_properties (Some []) (with_type (js "object") default_property)))
     = [js "ghost"].
Proof. repeat split. discriminate. Qed.

(** C9.  Toggling required twice in succession on a name gives a
    required list with the members of the original one, and leaves the
    properties mapping alone; this holds for every name, so for every
    name of a property of the mapping. *)
Theorem toggle_required_twice :
  forall (st : State) (p : SchemaProperty) (name x : jsstring),
    (SchemaBuilder.properties (toggleRequired name (toggleRequired name st))
       = SchemaBuilder.properties st
     /\ (In x (SchemaBuilder.required
                 (toggleRequired name (toggleRequired name st)))
         <-> In x (SchemaBuilder.required st)))
    /\
    (Schema.properties (toggleNestedRequired name (toggleNestedRequired name p))
       = Schema.properties p
     /\ (In x (required_or_empty
                 (toggleNestedRequired name (toggleNestedRequired name p)))
         <-> In x (required_or_empty p))).
Proof.
  intros st p name x. repeat split.
  - now rewrite !toggleRequired_properties.
  - rewrite <- !includes_In, !toggleRequired_membership, str_eqb_refl.
    destruct (str_eqb x name) eqn:E; [|tauto].
    apply str_eqb_eq in E. subst x. now rewrite negb_involutive.
  - rewrite <- !includes_In, !toggleRequired_membership, str_eqb_refl.
    destruct (str_eqb x name) eqn:E; [|tauto].
    apply str_eqb_eq in E. subst x. now rewrite negb_involutive.
  - rewrite <- !includes_In, !toggleNestedRequired_membership, str_eqb_refl.
    destruct (str_eqb x name) eqn:E; [|tauto].
    apply str_eqb_eq in E. subst x. now rewrite negb_involutive.
  - rewrite <- !includes_In, !toggleNestedRequired_membership, str_eqb_refl.
    destruct (str_eqb x name) eqn:E; [|tauto].
    apply str_eqb_eq in E. subst x. now rewrite negb_involutive.
Qed.

(* ===================================================================== *)
(** * Rename property *)
(* ===================================================================== *)

(** C7.  Renaming a property to a blank string, or to the name it has,
    leaves the properties mapping and the required list exactly as they
    were, at the top level and in a nested node: the handler returns
    before it touches the state. *)
Theorem rename_blank_or_same_name_is_ignored :
  forall (st : State) (p : SchemaProperty) (oldName newName : jsstring),
    newName = oldName \/ blank newName = true ->
    renameProperty oldName newName st = Some st
    /\ renameNestedProperty oldName newName p = Some p.
Proof.
  intros st p oldName newName H.
  unfold renameProperty, renameNestedProperty.
  assert ((str_eqb oldName newName
           || negb (truthy_string (trim newName)))%bool = true) as ->.
  { destruct H as [-> | Hb].
    - now rewrite str_eqb_refl.
    - unfold blank in Hb. rewrite Hb. apply orb_true_r. }
  split; reflexivity.
Qed.

Lemma rename_blank_or_same_name_is_ignored_witness :
  let st := mkState [(js "a", default_property); (js "b", default_property)]
                    [js "a"] in
  let p := with_required (Some [js "a"])
             (with_properties (Some [(js "a", default_property)])
                (with_type (js "object") default_property)) in
  (renameProperty (js "a") (js " ") st = Some st
   /\ renameNestedProperty (js "a") (js " ") p = Some p)
  /\ (renameProperty (js "a") (js "a") st = Some st
      /\ renameNestedProperty (js "a") (js "a") p = Some p).
Proof.
  split.
  - apply rename_blank_or_same_name_is_ignored. right. reflexivity.
  - apply rename_blank_or_same_name_is_ignored. left. reflexivity.
Defined.

(** What the guard lets through. *)
Lemma rename_guard_open (oldName newName : jsstring) :
  newName <> oldName -> blank newName = false ->
  (str_eqb oldName newName || negb (truthy_string (trim newName)))%bool
  = false.
Proof.
  intros Hne Hb. unfold blank in Hb. rewrite Hb, orb_false_r.
  apply str_eqb_neq. congruence.
Qed.

(** C2 (as amended).  Let [oldName] be a property of the mapping [o] and
    a member of the required list [req], and [newName] a non-blank name
    other than [oldName].  Renaming gives a mapping [o'] and a required
    list [req'] where [newName] and not [oldName] is required, [o'] has
    no key [oldName], and every key other than the two names has its
    value.  When [newName] is not [__proto__], or is a key of [o], the
    value formerly at [oldName] is at [newName]; then, when [newName]
    was no key of [o] and is no array index, the renamed entry is the
    last entry of [o'], after the other entries in their order, and
    when [newName] was a key of [o], the keys of [o'] are those of [o]
    without [oldName], in their order: the entry takes the place
    [newName] had.  When [newName] is [__proto__] and no key of [o], the
    assignment makes no key: [o'] is [o] without [oldName], and the
    property is lost.  Both the top-level and the nested handler
    produce this [o'] and [req']. *)
Theorem rename_required_property :
  forall (o : JSObject SchemaProperty) (req : list jsstring)
         (oldName newName : jsstring) (moved : SchemaProperty),
    get oldName o = Some moved ->
    includes req oldName = true ->
    newName <> oldName ->
    blank newName = false ->
    exists o' req',
      (forall st, SchemaBuilder.properties st = o ->
                  SchemaBuilder.required st = req ->
                  renameProperty oldName newName st = Some (mkState o' req'))
      /\ (forall p, properties_or_empty p = o -> required_or_empty p = req ->
                    renameNestedProperty oldName newName p
                    = Some (with_required (Some req')
                              (with_properties (Some o') p)))
      /\ includes req' newName = true
      /\ includes req' oldName = false
      /\ has oldName o' = false
      /\ (forall k, k <> oldName -> k <> newName -> get k o' = get k o)
      /\ (newName <> js "__proto__" \/ has newName o = true ->
          get newName o' = Some moved
          /\ (has newName o = false -> array_index newName = None ->
              o' = delete oldName o ++ [(newName, moved)]
              /\ last_key o' = Some newName)
          /\ (has newName o = true -> keys o' = keys (delete oldName o)))
      /\ (newName = js "__proto__" -> has newName o = false ->
          o' = delete oldName o /\ get newName o' = None).
Proof.
  intros o req oldName newName moved Hget Hreq Hne Hb.
  exists (delete oldName (assign newName moved o)),
         (renamed oldName newName req).
  pose proof (rename_guard_open Hne Hb) as G.
  repeat match goal with |- _ /\ _ => split end.
  - intros st <- <-. unfold renameProperty.
    rewrite G, Hget, Hreq. reflexivity.
  - intros p <- <-. unfold renameNestedProperty.
    rewrite G, Hget, Hreq. reflexivity.
  - now apply renamed_has_new.
  - now apply renamed_lacks_old.
  - apply has_delete_same.
  - intros k H1 H2. rewrite get_delete_other by assumption.
    now apply get_assign_other.
  - intros Hown. rewrite (@assign_set _ newName moved o Hown).
    repeat match goal with |- _ /\ _ => split end.
    + now apply rekey_get_new.
    + intros Hfresh Hidx. split; [now apply rekey_fresh|].
      rewrite rekey_fresh by assumption. apply last_key_app_one.
    + intros Hhas. now apply rekey_existing.
  - intros -> Hfresh. rewrite (@assign_proto _ moved o Hfresh).
    split; [reflexivity|].
    rewrite get_delete_other by assumption.
    rewrite has_get in Hfresh.
    now destruct (get (js "__proto__") o).
Qed.

Lemma rename_required_property_witness :
  let number_property := with_type (js "number") default_property in
  let o := [(js "a", number_property); (js "c", default_property)] in
  exists o' req',
    (forall st, SchemaBuilder.properties st = o ->
                SchemaBuilder.required st = [js "a"] ->
                renameProperty (js "a") (js "b") st = Some (mkState o' req'))
    /\ (forall p, properties_or_empty p = o ->
                  required_or_empty p = [js "a"] ->
                  renameNestedProperty (js "a") (js "b") p
                  = Some (with_required (Some req')
                            (with_properties (Some o') p)))
    /\ includes req' (js "b") = true
    /\ includes req' (js "a") = false
    /\ has (js "a") o' = false
    /\ (forall k, k <> js "a" -> k <> js "b" -> get k o' = get k o)
    /\ (js "b" <> js "__proto__" \/ has (js "b") o = true ->
        get (js "b") o' = Some number_property
        /\ (has (js "b") o = false -> array_index (js "b") = None ->
            o' = delete (js "a") o ++ [(js "b", number_property)]
            /\ last_key o' = Some (js "b"))
        /\ (has (js "b") o = true -> keys o' = keys (delete (js "a") o)))
    /\ (js "b" = js "__proto__" -> has (js "b") o = false ->
        o' = delete (js "a") o /\ get (js "b") o' = None).
Proof.
  apply rename_required_property.
  - reflexivity.
  - reflexivity.
  - discriminate.
  - reflexivity.
Defined.

(** C2 (as stated) fails: renaming [a] to [b] in the mapping
    [{b, a, c}], where [a] is required and [b] is already a key, leaves
    the renamed entry first and [c] last: it is not moved to the end. *)
Lemma rename_onto_existing_key_keeps_its_place :
  let number_property := with_type (js "number") default_property in
  let boolean_property := with_type (js "boolean") default_property in
  let st := mkState [(js "b", default_property); (js "a", number_property);
                     (js "c", boolean_property)] [js "a"] in
  well_formed (SchemaBuilder.properties st) = true
  /\ get (js "a") (SchemaBuilder.properties st) = Some number_property
  /\ includes (SchemaBuilder.required st) (js "a") = true
  /\ str_eqb (js "b") (js "a") = false
  /\ blank (js "b") = false
  /\ renameProperty (js "a") (js "b") st
     = Some (mkState [(js "b", number_property); (js "c", boolean_property)]
                     [js "b"])
  /\ last_key [(js "b", number_property); (js "c", boolean_property)]
     = Some (js "c")
  /\ last_key [(js "b", number_property); (js "c", boolean_property)]
     <> Some (js "b").
Proof. repeat split. discriminate. Qed.

(** Renaming to [__proto__] loses the property: the assignment runs the
    prototype setter, and the deletion takes the old key away. *)
Example rename_to_proto_loses_the_property :
  renameProperty (js "a") (js "__proto__")
    (mkState [(js "a", default_property); (js "c", default_property)]
             [js "a"])
  = Some (mkState [(js "c", default_property)] [js "__proto__"]).
Proof. reflexivity. Qed.

(** A fresh name that is an array index does not go to the end either:
    renaming [a] to [7] in [{x, a}] gives [{7, x}]. *)
Example rename_onto_array_index_goes_first :
  renameProperty (js "a") (js "7")
    (mkState [(js "x", default_property); (js "a", default_property)] [])
  = Some (mkState [(js "7", default_property); (js "x", default_property)] []).
Proof. reflexivity. Qed.

(* ===================================================================== *)
(** * Add property *)
(* ===================================================================== *)

Lemma array_index_property_name (count : nat) :
  array_index (property_name count) = None.
Proof. reflexivity. Qed.

(** Without a collision the new entry is appended. *)
Lemma addProperty_appends (st : State) :
  let name := property_name (List.length (keys (SchemaBuilder.properties st))) in
  has name (SchemaBuilder.properties st) = false ->
  addProperty st
  = mkState (SchemaBuilder.properties st ++ [(name, default_property)])
            (SchemaBuilder.required st).
Proof.
  intros name H. subst name. unfold addProperty, set.
  now rewrite H, array_index_property_name.
Qed.

(** C10.  When the generated name [property_<count+1>] is already a key
    of the sibling mapping [o], Add property writes the default
    definition over that sibling where it stands: the entries before and
    after it are untouched, no entry is appended, and the count stays
    the same.  The required list is left alone.  This holds for the
    top-level and for the nested Add button. *)
Theorem add_property_collision_overwrites_in_place :
  forall (o : JSObject SchemaProperty),
    has (property_name (List.length (keys o))) o = true ->
    exists before old after,
      o = before ++ (property_name (List.length (keys o)), old) :: after
      /\ has (property_name (List.length (keys o))) before = false
      /\ (forall st, SchemaBuilder.properties st = o ->
            addProperty st
            = mkState (before ++ (property_name (List.length (keys o)),
                                  default_property) :: after)
                      (SchemaBuilder.required st))
      /\ (forall p, properties_or_empty p = o ->
            addNestedProperty p
            = with_properties
                (Some (before ++ (property_name (List.length (keys o)),
                                  default_property) :: after)) p)
      /\ List.length (before ++ (property_name (List.length (keys o)),
                                 default_property) :: after)
         = List.length o.
Proof.
  intros o H.
  destruct (@replace_in_place _ _ default_property _ H)
    as (before & old & after & Ho & Hb & Hr).
  exists before, old, after. repeat split.
  - exact Ho.
  - exact Hb.
  - intros st <-. unfold addProperty, set. now rewrite H, Hr.
  - intros p <-. unfold addNestedProperty, set. now rewrite H, Hr.
  - rewrite Ho at 2. rewrite !length_app. reflexivity.
Qed.

Lemma add_property_collision_overwrites_in_place_witness :
  let number_property := with_type (js "number") default_property in
  let o := [(js "property_2", default_property);
            (js "property_3", number_property)] in
  exists before old after,
    o = before ++ (js "property_3", old) :: after
    /\ has (js "property_3") before = false
    /\ (forall st, SchemaBuilder.properties st = o ->
          addProperty st
          = mkState (before ++ (js "property_3", default_property) :: after)
                    (SchemaBuilder.required st))
    /\ (forall p, properties_or_empty p = o ->
          addNestedProperty p
          = with_properties
              (Some (before ++ (js "property_3", default_property) :: after))
              p)
    /\ List.length (before ++ (js "property_3", default_property) :: after)
       = 2.
Proof.
  apply (add_property_collision_overwrites_in_place
           [(js "property_2", default_property);
            (js "property_3", with_type (js "number") default_property)]).
  reflexivity.
Defined.

(** The collision after a removal: three properties added, the first
    removed, one more added - [property_3] is reset, not joined by a
    new entry. *)
Example add_after_remove_resets_property_3 :
  let number_property := with_type (js "number") default_property in
  let st0 := addProperty (addProperty (addProperty (mkState [] []))) in
  let st1 := updateProperty (js "property_3") number_property st0 in
  let st2 := removeProperty (js "property_1") st1 in
  keys (SchemaBuilder.properties st2) = [js "property_2"; js "property_3"]
  /\ get (js "property_3") (SchemaBuilder.properties st2)
     = Some number_property
  /\ SchemaBuilder.properties (addProperty st2)
     = [(js "property_2", default_property);
        (js "property_3", default_property)].
Proof. repeat split. Qed.

(* ===================================================================== *)
(** * Multi-step mode *)
(* ===================================================================== *)

Lemma ceil_third_nat (n : nat) : DynamicForm.ceil_third n = Z.of_nat ((n + 2) / 3).
Proof.
  rewrite Nat2Z.inj_div, Nat2Z.inj_add.
  unfold DynamicForm.ceil_third, Qceiling, Qfloor. simpl.
  rewrite Z.mul_1_r.
  Z.div_mod_to_equations. lia.
Qed.

(** [ceil_third n] is the least integer [c] with [n <= 3 * c]. *)
Lemma ceil_third_bounds (n : nat) :
  (3 * (DynamicForm.ceil_third n - 1) < Z.of_nat n <= 3 * DynamicForm.ceil_third n)%Z.
Proof.
  rewrite ceil_third_nat, Nat2Z.inj_div, Nat2Z.inj_add. simpl Z.of_nat.
  Z.div_mod_to_equations. lia.
Qed.

Lemma firstn_add_skipn (A : Type) (a b : nat) (l : list A) :
  firstn (a + b) l = firstn a l ++ firstn b (skipn a l).
Proof.
  revert l. induction a as [|a IH]; intros l; simpl; [reflexivity|].
  destruct l as [|x l]; simpl.
  - now rewrite firstn_nil.
  - now rewrite IH.
Qed.

Lemma slice_step (A : Type) (step : nat) (l : list A) :
  slice (step * 3) ((step + 1) * 3) l = firstn 3 (skipn (step * 3) l).
Proof. unfold slice. f_equal. lia. Qed.

Lemma concat_slices (A : Type) (count : nat) (l : list A) :
  List.concat (List.map (fun step => slice (step * 3) ((step + 1) * 3) l)
                   (seq 0 count))
  = firstn (count * 3) l.
Proof.
  induction count as [|c IH]; [reflexivity|].
  rewrite seq_S, map_app, concat_app, IH.
  cbn [List.map List.concat Nat.add]. rewrite app_nil_r, slice_step.
  replace (S c * 3) with (c * 3 + 3) by lia.
  now rewrite firstn_add_skipn.
Qed.

Lemma nth_map_seq (A : Type) (f : nat -> A) (count k : nat) (d : A) :
  k < count -> nth k (List.map f (seq 0 count)) d = f k.
Proof.
  intros H.
  rewrite (nth_indep _ d (f 0)) by now rewrite length_map, length_seq.
  rewrite map_nth. now rewrite seq_nth.
Qed.

Lemma steps_length (A : Type) (l : list A) :
  List.length (DynamicForm.steps true l) = (List.length l + 2) / 3.
Proof.
  unfold DynamicForm.steps, DynamicForm.stepsCount.
  now rewrite length_map, length_seq, ceil_third_nat, Nat2Z.id.
Qed.

Lemma steps_nth (A : Type) (l : list A) (k : nat) :
  k < (List.length l + 2) / 3 ->
  nth k (DynamicForm.steps true l) [] = firstn 3 (skipn (k * 3) l).
Proof.
  intros H. unfold DynamicForm.steps, DynamicForm.stepsCount.
  rewrite ceil_third_nat, Nat2Z.id, nth_map_seq by assumption.
  apply slice_step.
Qed.

(** C3.  In multi-step mode the step count is [ceil(n / 3)] for [n]
    top-level properties, step [k] shows the three properties from
    position [3 k] on (fewer when the list ends), every step but the
    last shows exactly three, the last shows between one and three, and
    the steps put one after the other are the list of top-level
    properties in its order.  For [n = 7] there are three steps, of
    sizes 3, 3 and 1. *)
Theorem multi_step_plan_partitions_in_threes :
  forall (A : Type) (propertyEntries : list A),
    let n := List.length propertyEntries in
    let count := DynamicForm.stepsCount true propertyEntries in
    let plan := DynamicForm.steps true propertyEntries in
    count = DynamicForm.ceil_third n
    /\ (3 * (count - 1) < Z.of_nat n <= 3 * count)%Z
    /\ Z.of_nat (List.length plan) = count
    /\ List.concat plan = propertyEntries
    /\ (forall k, k < List.length plan ->
          nth k plan [] = firstn 3 (skipn (k * 3) propertyEntries))
    /\ (forall k, S k < List.length plan -> List.length (nth k plan []) = 3)
    /\ (forall k, S k = List.length plan ->
          1 <= List.length (nth k plan []) <= 3)
    /\ (n = 7 -> count = 3%Z /\ List.map (@List.length A) plan = [3; 3; 1]).
Proof.
  intros A l n count plan. subst n count plan.
  pose proof (steps_length l) as L.
  assert (3 * ((List.length l + 2) / 3) <= List.length l + 2
          /\ List.length l + 2 < 3 * ((List.length l + 2) / 3) + 3) as B.
  { pose proof (Nat.div_mod_eq (List.length l + 2) 3) as E.
    pose proof (Nat.mod_upper_bound (List.length l + 2) 3) as U. lia. }
  repeat match goal with |- _ /\ _ => split end.
  - reflexivity.
  - apply ceil_third_bounds.
  - apply ceil_third_bounds.
  - rewrite L. unfold DynamicForm.stepsCount. now rewrite ceil_third_nat.
  - unfold DynamicForm.steps, DynamicForm.currentStepProperties.
    rewrite concat_slices. apply firstn_all2.
    unfold DynamicForm.stepsCount. rewrite ceil_third_nat, Nat2Z.id. lia.
  - intros k Hk. apply steps_nth. now rewrite <- L.
  - intros k Hk. rewrite steps_nth by lia.
    rewrite length_firstn, length_skipn. lia.
  - intros k Hk. rewrite steps_nth by lia.
    rewrite length_firstn, length_skipn. lia.
  - intros H7. split.
    + unfold DynamicForm.stepsCount. rewrite H7. reflexivity.
    + do 8 (destruct l as [|? l]; try discriminate H7).
      reflexivity.
Qed.

(** Seven named properties. *)
Example seven_properties_three_steps :
  let names := List.map js ["a"; "b"; "c"; "d"; "e"; "f"; "g"] in
  let schema_properties := List.map (fun k => (k, default_property)) names in
  DynamicForm.stepsCount true (entries schema_properties) = 3%Z
  /\ List.map (@keys SchemaProperty)
              (DynamicForm.steps true (entries schema_properties))
     = [List.map js ["a"; "b"; "c"]; List.map js ["d"; "e"; "f"];
        List.map js ["g"]]
  /\ List.concat (DynamicForm.steps true (entries schema_properties))
     = schema_properties.
Proof. repeat split. Qed.

(** The Previous and Next buttons keep the current step inside the
    plan, and Next reaches every step of it. *)
Lemma handleNext_in_plan (count : Z) (currentStep : nat) :
  (Z.of_nat currentStep < count)%Z ->
  (Z.of_nat (DynamicForm.handleNext count currentStep) < count)%Z.
Proof.
  intros H. unfold DynamicForm.handleNext.
  destruct (Z.ltb_spec (Z.of_nat currentStep) (count - 1)); lia.
Qed.

Lemma handlePrevious_in_plan (count : Z) (currentStep : nat) :
  (Z.of_nat currentStep < count)%Z ->
  (Z.of_nat (DynamicForm.handlePrevious currentStep) < count)%Z.
Proof.
  intros H. unfold DynamicForm.handlePrevious.
  destruct (Nat.ltb_spec 0 currentStep); lia.
Qed.

Lemma handleNext_reaches (count : Z) (step : nat) :
  (Z.of_nat step < count)%Z ->
  Nat.iter step (DynamicForm.handleNext count) 0 = step.
Proof.
  induction step as [|s IH]; intros H; [reflexivity|].
  simpl. rewrite IH by lia. unfold DynamicForm.handleNext.
  destruct (Z.ltb_spec (Z.of_nat s) (count - 1)); lia.
Qed.

(* ===================================================================== *)
(** * Enumerated options *)
(* ===================================================================== *)

Lemma set_index_length (A : Type) (index : nat) (v : A) (xs xs' : list A) :
  set_index index v xs = Some xs' -> List.length xs' = List.length xs.
Proof.
  revert index xs'. induction xs as [|x rest IH]; intros [|i] xs' H;
    simpl in H; try discriminate.
  - injection H as <-. reflexivity.
  - destruct (set_index i v rest) as [rest'|] eqn:E; [|discriminate].
    injection H as <-. simpl. f_equal. now apply IH with i.
Qed.

Lemma set_index_in_range (A : Type) (index : nat) (v : A) (xs : list A) :
  index < List.length xs -> exists xs', set_index index v xs = Some xs'.
Proof.
  revert index. induction xs as [|x rest IH]; intros [|i] H; simpl in *;
    try lia.
  - eexists. reflexivity.
  - destruct (IH i) as [rest' ->]; [lia|]. eexists. reflexivity.
Qed.

Lemma enum_ok_with_enum (e : option (list jsstring)) (p : SchemaProperty) :
  enum_ok (with_enum e p) = match e with Some [] => false | _ => true end.
Proof. reflexivity. Qed.

(** C8.  From a property whose enum, when present, is non-empty, every
    handler that edits the enum gives such a property again: the Input
    Type select (which, on [select], starts the enum as the one-element
    list of the empty string when there is none, and otherwise keeps or
    clears it), the Add Select Options button (which starts it the same
    way), Add Option, the text box of an option and the remove button
    of an option; removing the only option left makes the enum absent.
    The text box and the remove button of every rendered option do give
    a result. *)
Theorem enum_editing_keeps_enum_non_empty :
  forall (p : SchemaProperty),
    enum_ok p = true ->
    (forall value, enum_ok (changeInputType value p) = true)
    /\ (enum p = None ->
        enum (changeInputType (js "select") p) = Some [empty_string])
    /\ enum (addSelectOptions p) = Some [empty_string]
    /\ enum_ok (addOption p) = true
    /\ (forall index value p',
          editOption index value p = Some p' -> enum_ok p' = true)
    /\ (forall index p', removeOption index p = Some p' -> enum_ok p' = true)
    /\ (forall only, enum p = Some [only] ->
          removeOption 0 p = Some (with_enum None p))
    /\ (forall e index value,
          enum p = Some e -> index < List.length e ->
          (exists p', editOption index value p = Some p')
          /\ (exists p', removeOption index p = Some p')).
Proof.
  intros p Hok. repeat match goal with |- _ /\ _ => split end.
  - intros value. unfold changeInputType.
    destruct (str_eqb value (js "select")); [|now destruct (str_eqb _ _)].
    unfold enum_ok in *. simpl. now destruct (enum p) as [[|]|].
  - intros Hnone. unfold changeInputType. simpl. now rewrite Hnone.
  - reflexivity.
  - unfold addOption. rewrite enum_ok_with_enum.
    now destruct (enum p) as [[|]|].
  - intros index value p' H. unfold editOption in H.
    destruct (enum p) as [e|] eqn:He; [|discriminate].
    destruct (set_index index value e) as [e'|] eqn:Hs; [|discriminate].
    injection H as <-. rewrite enum_ok_with_enum.
    apply set_index_length in Hs. unfold enum_ok in Hok. rewrite He in Hok.
    destruct e' as [|]; [|reflexivity]. now destruct e.
  - intros index p' H. unfold removeOption in H.
    destruct (enum p) as [e|]; [|discriminate].
    injection H as <-. rewrite enum_ok_with_enum.
    now destruct (filter_index_ne index e).
  - intros only H. unfold removeOption. now rewrite H.
  - intros e index value He Hi. unfold editOption, removeOption. rewrite He.
    destruct (set_index_in_range value e Hi) as [e' ->].
    split; eexists; reflexivity.
Qed.

Lemma enum_editing_keeps_enum_non_empty_witness :
  let p := with_enum (Some [js "red"]) default_property in
  (forall value, enum_ok (changeInputType value p) = true)
  /\ (enum p = None ->
      enum (changeInputType (js "select") p) = Some [empty_string])
  /\ enum (addSelectOptions p) = Some [empty_string]
  /\ enum_ok (addOption p) = true
  /\ (forall index value p',
        editOption index value p = Some p' -> enum_ok p' = true)
  /\ (forall index p', removeOption index p = Some p' -> enum_ok p' = true)
  /\ (forall only, enum p = Some [only] ->
        removeOption 0 p = Some (with_enum None p))
  /\ (forall e index value,
        enum p = Some e -> index < List.length e ->
        (exists p', editOption index value p = Some p')
        /\ (exists p', removeOption index p = Some p')).
Proof.
  apply (enum_editing_keeps_enum_non_empty
           (with_enum (Some [js "red"]) default_property)).
  reflexivity.
Defined.

(** Select mode switched on, an option added, the first edited, then
    both removed. *)
Example enum_session :
  let p1 := changeInputType (js "select") default_property in
  let p2 := addOption p1 in
  enum p1 = Some [empty_string]
  /\ enum p2 = Some [empty_string; empty_string]
  /\ option_map enum (editOption 0 (js "red") p2) = Some (Some [js "red"; empty_string])
  /\ option_map enum (removeOption 1 p2) = Some (Some [empty_string])
  /\ option_map enum (removeOption 0 p1) = Some None.
Proof. repeat split. Qed.

(* ===================================================================== *)
(** * The Type select *)
(* ===================================================================== *)

Lemma changeType_type (value : jsstring) (p : SchemaProperty) :
  type (changeType value p) = value.
Proof. reflexivity. Qed.

(** Leaving [object] clears the nested mapping. *)
Lemma changeType_properties (value : jsstring) (p : SchemaProperty) :
  value <> js "object" -> Schema.properties (changeType value p) = None.
Proof.
  intros H. unfold changeType. simpl.
  now apply str_eqb_neq in H as ->.
Qed.

(** The nested required list is not among the fields the handler
    writes. *)
Lemma changeType_required (value : jsstring) (p : SchemaProperty) :
  Schema.required (changeType value p) = Schema.required p.
Proof. reflexivity. Qed.

(** C4 (the code, at the failing input and in general).  An object
    property with one nested property [x], required, is switched to
    [string]: the nested mapping is gone, the nested required list [[x]]
    is still there.  For every property and every new type other than
    [object] the handler clears the nested mapping, and for every new
    type it hands the nested required list on as it was. *)
Theorem change_type_keeps_nested_required :
  (let nested := mkSchemaProperty (js "object") (Some empty_string) None None
                   None None (Some [(js "x", default_property)])
                   (Some [js "x"]) in
   changeType (js "string") nested
   = mkSchemaProperty (js "string") (Some empty_string) None None None None
                      None (Some [js "x"]))
  /\ (forall value p,
        value <> js "object" ->
        Schema.properties (changeType value p) = None)
  /\ (forall value p,
        Schema.required (changeType value p) = Schema.required p).
Proof.
  split; [reflexivity|]. split.
  - intros value p Hne. now apply changeType_properties.
  - intros value p. apply changeType_required.
Qed.

(* ===================================================================== *)
(** * The validator compiler *)
(* ===================================================================== *)

Section CompileShape.
Variable rule : SchemaProperty -> ZodTypeAny.
Variable required : list jsstring.

Let step := shape_step rule required.

Lemma compile_shape_fold (properties : JSObject SchemaProperty) :
  DynamicForm.compile_shape rule properties required
  = fold_left step properties empty_object.
Proof. reflexivity. Qed.

Lemma fold_step_untouched (properties : JSObject SchemaProperty)
    (shape : JSObject ZodTypeAny) (key : jsstring) :
  ~ In key (keys properties) ->
  get key (fold_left step properties shape) = get key shape.
Proof.
  revert shape. induction properties as [|[k p] rest IH]; intros shape H;
    [reflexivity|].
  simpl in *. rewrite IH by tauto.
  unfold step, shape_step. simpl. apply get_assign_other. intuition congruence.
Qed.

Lemma fold_step_entry (properties : JSObject SchemaProperty)
    (shape : JSObject ZodTypeAny) (key : jsstring)
    (property : SchemaProperty) :
  distinct (keys properties) = true ->
  In (key, property) properties ->
  key <> js "__proto__" ->
  get key (fold_left step properties shape)
  = Some (stored rule required key property).
Proof.
  intros Hd Hin Hkey. revert shape Hd Hin.
  induction properties as [|[k p] rest IH];
    intros shape Hd Hin; [contradiction|].
  change (keys ((k, p) :: rest)) with (k :: keys rest) in Hd.
  apply distinct_cons in Hd. destruct Hd as [Hk Hd].
  simpl. destruct Hin as [E | Hin].
  - injection E as -> ->. rewrite fold_step_untouched by assumption.
    unfold step, shape_step. simpl.
    rewrite assign_set by now left. apply get_set_same.
  - now apply IH.
Qed.

(** No turn of the loop makes a key [__proto__]. *)
Lemma fold_step_proto (properties : JSObject SchemaProperty)
    (shape : JSObject ZodTypeAny) :
  get (js "__proto__") shape = None ->
  get (js "__proto__") (fold_left step properties shape) = None.
Proof.
  revert shape. induction properties as [|[k p] rest IH]; intros shape H;
    [assumption|].
  simpl. apply IH. unfold step, shape_step. simpl.
  str_cases k (js "__proto__").
  - subst k. rewrite assign_proto; [assumption|].
    rewrite has_get. now rewrite H.
  - rewrite get_assign_other by congruence. assumption.
Qed.

(** Under each key of the mapping but [__proto__] the compiled shape
    holds the rule of that key's property, made optional when the key is
    not required; under other names it holds nothing. *)
Lemma compile_shape_get (properties : JSObject SchemaProperty)
    (key : jsstring) (property : SchemaProperty) :
  distinct (keys properties) = true ->
  In (key, property) properties ->
  key <> js "__proto__" ->
  get key (DynamicForm.compile_shape rule properties required)
  = Some (stored rule required key property).
Proof. intros. rewrite compile_shape_fold. now apply fold_step_entry. Qed.

Lemma compile_shape_get_none (properties : JSObject SchemaProperty)
    (key : jsstring) :
  ~ In key (keys properties) \/ key = js "__proto__" ->
  get key (DynamicForm.compile_shape rule properties required) = None.
Proof.
  intros [H | ->]; rewrite compile_shape_fold.
  - now rewrite fold_step_untouched.
  - now apply fold_step_proto.
Qed.

End CompileShape.

Lemma forallb_any (xs : list JSValue) : forallb (fun _ => true) xs = true.
Proof. induction xs; simpl; auto. Qed.

(** The rule compiled for a property accepts exactly the values that
    meet the requirement the table gives for it. *)
Lemma accepts_zodType_of (is_email : jsstring -> bool) (p : SchemaProperty)
    (v : JSValue) :
  accepts is_email (DynamicForm.zodType_of p) v
  = satisfies is_email (requirement p) v.
Proof.
  destruct p as [ty de en fm it mu ps rq].
  unfold requirement, DynamicForm.zodType_of; simpl.
  destruct (str_eqb ty (js "string")).
  { destruct (DynamicForm.format_is _ "email"); [reflexivity|].
    destruct (DynamicForm.format_is _ "date" || DynamicForm.format_is _ "date-time")%bool;
      [reflexivity|].
    destruct en as [e|]; [|reflexivity].
    destruct mu as [[|]|]; reflexivity. }
  destruct (str_eqb ty (js "number")); [reflexivity|].
  destruct (str_eqb ty (js "boolean")); [reflexivity|].
  destruct (str_eqb ty (js "object")).
  { destruct ps as [nested|]; [reflexivity|]. now destruct v. }
  destruct (str_eqb ty (js "array")); [|reflexivity].
  simpl. destruct v; try reflexivity. apply forallb_any.
Qed.

Lemma accepts_optional (is_email : jsstring -> bool) (t : ZodTypeAny)
    (v : JSValue) :
  accepts is_email (optional t) v
  = (accepts is_email t v || is_undefined v)%bool.
Proof. destruct v; simpl; now rewrite ?orb_true_r, ?orb_false_r. Qed.

(** The same for the earlier copy of the compiler and its table. *)
Lemma accepts_basic_zodType_of (is_email : jsstring -> bool)
    (p : SchemaProperty) (v : JSValue) :
  accepts is_email (BasicForm.zodType_of p) v
  = meets is_email BasicForm.createZodSchema (basic_requirement p) v.
Proof.
  destruct p as [ty de en fm it mu ps rq].
  unfold basic_requirement, BasicForm.zodType_of; simpl.
  destruct (str_eqb ty (js "string")).
  { destruct (DynamicForm.format_is _ "email"); [reflexivity|].
    destruct (DynamicForm.format_is _ "date" || DynamicForm.format_is _ "date-time")%bool;
      reflexivity. }
  destruct (str_eqb ty (js "number")); [reflexivity|].
  destruct (str_eqb ty (js "boolean")); [reflexivity|].
  destruct (str_eqb ty (js "object")).
  { destruct ps as [nested|]; [reflexivity|]. now destruct v. }
  destruct (str_eqb ty (js "array")); [|reflexivity].
  simpl. destruct v; try reflexivity. apply forallb_any.
Qed.

(** What the rule stored for an entry accepts, given what the rule of
    the property accepts. *)
Lemma accepts_stored_rule (is_email : jsstring -> bool)
    (rule : SchemaProperty -> ZodTypeAny) (req : list jsstring)
    (key : jsstring) (p : SchemaProperty) (v : JSValue) :
  accepts is_email (stored rule req key p) v
  = (accepts is_email (rule p) v
     || (negb (includes req key) && is_undefined v))%bool.
Proof.
  unfold stored. destruct (includes req key); cbv beta iota delta [negb andb].
  - now rewrite orb_false_r.
  - apply accepts_optional.
Qed.

(** The two tables differ in the row of the multiple-choice string
    only. *)
Lemma basic_requirement_agrees (p : SchemaProperty) :
  (enum p = None \/ multiple p <> Some true ->
   basic_requirement p = requirement p)
  /\ (requirement p = SequenceOfStrings -> basic_requirement p = AString).
Proof.
  destruct p as [ty de en fm it mu ps rq].
  unfold basic_requirement, requirement. simpl.
  destruct (str_eqb ty (js "string")).
  - destruct (DynamicForm.format_is _ "email"); [split; [reflexivity | discriminate]|].
    destruct (DynamicForm.format_is _ "date" || DynamicForm.format_is _ "date-time")%bool;
      [split; [reflexivity | discriminate]|].
    split; [|reflexivity].
    intros [-> | H]; [reflexivity|].
    destruct en; [|reflexivity]. now destruct mu as [[|]|].
  - split; [reflexivity|].
    destruct (str_eqb ty (js "number")); [discriminate|].
    destruct (str_eqb ty (js "boolean")); [discriminate|].
    destruct (str_eqb ty (js "object")); [now destruct ps|].
    now destruct (str_eqb ty (js "array")).
Qed.

(** C1 (as amended).  For a properties mapping (no key twice, as in
    every object) and a required list, the ruleset compiled by
    [createZodSchema] of [DynamicForm.tsx] is an object rule whose shape
    holds, under the key of every property whose name is not
    [__proto__], a rule that accepts exactly the values the mapping
    table asks for - by type and format, first match first: a valid
    e-mail string; a valid date value; a sequence of strings for a
    string with enum and multiple; a string; a number that is not NaN; a
    boolean; what the ruleset compiled from the nested properties and
    nested required list accepts; any object; any sequence; anything for
    an unknown type - and, when the key is not in the local required
    list, also accepts absence.  The ruleset compiled by the earlier
    copy of [createZodSchema] does the same by a table without the row
    for enum and multiple: there a string with enum and multiple is
    asked to be a string, and nested properties are compiled by that
    copy.  In both, the shape has no rule under a name that is no key of
    the mapping, and none under [__proto__], where the assignment to
    the shape makes no key. *)
Theorem compiled_ruleset_follows_the_table :
  forall (is_email : jsstring -> bool)
         (schema_properties : JSObject SchemaProperty)
         (schema_required : list jsstring)
         (key : jsstring) (property : SchemaProperty),
    distinct (keys schema_properties) = true ->
    In (key, property) (entries schema_properties) ->
    key <> js "__proto__" ->
    (exists shape rule,
       DynamicForm.createZodSchema schema_properties schema_required
       = z_object shape
       /\ get key shape = Some rule
       /\ (forall v,
             accepts is_email rule v
             = (satisfies is_email (requirement property) v
                || (negb (includes schema_required key)
                    && is_undefined v))%bool)
       /\ (forall other,
             ~ In other (keys schema_properties) \/ other = js "__proto__" ->
             get other shape = None))
    /\ (exists shape rule,
          BasicForm.createZodSchema schema_properties schema_required
          = z_object shape
          /\ get key shape = Some rule
          /\ (forall v,
                accepts is_email rule v
                = (meets is_email BasicForm.createZodSchema
                         (basic_requirement property) v
                   || (negb (includes schema_required key)
                       && is_undefined v))%bool)
          /\ (forall other,
                ~ In other (keys schema_properties)
                \/ other = js "__proto__" ->
                get other shape = None))
    /\ (enum property = None \/ multiple property <> Some true ->
        basic_requirement property = requirement property)
    /\ (requirement property = SequenceOfStrings ->
        basic_requirement property = AString).
Proof.
  intros is_email ps req key p Hd Hin Hkey.
  split; [|split; [|apply basic_requirement_agrees]].
  - exists (DynamicForm.compile_shape DynamicForm.zodType_of ps req),
           (stored DynamicForm.zodType_of req key p).
    split; [reflexivity|]. split; [now apply compile_shape_get|].
    split; [|intros other Hother; now apply compile_shape_get_none].
    intros v. rewrite accepts_stored_rule. now rewrite accepts_zodType_of.
  - exists (DynamicForm.compile_shape BasicForm.zodType_of ps req),
           (stored BasicForm.zodType_of req key p).
    split; [reflexivity|]. split; [now apply compile_shape_get|].
    split; [|intros other Hother; now apply compile_shape_get_none].
    intros v. rewrite accepts_stored_rule.
    now rewrite accepts_basic_zodType_of.
Qed.

Lemma compiled_ruleset_follows_the_table_witness :
  let is_email := fun s : jsstring => existsb (N.eqb 64) s in
  let tags := mkSchemaProperty (js "string") None (Some [js "red"; js "green"])
                None None (Some true) None None in
  let schema_properties :=
    [(js "mail", with_format (Some (js "email")) default_property);
     (js "tags", tags);
     (js "price", with_type (js "number") default_property)] in
  (exists shape rule,
     DynamicForm.createZodSchema schema_properties [js "price"]
     = z_object shape
     /\ get (js "tags") shape = Some rule
     /\ (forall v,
           accepts is_email rule v
           = (satisfies is_email (requirement tags) v
              || (negb (includes [js "price"] (js "tags"))
                  && is_undefined v))%bool)
     /\ (forall other,
           ~ In other (keys schema_properties) \/ other = js "__proto__" ->
           get other shape = None))
  /\ (exists shape rule,
        BasicForm.createZodSchema schema_properties [js "price"]
        = z_object shape
        /\ get (js "tags") shape = Some rule
        /\ (forall v,
              accepts is_email rule v
              = (meets is_email BasicForm.createZodSchema
                       (basic_requirement tags) v
                 || (negb (includes [js "price"] (js "tags"))
                     && is_undefined v))%bool)
        /\ (forall other,
              ~ In other (keys schema_properties)
              \/ other = js "__proto__" ->
              get other shape = None))
  /\ (enum tags = None \/ multiple tags <> Some true ->
      basic_requirement tags = requirement tags)
  /\ (requirement tags = SequenceOfStrings ->
      basic_requirement tags = AString).
Proof.
  apply (compiled_ruleset_follows_the_table
           (fun s : jsstring => existsb (N.eqb 64) s)
           [(js "mail", with_format (Some (js "email")) default_property);
            (js "tags",
             mkSchemaProperty (js "string") None (Some [js "red"; js "green"])
               None None (Some true) None None);
            (js "price", with_type (js "number") default_property)]
           [js "price"]).
  - reflexivity.
  - simpl. right. left. reflexivity.
  - discriminate.
Defined.

(** C1 (as stated) fails for the earlier copy of [createZodSchema]:
    for a required string property with options and the multiple flag,
    the table asks for a sequence of strings, and the rule that copy
    stores rejects the sequence [['red']] and accepts the string
    ['red']. *)
Lemma earlier_compiler_wants_a_string_for_multiple_choice :
  let is_email := fun _ : jsstring => false in
  let tags := mkSchemaProperty (js "string") None (Some [js "red"; js "green"])
                None None (Some true) None None in
  exists shape rule,
    BasicForm.createZodSchema [(js "tags", tags)] [js "tags"] = z_object shape
    /\ get (js "tags") shape = Some rule
    /\ requirement tags = SequenceOfStrings
    /\ satisfies is_email (requirement tags) (VArray [VString (js "red")])
       = true
    /\ accepts is_email rule (VArray [VString (js "red")]) = false
    /\ accepts is_email rule (VString (js "red")) = true.
Proof.
  exists [(js "tags", z_string)], z_string. repeat split.
Qed.

(** A property named [__proto__] gets no rule: the ruleset compiled for
    a mapping whose one, required, property has that name accepts the
    empty object. *)
Example proto_property_gets_no_rule :
  let number_property := with_type (js "number") default_property in
  DynamicForm.createZodSchema [(js "__proto__", number_property)]
                              [js "__proto__"]
  = z_object empty_object
  /\ accepts (fun _ => false)
       (DynamicForm.createZodSchema [(js "__proto__", number_property)]
                                    [js "__proto__"])
       (VObject []) = true.
Proof. split; reflexivity. Qed.

(** The table, row by row. *)
Lemma requirement_rows (p : SchemaProperty) :
  (type p = js "string" ->
     (format p = Some (js "email") -> requirement p = ValidEmail)
     /\ (format p = Some (js "date") \/ format p = Some (js "date-time") ->
         requirement p = DateValue)
     /\ (DynamicForm.format_is p "email" = false ->
         DynamicForm.format_is p "date" = false ->
         DynamicForm.format_is p "date-time" = false ->
         (forall e, enum p = Some e -> multiple p = Some true ->
                    requirement p = SequenceOfStrings)
         /\ (enum p = None \/ multiple p <> Some true ->
             requirement p = AString)))
  /\ (type p = js "number" -> requirement p = Numeric)
  /\ (type p = js "boolean" -> requirement p = ABoolean)
  /\ (type p = js "object" ->
        (forall nested, Schema.properties p = Some nested ->
                        requirement p = SubRuleset nested (required_or_empty p))
        /\ (Schema.properties p = None -> requirement p = AnyObject))
  /\ (type p = js "array" -> requirement p = AnySequence).
Proof.
  destruct p as [ty de en fm it mu ps rq]. unfold requirement. simpl.
  repeat match goal with |- _ /\ _ => split end; intros ->; simpl;
    repeat match goal with |- _ /\ _ => split end.
  - intros ->. reflexivity.
  - intros [-> | ->]; reflexivity.
  - intros H1 H2 H3. rewrite H1, H2, H3. simpl. split.
    + intros e -> ->. reflexivity.
    + intros [-> | H]; [reflexivity|].
      destruct en; [|reflexivity]. now destruct mu as [[|]|].
  - reflexivity.
  - reflexivity.
  - intros nested ->. reflexivity.
  - intros ->. reflexivity.
  - reflexivity.
Qed.

(** The earlier copy of the compiler gives the same rule wherever the
    property is no object and has no enum, and a different one for a
    multiple-choice string: it asks for a string where the form collects
    a sequence. *)
Lemma basic_form_rule_agrees (p : SchemaProperty) :
  type p <> js "object" -> enum p = None ->
  BasicForm.zodType_of p = DynamicForm.zodType_of p.
Proof.
  destruct p as [ty de en fm it mu ps rq]. simpl. intros Hty ->.
  apply str_eqb_neq in Hty.
  unfold BasicForm.zodType_of, DynamicForm.zodType_of. simpl.
  now rewrite Hty.
Qed.

Example basic_form_rule_differs :
  let tags := mkSchemaProperty (js "string") None (Some [js "red"])
                None None (Some true) None None in
  DynamicForm.zodType_of tags = z_array z_string
  /\ BasicForm.zodType_of tags = z_string.
Proof. split; reflexivity. Qed.

(* ===================================================================== *)
(** * The number box *)
(* ===================================================================== *)

Lemma trimStart_nil (s : jsstring) :
  trimStart s = [] <-> forallb is_whitespace s = true.
Proof.
  induction s as [|c rest IH]; simpl; [tauto|].
  destruct (is_whitespace c); simpl; [exact IH|]. split; discriminate.
Qed.

Lemma trimStart_head (s : jsstring) (c : N) (rest : jsstring) :
  trimStart s = c :: rest -> is_whitespace c = false.
Proof.
  induction s as [|c0 s IH]; simpl; [discriminate|].
  destruct (is_whitespace c0) eqn:E; [exact IH|].
  intros H. injection H as <- _. exact E.
Qed.

(** A blank name is one made of white space only. *)
Lemma blank_spec (s : jsstring) :
  blank s = true <-> forallb is_whitespace s = true.
Proof.
  rewrite <- trimStart_nil. unfold blank, trim, trimEnd.
  destruct (trimStart s) as [|c rest] eqn:E; [simpl; tauto|].
  split; [|discriminate]. intros H. exfalso.
  apply trimStart_head in E.
  destruct (trimStart (rev (c :: rest))) as [|c' rest'] eqn:E'.
  - apply trimStart_nil in E'. rewrite forallb_forall in E'.
    specialize (E' c). rewrite <- in_rev in E'.
    rewrite E' in E; [discriminate | now left].
  - simpl in H. destruct (rev rest' ++ [c']) eqn:R; [|discriminate].
    now apply app_eq_nil in R.
Qed.

(** Text made of white space only, the empty text among it, reads as
    no number. *)
Lemma parseFloat_blank (value : jsstring) :
  blank value = true -> parseFloat value = NaN.
Proof.
  intros H. apply blank_spec, trimStart_nil in H.
  unfold parseFloat. now rewrite H.
Qed.

(** Text whose first character after the white space cannot start a
    number - no sign, digit, point or [I] - reads as no number. *)
Lemma parseFloat_no_number_start (value : jsstring) (c : N) (rest : jsstring) :
  trimStart value = c :: rest ->
  is_digit c = false ->
  c <> 43%N -> c <> 45%N -> c <> 46%N -> c <> 73%N ->
  parseFloat value = NaN.
Proof.
  intros Ht Hd Hplus Hminus Hpoint HI. unfold parseFloat. rewrite Ht.
  apply N.eqb_neq in Hplus, Hminus, Hpoint.
  rewrite Hplus, Hminus. unfold unsigned_literal.
  assert (starts_with (js "Infinity") (c :: rest) = false) as ->.
  { assert (N.eqb 73 c = false) as H73 by (apply N.eqb_neq; congruence).
    change (starts_with (js "Infinity") (c :: rest))
      with (N.eqb 73 c && starts_with (js "nfinity") rest)%bool.
    now rewrite H73. }
  cbn [span_digits]. rewrite Hd. now rewrite Hpoint.
Qed.

Lemma zodType_of_number (p : SchemaProperty) :
  type p = js "number" -> DynamicForm.zodType_of p = z_number.
Proof. destruct p. simpl. intros ->. reflexivity. Qed.

Lemma numberOnChange_nan (value : jsstring) :
  parseFloat value = NaN -> DynamicForm.numberOnChange value = zero.
Proof. intros H. unfold DynamicForm.numberOnChange. now rewrite H. Qed.

(** What the number box stores is never [NaN]: the number rule accepts
    it whatever was typed. *)
Lemma numberOnChange_accepted (is_email : jsstring -> bool) (value : jsstring) :
  accepts is_email z_number (VNumber (DynamicForm.numberOnChange value)) = true.
Proof.
  unfold DynamicForm.numberOnChange.
  destruct (parseFloat value) as [| negative | negative m e];
    try reflexivity.
  now destruct (truthy_number (Decimal negative m e)).
Qed.

(** A number rule under a key of the shape rejects every object that
    has no value of its own under that key. *)
Lemma number_rule_wants_an_own_value (is_email : jsstring -> bool)
    (shape : JSObject ZodTypeAny) (key : jsstring)
    (values : JSObject JSValue) :
  get key shape = Some z_number -> get key values = None ->
  accepts is_email (z_object shape) (VObject values) = false.
Proof.
  intros Hrule Hvalue. apply get_In in Hrule. simpl.
  apply forallb_false_In with (x := (key, z_number)); [assumption|].
  simpl. unfold read. rewrite Hvalue.
  destruct (includes prototype_functions key); [reflexivity|].
  now destruct (str_eqb key (js "__proto__")).
Qed.

(** C6 (as amended).  For a required number-typed field whose name is
    not [__proto__], whatever text is typed into the number box is
    stored as the number [parseFloat] reads from its start, and as 0
    when [parseFloat] reads none (the empty text, white space, text that
    does not start with a number) or reads a zero; the number rule
    compiled for the field accepts what is stored, while it would
    reject the text itself.  A form in which the box has no value of
    its own - it was never typed into - is rejected.  In the scenario,
    typing [Widget] as name and [not-a-number] as price gives the
    values [{name: 'Widget', price: 0}], which the compiled ruleset
    accepts; the same texts uncoerced are rejected. *)
Theorem number_box_coerces_before_validation :
  forall (is_email : jsstring -> bool)
         (schema_properties : JSObject SchemaProperty)
         (schema_required : list jsstring)
         (key : jsstring) (property : SchemaProperty) (value : jsstring),
    distinct (keys schema_properties) = true ->
    In (key, property) (entries schema_properties) ->
    type property = js "number" ->
    includes schema_required key = true ->
    key <> js "__proto__" ->
    DynamicForm.inputOnChange property value
    = Some (VNumber (DynamicForm.numberOnChange value))
    /\ DynamicForm.numberOnChange value
       = (if truthy_number (parseFloat value) then parseFloat value
          else zero)
    /\ (parseFloat value = NaN -> DynamicForm.numberOnChange value = zero)
    /\ (exists shape,
          DynamicForm.createZodSchema schema_properties schema_required
          = z_object shape
          /\ get key shape = Some z_number)
    /\ accepts is_email z_number
         (VNumber (DynamicForm.numberOnChange value)) = true
    /\ accepts is_email z_number (VString value) = false
    /\ (forall values,
          get key values = None ->
          accepts is_email
            (DynamicForm.createZodSchema schema_properties schema_required)
            (VObject values) = false)
    /\ parseFloat empty_string = NaN
    /\ parseFloat (js "not-a-number") = NaN
    /\ DynamicForm.fill widget_properties widget_typed = Some widget_values
    /\ accepts is_email
         (DynamicForm.createZodSchema widget_properties widget_required)
         (VObject widget_values) = true
    /\ accepts is_email
         (DynamicForm.createZodSchema widget_properties widget_required)
         (VObject widget_texts) = false.
Proof.
  intros is_email ps req key p value Hd Hin Hty Hreq Hkey.
  assert (get key (DynamicForm.compile_shape DynamicForm.zodType_of ps req)
          = Some z_number) as Hrule.
  { rewrite (@compile_shape_get DynamicForm.zodType_of req ps key p Hd Hin
               Hkey).
    unfold stored. rewrite Hreq. simpl. now rewrite zodType_of_number. }
  repeat match goal with |- _ /\ _ => split end;
    try reflexivity.
  - unfold DynamicForm.inputOnChange. rewrite Hty. reflexivity.
  - apply numberOnChange_nan.
  - exists (DynamicForm.compile_shape DynamicForm.zodType_of ps req).
    split; [reflexivity | exact Hrule].
  - apply numberOnChange_accepted.
  - intros values Hvalue. unfold DynamicForm.createZodSchema.
    now apply number_rule_wants_an_own_value with (key := key).
Qed.

Lemma number_box_coerces_before_validation_witness :
  let is_email := fun _ : jsstring => false in
  let price := mkSchemaProperty (js "number") None None None None None
                                None None in
  let value := js "not-a-number" in
  DynamicForm.inputOnChange price value
  = Some (VNumber (DynamicForm.numberOnChange value))
  /\ DynamicForm.numberOnChange value
     = (if truthy_number (parseFloat value) then parseFloat value
        else zero)
  /\ (parseFloat value = NaN -> DynamicForm.numberOnChange value = zero)
  /\ (exists shape,
        DynamicForm.createZodSchema widget_properties widget_required
        = z_object shape
        /\ get (js "price") shape = Some z_number)
  /\ accepts is_email z_number
       (VNumber (DynamicForm.numberOnChange value)) = true
  /\ accepts is_email z_number (VString value) = false
  /\ (forall values,
        get (js "price") values = None ->
        accepts is_email
          (DynamicForm.createZodSchema widget_properties widget_required)
          (VObject values) = false)
  /\ parseFloat empty_string = NaN
  /\ parseFloat (js "not-a-number") = NaN
  /\ DynamicForm.fill widget_properties widget_typed = Some widget_values
  /\ accepts is_email
       (DynamicForm.createZodSchema widget_properties widget_required)
       (VObject widget_values) = true
  /\ accepts is_email
       (DynamicForm.createZodSchema widget_properties widget_required)
       (VObject widget_texts) = false.
Proof.
  apply (@number_box_coerces_before_validation
           (fun _ : jsstring => false) widget_properties widget_required
           (js "price")
           (mkSchemaProperty (js "number") None None None None None None None)
           (js "not-a-number")).
  - reflexivity.
  - simpl. right. left. reflexivity.
  - reflexivity.
  - reflexivity.
  - discriminate.
Defined.

(** C6 (as stated) fails: for the schema of the scenario, whose price
    is a required number, an empty price box that was never typed into
    stores nothing, and the form is rejected; and the non-numeric text
    [12.5kg] is stored as 12.5, not as 0. *)
Lemma number_box_left_empty_or_partly_numeric :
  let is_email := fun _ : jsstring => false in
  let price := mkSchemaProperty (js "number") None None None None None
                                None None in
  get (js "price") widget_properties = Some price
  /\ includes widget_required (js "price") = true
  /\ DynamicForm.fill widget_properties [(js "name", js "Widget")]
     = Some [(js "name", VString (js "Widget"))]
  /\ accepts is_email
       (DynamicForm.createZodSchema widget_properties widget_required)
       (VObject [(js "name", VString (js "Widget"))]) = false
  /\ DynamicForm.inputOnChange price (js "12.5kg")
     = Some (VNumber (Decimal false 125 (-1)))
  /\ DynamicForm.fill widget_properties
       [(js "name", js "Widget"); (js "price", js "12.5kg")]
     = Some [(js "name", VString (js "Widget"));
             (js "price", VNumber (Decimal false 125 (-1)))].
Proof. repeat split. Qed.

(** A number box that was never typed into stores nothing: the required
    number field is then absent, and rejected. *)
Remark untouched_number_box_is_rejected (is_email : jsstring -> bool) :
  DynamicForm.fill widget_properties [(js "name", js "Widget")]
  = Some [(js "name", VString (js "Widget"))]
  /\ accepts is_email
       (DynamicForm.createZodSchema widget_properties widget_required)
       (VObject [(js "name", VString (js "Widget"))]) = false.
Proof. split; reflexivity. Qed.

(** Text that starts with a number is kept as that number; text that
    reads as zero is stored as the literal 0. *)
Example number_box_examples :
  DynamicForm.numberOnChange (js "12.5kg") = Decimal false 125 (-1)
  /\ DynamicForm.numberOnChange (js "-0") = zero
  /\ DynamicForm.numberOnChange (js "   ") = zero
  /\ DynamicForm.numberOnChange (js "abc") = zero.
Proof. repeat split. Qed.

(* ===================================================================== *)
(** * Removing, updating and adding properties *)
(* ===================================================================== *)

Lemma delete_absent (V : Type) (k : jsstring) (o : JSObject V) :
  has k o = false -> delete k o = o.
Proof.
  induction o as [|[k0 v0] rest IH]; simpl; [reflexivity|].
  destruct (str_eqb k0 k); simpl; [discriminate|].
  intros H. now rewrite IH.
Qed.

Lemma filter_ne_absent (req : list jsstring) (name : jsstring) :
  includes req name = false ->
  filter (fun r => negb (str_eqb r name)) req = req.
Proof.
  induction req as [|r rest IH]; [reflexivity|].
  unfold includes in *. simpl. rewrite (str_eqb_sym name r).
  destruct (str_eqb r name); simpl; [discriminate|].
  intros H. now rewrite IH.
Qed.

Lemma delete_app_one_fresh (V : Type) (k : jsstring) (v : V) (o : JSObject V) :
  has k o = false -> delete k (o ++ [(k, v)]) = o.
Proof.
  intros H. rewrite delete_app, delete_absent by assumption.
  unfold delete. simpl. rewrite str_eqb_refl. simpl. apply app_nil_r.
Qed.

(** X1.  Remove property takes the name out of the mapping and out of
    the required list, whether or not it was required; every other key
    keeps its value and its place, every other name its membership.
    For a name that is neither a key nor required, the top-level state
    does not change; a nested node keeps the content of its mapping and
    of its list, but comes back with both written out - an absent
    mapping as the empty object, an absent list as the empty list - so
    it is unchanged exactly when it had both. *)
Theorem remove_property_forgets_the_name :
  forall (st : State) (p : SchemaProperty) (name : jsstring),
    (has name (SchemaBuilder.properties (removeProperty name st)) = false
     /\ includes (SchemaBuilder.required (removeProperty name st)) name = false
     /\ keys (SchemaBuilder.properties (removeProperty name st))
        = filter (fun k => negb (str_eqb k name))
                 (keys (SchemaBuilder.properties st))
     /\ (forall other, other <> name ->
           get other (SchemaBuilder.properties (removeProperty name st))
           = get other (SchemaBuilder.properties st)
           /\ includes (SchemaBuilder.required (removeProperty name st)) other
              = includes (SchemaBuilder.required st) other)
     /\ (has name (SchemaBuilder.properties st) = false ->
         includes (SchemaBuilder.required st) name = false ->
         removeProperty name st = st))
    /\
    (has name (properties_or_empty (removeNestedProperty name p)) = false
     /\ includes (required_or_empty (removeNestedProperty name p)) name = false
     /\ keys (properties_or_empty (removeNestedProperty name p))
        = filter (fun k => negb (str_eqb k name))
                 (keys (properties_or_empty p))
     /\ (forall other, other <> name ->
           get other (properties_or_empty (removeNestedProperty name p))
           = get other (properties_or_empty p)
           /\ includes (required_or_empty (removeNestedProperty name p)) other
              = includes (required_or_empty p) other)
     /\ (has name (properties_or_empty p) = false ->
         includes (required_or_empty p) name = false ->
         removeNestedProperty name p
         = with_required (Some (required_or_empty p))
             (with_properties (Some (properties_or_empty p)) p)
         /\ (removeNestedProperty name p = p
             <-> Schema.properties p <> None /\ Schema.required p <> None))).
Proof.
  intros st p name.
  assert (forall req other, other <> name ->
            includes (filter (fun r => negb (str_eqb r name)) req) other
            = includes req other) as Hother.
  { intros req other Hne. rewrite includes_filter_ne.
    apply str_eqb_neq in Hne. rewrite Hne. apply andb_true_r. }
  assert (forall req,
            includes (filter (fun r => negb (str_eqb r name)) req) name = false)
    as Hname.
  { intros req. rewrite includes_filter_ne, str_eqb_refl. apply andb_false_r. }
  split; repeat match goal with |- _ /\ _ => split end.
  - apply has_delete_same.
  - apply Hname.
  - apply keys_delete.
  - intros other Hne. split.
    + now apply get_delete_other.
    + now apply Hother.
  - intros H1 H2. destruct st as [o req]. unfold removeProperty. simpl in *.
    now rewrite delete_absent, filter_ne_absent.
  - apply has_delete_same.
  - apply Hname.
  - apply keys_delete.
  - intros other Hne. split.
    + apply (get_delete_other (properties_or_empty p) Hne).
    + apply Hother. exact Hne.
  - intros H1 H2. unfold removeNestedProperty.
    rewrite delete_absent, filter_ne_absent by assumption.
    split; [reflexivity|].
    destruct p as [ty de en fm it mu [ps|] [rq|]];
      unfold with_required, with_properties; simpl; split;
      try (intros _; split; discriminate);
      try reflexivity;
      try (intros E; discriminate E);
      try (intros [Ha Hb]; congruence).
Qed.



(** X3.  Add property followed by Remove of the property just added
    gives the state back, when the generated name did not collide with a
    sibling and was not in the required list. *)
Theorem add_then_remove_is_identity :
  forall (st : State),
    let name := property_name (List.length (keys (SchemaBuilder.properties st))) in
    has name (SchemaBuilder.properties st) = false ->
    includes (SchemaBuilder.required st) name = false ->
    removeProperty name (addProperty st) = st.
Proof.
  intros [o req] name Hfresh Hreq. subst name.
  cbn [SchemaBuilder.properties SchemaBuilder.required] in *.
  unfold addProperty, removeProperty.
  cbn [SchemaBuilder.properties SchemaBuilder.required].
  unfold set. rewrite Hfresh, array_index_property_name.
  now rewrite delete_app_one_fresh, filter_ne_absent.
Qed.

Lemma add_then_remove_is_identity_witness :
  let st := mkState [(js "name", default_property)] [js "name"] in
  removeProperty (js "property_2") (addProperty st) = st.
Proof.
  apply (add_then_remove_is_identity
           (mkState [(js "name", default_property)] [js "name"]));
    reflexivity.
Defined.

(** ** Generated names *)

Lemma js_inj (a b : string) : js a = js b -> a = b.
Proof.
  unfold js. intros H.
  rewrite <- (string_of_list_ascii_of_string a),
          <- (string_of_list_ascii_of_string b).
  f_equal. revert H.
  generalize (list_ascii_of_string a) (list_ascii_of_string b).
  induction l as [|x xs IH]; intros [|y ys] H; simpl in H;
    try discriminate; [reflexivity|].
  injection H as Hxy Hrest. f_equal; [|now apply IH].
  now rewrite <- (ascii_N_embedding x), <- (ascii_N_embedding y), Hxy.
Qed.

Lemma number_to_string_inj (n m : N) :
  number_to_string n = number_to_string m -> n = m.
Proof.
  unfold number_to_string. intros H. apply js_inj in H.
  apply DecimalN.Unsigned.to_uint_inj.
  assert (forall k, N.to_uint k <> Decimal.Nil) as Hnil.
  { intros [|q]; [discriminate | apply DecimalPos.Unsigned.to_uint_nonnil]. }
  pose proof (NilZero.usu _ (Hnil n)) as Hn.
  pose proof (NilZero.usu _ (Hnil m)) as Hm.
  rewrite H in Hn. congruence.
Qed.

Lemma property_name_inj (a b : nat) :
  property_name a = property_name b -> a = b.
Proof.
  unfold property_name. intros H. apply app_inv_head in H.
  apply number_to_string_inj in H. lia.
Qed.

(** The mapping with the default properties [property_1], ...,
    [property_n], in this order. *)
Lemma has_generated (n k : nat) :
  has (property_name k)
      (List.map (fun i => (property_name i, default_property)) (seq 0 n))
  = Nat.ltb k n.
Proof.
  rewrite has_includes. unfold keys. rewrite map_map. cbn [fst].
  destruct (Nat.ltb_spec k n) as [Hlt | Hge].
  - apply includes_In. apply in_map_iff. exists k. split; [reflexivity|].
    apply in_seq. lia.
  - destruct (includes _ _) eqn:E; [|reflexivity].
    apply includes_In, in_map_iff in E. destruct E as (i & Hi & Hin).
    apply property_name_inj in Hi. apply in_seq in Hin. lia.
Qed.

(** X4.  Starting from no property, pressing Add [n] times gives the
    properties [property_1] to [property_n] in this order, each with the
    default definition: the generated names never collide while
    properties are only added.  The required list is untouched. *)
Theorem adding_from_empty_numbers_the_properties :
  forall (n : nat) (req : list jsstring),
    Nat.iter n addProperty (mkState empty_object req)
    = mkState (List.map (fun i => (property_name i, default_property))
                        (seq 0 n))
              req.
Proof.
  intros n req. induction n as [|n IH]; [reflexivity|].
  cbn [Nat.iter nat_rect]. change (nat_rect _ _ _ n) with
    (Nat.iter n addProperty (mkState empty_object req)).
  rewrite IH. unfold addProperty.
  cbn [SchemaBuilder.properties SchemaBuilder.required].
  unfold keys. rewrite !length_map, length_seq.
  unfold set. rewrite has_generated, Nat.ltb_irrefl.
  rewrite array_index_property_name.
  now rewrite seq_S, map_app.
Qed.

(* ===================================================================== *)
(** * Renaming onto a sibling, and renaming back *)
(* ===================================================================== *)

Lemma length_filter_distinct (ks : list jsstring) (k : jsstring) :
  distinct ks = true -> In k ks ->
  S (List.length (filter (fun x => negb (str_eqb x k)) ks)) = List.length ks.
Proof.
  induction ks as [|k0 rest IH]; intros Hd Hin; [contradiction|].
  apply distinct_cons in Hd. destruct Hd as [Hk0 Hd]. simpl.
  str_cases k0 k.
  - subst k0. simpl. f_equal.
    replace (filter _ rest) with rest; [reflexivity|].
    symmetry. apply filter_ne_absent.
    destruct (includes rest k) eqn:Ei; [|reflexivity].
    apply includes_In in Ei. contradiction.
  - simpl. f_equal. apply IH; [assumption|].
    destruct Hin as [-> | Hin]; [congruence | assumption].
Qed.

Lemma renamed_length (oldName newName : jsstring) (req : list jsstring) :
  List.length (renamed oldName newName req) = List.length req.
Proof. unfold renamed. apply length_map. Qed.

Lemma renamed_back (oldName newName : jsstring) (req : list jsstring) :
  includes req newName = false ->
  renamed newName oldName (renamed oldName newName req) = req.
Proof.
  unfold renamed. induction req as [|r rest IH]; [reflexivity|].
  unfold includes in *. simpl. rewrite (str_eqb_sym newName r).
  destruct (str_eqb r newName) eqn:En; simpl; [discriminate|].
  intros H. rewrite IH by assumption. f_equal.
  str_cases r oldName.
  - subst r. now rewrite str_eqb_refl.
  - now rewrite En.
Qed.

(** X5.  Renaming a property onto the name of an existing sibling
    loses that sibling: the mapping has one entry fewer, the sibling's
    name now holds the renamed property's definition, and the keys that
    are left keep their order.  The required list keeps its length, so
    when both names were required the new name is in it twice. *)
Theorem rename_onto_sibling_loses_the_sibling :
  forall (st : State) (oldName newName : jsstring)
         (moved lost : SchemaProperty),
    distinct (keys (SchemaBuilder.properties st)) = true ->
    get oldName (SchemaBuilder.properties st) = Some moved ->
    get newName (SchemaBuilder.properties st) = Some lost ->
    newName <> oldName ->
    blank newName = false ->
    exists st',
      renameProperty oldName newName st = Some st'
      /\ S (List.length (keys (SchemaBuilder.properties st')))
         = List.length (keys (SchemaBuilder.properties st))
      /\ keys (SchemaBuilder.properties st')
         = filter (fun k => negb (str_eqb k oldName))
                  (keys (SchemaBuilder.properties st))
      /\ get newName (SchemaBuilder.properties st') = Some moved
      /\ List.length (SchemaBuilder.required st')
         = List.length (SchemaBuilder.required st)
      /\ (includes (SchemaBuilder.required st) oldName = true ->
          includes (SchemaBuilder.required st) newName = true ->
          distinct (SchemaBuilder.required st) = true ->
          distinct (SchemaBuilder.required st') = false).
Proof.
  intros [o req] oldName newName moved lost Hd Hold Hnew Hne Hb.
  cbn [SchemaBuilder.properties SchemaBuilder.required] in *.
  assert (has newName o = true) as Hhas by now rewrite has_get, Hnew.
  unfold renameProperty.
  cbn [SchemaBuilder.properties SchemaBuilder.required].
  rewrite (rename_guard_open Hne Hb), Hold.
  rewrite (@assign_set _ newName moved o (or_intror Hhas)).
  eexists. split; [reflexivity|].
  cbn [SchemaBuilder.properties SchemaBuilder.required].
  assert (keys (delete oldName (set newName moved o))
          = filter (fun k => negb (str_eqb k oldName)) (keys o)) as Hk.
  { rewrite rekey_existing by assumption. apply keys_delete. }
  repeat match goal with |- _ /\ _ => split end.
  - rewrite Hk. apply length_filter_distinct; [assumption|].
    eapply get_keys; eassumption.
  - exact Hk.
  - now apply rekey_get_new.
  - destruct (includes req oldName); [apply renamed_length | reflexivity].
  - intros Ho Hn Hdr. rewrite Ho. fold (renamed oldName newName req).
    clear - Ho Hn Hdr Hne.
    induction req as [|r rest IH]; [discriminate|].
    apply distinct_cons in Hdr. destruct Hdr as [Hr Hdr].
    change (renamed oldName newName (r :: rest))
      with ((if str_eqb r oldName then newName else r)
            :: renamed oldName newName rest).
    cbn [distinct].
    assert (forall x, includes (r :: rest) x
                      = (str_eqb x r || includes rest x)%bool) as Hcons
      by reflexivity.
    rewrite Hcons in Ho, Hn.
    str_cases r oldName.
    + subst r. rewrite str_eqb_refl in Ho.
      assert (includes rest newName = true) as Hin.
      { apply str_eqb_neq in Hne. rewrite Hne in Hn. exact Hn. }
      assert (includes (renamed oldName newName rest) newName = true) as ->.
      { apply includes_In. apply includes_In in Hin. unfold renamed.
        apply in_map_iff. exists newName. split; [|assumption].
        apply str_eqb_neq in Hne. now rewrite Hne. }
      reflexivity.
    + rewrite (str_eqb_sym oldName r), E in Ho. simpl in Ho.
      rename E' into Hro. str_cases r newName.
      * subst r.
        assert (includes (renamed oldName newName rest) newName = true) as ->
          by now apply renamed_has_new.
        reflexivity.
      * rewrite (str_eqb_sym newName r), E0 in Hn. simpl in Hn.
        rewrite IH by assumption. apply andb_false_r.
Qed.

Lemma rename_onto_sibling_loses_the_sibling_witness :
  let number_property := with_type (js "number") default_property in
  let st := mkState [(js "b", default_property); (js "a", number_property);
                     (js "c", default_property)] [js "a"; js "b"] in
  exists st',
    renameProperty (js "a") (js "b") st = Some st'
    /\ S (List.length (keys (SchemaBuilder.properties st')))
       = List.length (keys (SchemaBuilder.properties st))
    /\ keys (SchemaBuilder.properties st')
       = filter (fun k => negb (str_eqb k (js "a")))
                (keys (SchemaBuilder.properties st))
    /\ get (js "b") (SchemaBuilder.properties st') = Some number_property
    /\ List.length (SchemaBuilder.required st')
       = List.length (SchemaBuilder.required st)
    /\ (includes (SchemaBuilder.required st) (js "a") = true ->
        includes (SchemaBuilder.required st) (js "b") = true ->
        distinct (SchemaBuilder.required st) = true ->
        distinct (SchemaBuilder.required st') = false).
Proof.
  apply (@rename_onto_sibling_loses_the_sibling
           (mkState [(js "b", default_property);
                     (js "a", with_type (js "number") default_property);
                     (js "c", default_property)] [js "a"; js "b"])
           (js "a") (js "b")
           (with_type (js "number") default_property) default_property).
  - reflexivity.
  - reflexivity.
  - reflexivity.
  - discriminate.
  - reflexivity.
Defined.

(** X6.  Renaming a property to a fresh name and then back restores
    every value of the mapping and the required list exactly, when the
    fresh name was not in the required list, the old name is not blank
    and neither name is [__proto__] (a rename to that name loses the
    property).  The order of the keys is not restored: when neither
    name is an array index, the property ends up last. *)
Theorem rename_and_back_restores_the_content :
  forall (st : State) (oldName newName : jsstring) (moved : SchemaProperty),
    get oldName (SchemaBuilder.properties st) = Some moved ->
    has newName (SchemaBuilder.properties st) = false ->
    includes (SchemaBuilder.required st) newName = false ->
    newName <> oldName ->
    blank newName = false ->
    blank oldName = false ->
    newName <> js "__proto__" ->
    oldName <> js "__proto__" ->
    exists st1 st2,
      renameProperty oldName newName st = Some st1
      /\ renameProperty newName oldName st1 = Some st2
      /\ (forall k, get k (SchemaBuilder.properties st2)
                    = get k (SchemaBuilder.properties st))
      /\ SchemaBuilder.required st2 = SchemaBuilder.required st
      /\ (array_index newName = None -> array_index oldName = None ->
          SchemaBuilder.properties st2
          = delete oldName (SchemaBuilder.properties st) ++ [(oldName, moved)]).
Proof.
  intros [o req] oldName newName moved Hold Hfresh Hreq Hne Hbn Hbo Hpn Hpo.
  cbn [SchemaBuilder.properties SchemaBuilder.required] in *.
  assert (oldName <> newName) as Hne' by congruence.
  assert (get newName (delete oldName (set newName moved o)) = Some moved)
    as Hnew1 by now apply rekey_get_new.
  eexists. eexists. split; [|split].
  - unfold renameProperty.
    cbn [SchemaBuilder.properties SchemaBuilder.required].
    rewrite (rename_guard_open Hne Hbn), Hold.
    rewrite (@assign_set _ newName moved o (or_introl Hpn)). reflexivity.
  - unfold renameProperty.
    cbn [SchemaBuilder.properties SchemaBuilder.required].
    rewrite (rename_guard_open Hne' Hbo), Hnew1.
    rewrite (@assign_set _ oldName moved _ (or_introl Hpo)). reflexivity.
  - cbn [SchemaBuilder.properties SchemaBuilder.required].
    repeat match goal with |- _ /\ _ => split end.
    + intros k. str_cases k oldName.
      * subst k. rewrite rekey_get_new by assumption. now rewrite Hold.
      * rename E' into Hko. str_cases k newName.
        -- subst k. rewrite get_delete_same.
           rewrite has_get in Hfresh. now destruct (get newName o).
        -- rewrite rekey_get_other by assumption.
           now apply rekey_get_other.
    + destruct (includes req oldName) eqn:Ho.
      * fold (renamed oldName newName req).
        rewrite (@renamed_has_new oldName newName req Ho).
        fold (renamed newName oldName (renamed oldName newName req)).
        now apply renamed_back.
      * now rewrite Hreq.
    + intros Hin Hio.
      rewrite (@rekey_fresh _ oldName newName moved o Hne Hfresh Hin).
      assert (has oldName (delete oldName o ++ [(newName, moved)]) = false)
        as Hgone.
      { rewrite has_get, get_app, get_delete_same. simpl.
        apply str_eqb_neq in Hne. now rewrite Hne. }
      rewrite (@rekey_fresh _ newName oldName moved _ Hne' Hgone Hio).
      rewrite delete_app_one_fresh; [reflexivity|].
      rewrite has_get, get_delete_other by assumption.
      rewrite has_get in Hfresh. exact Hfresh.
Qed.

Lemma rename_and_back_restores_the_content_witness :
  let st := mkState [(js "a", with_type (js "number") default_property);
                     (js "c", default_property)] [js "a"] in
  exists st1 st2,
    renameProperty (js "a") (js "b") st = Some st1
    /\ renameProperty (js "b") (js "a") st1 = Some st2
    /\ (forall k, get k (SchemaBuilder.properties st2)
                  = get k (SchemaBuilder.properties st))
    /\ SchemaBuilder.required st2 = SchemaBuilder.required st
    /\ (array_index (js "b") = None -> array_index (js "a") = None ->
        SchemaBuilder.properties st2
        = delete (js "a") (SchemaBuilder.properties st)
          ++ [(js "a", with_type (js "number") default_property)]).
Proof.
  apply (@rename_and_back_restores_the_content
           (mkState [(js "a", with_type (js "number") default_property);
                     (js "c", default_property)] [js "a"])
           (js "a") (js "b") (with_type (js "number") default_property)).
  - reflexivity.
  - reflexivity.
  - reflexivity.
  - discriminate.
  - reflexivity.
  - reflexivity.
  - discriminate.
  - discriminate.
Defined.

(* ===================================================================== *)
(** * The mapping stays an object *)
(* ===================================================================== *)

(** X7.  From a mapping with no key twice and its array-index keys in
    ascending order before the others, every handler of the tree editor
    - add, update, remove, toggle required and rename, at the top level
    and in a nested node - gives such a mapping again: no handler ever
    makes a duplicate key. *)
Theorem tree_handlers_keep_the_mapping_an_object :
  forall (st : State) (p : SchemaProperty),
    well_formed (SchemaBuilder.properties st) = true ->
    well_formed (properties_or_empty p) = true ->
    (well_formed (SchemaBuilder.properties (addProperty st)) = true
     /\ (forall name property,
           well_formed (SchemaBuilder.properties
                          (updateProperty name property st)) = true)
     /\ (forall name,
           well_formed (SchemaBuilder.properties (removeProperty name st))
           = true)
     /\ (forall name,
           well_formed (SchemaBuilder.properties (toggleRequired name st))
           = true)
     /\ (forall oldName newName st',
           renameProperty oldName newName st = Some st' ->
           well_formed (SchemaBuilder.properties st') = true))
    /\
    (well_formed (properties_or_empty (addNestedProperty p)) = true
     /\ (forall name nested,
           well_formed (properties_or_empty
                          (updateNestedProperty name nested p)) = true)
     /\ (forall name,
           well_formed (properties_or_empty (removeNestedProperty name p))
           = true)
     /\ (forall name,
           well_formed (properties_or_empty (toggleNestedRequired name p))
           = true)
     /\ (forall oldName newName p',
           renameNestedProperty oldName newName p = Some p' ->
           well_formed (properties_or_empty p') = true)).
Proof.
  intros st p Hst Hp. split;
    repeat match goal with |- _ /\ _ => split end.
  - now apply set_well_formed.
  - intros. now apply set_well_formed.
  - intros. now apply delete_well_formed.
  - intros name. now rewrite toggleRequired_properties.
  - intros oldName newName st' Hr. unfold renameProperty in Hr.
    destruct (_ || _)%bool.
    + now injection Hr as <-.
    + destruct (get oldName (SchemaBuilder.properties st)).
      * injection Hr as <-.
        now apply delete_well_formed, assign_well_formed.
      * destruct (_ && _)%bool; [|discriminate].
        injection Hr as <-. now apply delete_well_formed.
  - now apply set_well_formed.
  - intros. now apply set_well_formed.
  - intros. now apply delete_well_formed.
  - intros. exact Hp.
  - intros oldName newName p' Hr. unfold renameNestedProperty in Hr.
    destruct (_ || _)%bool.
    + now injection Hr as <-.
    + destruct (get oldName (properties_or_empty p)).
      * injection Hr as <-.
        now apply delete_well_formed, assign_well_formed.
      * destruct (_ && _)%bool; [|discriminate].
        injection Hr as <-. now apply delete_well_formed.
Qed.

Lemma tree_handlers_keep_the_mapping_an_object_witness :
  let st := mkState [(js "2", default_property); (js "10", default_property);
                     (js "name", default_property)] [] in
  let p := with_properties (Some [(js "x", default_property)])
                           (with_type (js "object") default_property) in
  (well_formed (SchemaBuilder.properties (addProperty st)) = true
   /\ (forall name property,
         well_formed (SchemaBuilder.properties
                        (updateProperty name property st)) = true)
   /\ (forall name,
         well_formed (SchemaBuilder.properties (removeProperty name st))
         = true)
   /\ (forall name,
         well_formed (SchemaBuilder.properties (toggleRequired name st))
         = true)
   /\ (forall oldName newName st',
         renameProperty oldName newName st = Some st' ->
         well_formed (SchemaBuilder.properties st') = true))
  /\
  (well_formed (properties_or_empty (addNestedProperty p)) = true
   /\ (forall name nested,
         well_formed (properties_or_empty
                        (updateNestedProperty name nested p)) = true)
   /\ (forall name,
         well_formed (properties_or_empty (removeNestedProperty name p))
         = true)
   /\ (forall name,
         well_formed (properties_or_empty (toggleNestedRequired name p))
         = true)
   /\ (forall oldName newName p',
         renameNestedProperty oldName newName p = Some p' ->
         well_formed (properties_or_empty p') = true)).
Proof.
  apply (tree_handlers_keep_the_mapping_an_object
           (mkState [(js "2", default_property); (js "10", default_property);
                     (js "name", default_property)] [])
           (with_properties (Some [(js "x", default_property)])
                            (with_type (js "object") default_property)));
    reflexivity.
Defined.

(* ===================================================================== *)
(** * The selects of a property node *)
(* ===================================================================== *)

(** X8.  Right after a choice in the Input Type or the Format select,
    that select shows the choice, for every non-empty choice.  Both
    selects write the format attribute, so a choice in one changes what
    the other shows: after a choice in Input Type the Format select
    shows [none] for the choices [select] and [text] and the choice
    itself otherwise; after a choice in Format the Input Type select
    shows [select] when the property has options, else [text] for the
    choice [none] and the choice itself otherwise.  So Markdown chosen
    in Input Type and then None in Format leaves Input Type showing
    [text], and Email chosen in Format and then Text in Input Type
    leaves Format showing [none].  Leaving select mode through the
    Input Type select discards the options: the enum is gone, and
    choosing [select] again starts from the single empty option; the
    multiple flag is left as it was. *)
Theorem selects_show_the_choice :
  forall (p : SchemaProperty) (value : jsstring),
    truthy_string value = true ->
    PropertyBuilderView.inputTypeValue (changeInputType value p) = value
    /\ PropertyBuilderView.formatValue (changeFormat value p) = value
    /\ PropertyBuilderView.formatValue (changeInputType value p)
       = (if (str_eqb value (js "select") || str_eqb value (js "text"))%bool
          then js "none" else value)
    /\ PropertyBuilderView.inputTypeValue (changeFormat value p)
       = match enum p with
         | Some _ => js "select"
         | None => if str_eqb value (js "none") then js "text" else value
         end
    /\ PropertyBuilderView.inputTypeValue
         (changeFormat (js "none") (changeInputType (js "markdown") p))
       = js "text"
    /\ PropertyBuilderView.formatValue
         (changeInputType (js "text") (changeFormat (js "email") p))
       = js "none"
    /\ (enum (changeInputType value p) = None
        \/ format (changeInputType value p) = None)
    /\ multiple (changeInputType value p) = multiple p
    /\ (value <> js "select" ->
        enum (changeInputType value p) = None
        /\ enum (changeInputType (js "select") (changeInputType value p))
           = Some [empty_string]).
Proof.
  intros p value Ht. unfold changeInputType, changeFormat.
  unfold PropertyBuilderView.inputTypeValue, PropertyBuilderView.formatValue.
  repeat match goal with |- _ /\ _ => split end.
  - str_cases value (js "select"); [now subst|].
    rename E' into Hs. str_cases value (js "text"); [now subst|].
    simpl. now rewrite Ht.
  - str_cases value (js "none"); [now subst|]. simpl. now rewrite Ht.
  - destruct (str_eqb value (js "select")); [reflexivity|].
    destruct (str_eqb value (js "text")); [reflexivity|].
    simpl. now rewrite Ht.
  - destruct p as [ty de en fm it mu ps rq]. simpl.
    destruct en; [reflexivity|].
    destruct (str_eqb value (js "none")); [reflexivity|]. now rewrite Ht.
  - reflexivity.
  - reflexivity.
  - destruct (str_eqb value (js "select")); [now right|].
    destruct (str_eqb value (js "text")); now left.
  - destruct (str_eqb value (js "select")); [reflexivity|].
    now destruct (str_eqb value (js "text")).
  - intros Hne. apply str_eqb_neq in Hne. rewrite Hne.
    split; now destruct (str_eqb value (js "text")).
Qed.

Lemma selects_show_the_choice_witness :
  let p := with_multiple (Some true)
             (with_enum (Some [js "red"; js "green"]) default_property) in
  let value := js "markdown" in
  PropertyBuilderView.inputTypeValue (changeInputType value p) = value
  /\ PropertyBuilderView.formatValue (changeFormat value p) = value
  /\ PropertyBuilderView.formatValue (changeInputType value p)
     = (if (str_eqb value (js "select") || str_eqb value (js "text"))%bool
        then js "none" else value)
  /\ PropertyBuilderView.inputTypeValue (changeFormat value p)
     = match enum p with
       | Some _ => js "select"
       | None => if str_eqb value (js "none") then js "text" else value
       end
  /\ PropertyBuilderView.inputTypeValue
       (changeFormat (js "none") (changeInputType (js "markdown") p))
     = js "text"
  /\ PropertyBuilderView.formatValue
       (changeInputType (js "text") (changeFormat (js "email") p))
     = js "none"
  /\ (enum (changeInputType value p) = None
      \/ format (changeInputType value p) = None)
  /\ multiple (changeInputType value p) = multiple p
  /\ (value <> js "select" ->
      enum (changeInputType value p) = None
      /\ enum (changeInputType (js "select") (changeInputType value p))
         = Some [empty_string]).
Proof.
  apply (selects_show_the_choice
           (with_multiple (Some true)
              (with_enum (Some [js "red"; js "green"]) default_property))
           (js "markdown")).
  reflexivity.
Defined.

(* ===================================================================== *)
(** * Editing the list of options *)
(* ===================================================================== *)

Lemma set_index_nth (A : Type) (index : nat) (v : A) (xs xs' : list A) :
  set_index index v xs = Some xs' ->
  nth_error xs' index = Some v
  /\ forall j, j <> index -> nth_error xs' j = nth_error xs j.
Proof.
  revert index xs'. induction xs as [|x rest IH]; intros [|i] xs' H;
    simpl in H; try discriminate.
  - injection H as <-. split; [reflexivity|].
    intros [|j] Hj; [congruence | reflexivity].
  - destruct (set_index i v rest) as [rest'|] eqn:E; [|discriminate].
    injection H as <-. destruct (IH _ _ E) as [H1 H2]. split; [exact H1|].
    intros [|j] Hj; [reflexivity|]. simpl. apply H2. congruence.
Qed.

Lemma filter_index_ne_length (A : Type) (index : nat) (xs : list A) :
  index < List.length xs ->
  S (List.length (filter_index_ne index xs)) = List.length xs.
Proof.
  revert index. induction xs as [|x rest IH]; intros [|i] H; simpl in *;
    try lia.
  f_equal. apply IH. lia.
Qed.

Lemma filter_index_ne_nth (A : Type) (index j : nat) (xs : list A) :
  nth_error (filter_index_ne index xs) j
  = if Nat.ltb j index then nth_error xs j else nth_error xs (S j).
Proof.
  revert index j. induction xs as [|x rest IH]; intros [|i] [|j]; simpl;
    try reflexivity.
  - now destruct (Nat.ltb _ _).
  - rewrite IH. change (Nat.ltb (S j) (S i)) with (Nat.ltb j i).
    reflexivity.
Qed.

Lemma filter_index_ne_beyond (A : Type) (index : nat) (xs : list A) :
  List.length xs <= index -> filter_index_ne index xs = xs.
Proof.
  revert index. induction xs as [|x rest IH]; intros [|i] H; simpl in *;
    try reflexivity; try lia.
  f_equal. apply IH. lia.
Qed.

Lemma filter_index_ne_last (A : Type) (xs : list A) (x : A) :
  filter_index_ne (List.length xs) (xs ++ [x]) = xs.
Proof. induction xs as [|y rest IH]; simpl; [reflexivity | now rewrite IH]. Qed.

(** X9.  With options [e] present: the text box of option [index]
    changes that option and no other, and keeps the number of options;
    the remove button of option [index] takes out that option, the later
    ones moving up by one; Add Option followed by removing the option
    just added gives the property back. *)
Theorem option_edits_touch_one_option :
  forall (p : SchemaProperty) (e : list jsstring) (index : nat),
    enum p = Some e ->
    index < List.length e ->
    (forall value, exists e',
        editOption index value p = Some (with_enum (Some e') p)
        /\ List.length e' = List.length e
        /\ nth_error e' index = Some value
        /\ forall j, j <> index -> nth_error e' j = nth_error e j)
    /\ (exists after,
          removeOption index p
          = Some (with_enum (match after with [] => None | _ => Some after end)
                            p)
          /\ S (List.length after) = List.length e
          /\ forall j, nth_error after j
                       = if Nat.ltb j index then nth_error e j
                         else nth_error e (S j))
    /\ removeOption (List.length e) (addOption p) = Some p.
Proof.
  intros p e index He Hi. repeat match goal with |- _ /\ _ => split end.
  - intros value. unfold editOption. rewrite He.
    destruct (set_index_in_range value e Hi) as [e' Hs]. rewrite Hs.
    exists e'. split; [reflexivity|]. split.
    + eapply set_index_length; eassumption.
    + eapply set_index_nth; eassumption.
  - exists (filter_index_ne index e). unfold removeOption. rewrite He.
    split; [|split].
    + now destruct (filter_index_ne index e).
    + now apply filter_index_ne_length.
    + intros j. apply filter_index_ne_nth.
  - unfold removeOption, addOption. rewrite He.
    cbn [enum with_enum]. rewrite filter_index_ne_last.
    destruct p as [ty de en fm it mu ps rq]. simpl in *. subst en.
    destruct e as [|x rest]; [simpl in Hi; lia | reflexivity].
Qed.

Lemma option_edits_touch_one_option_witness :
  let p := with_enum (Some [js "red"; js "green"]) default_property in
  (forall value, exists e',
      editOption 1 value p = Some (with_enum (Some e') p)
      /\ List.length e' = 2
      /\ nth_error e' 1 = Some value
      /\ forall j, j <> 1 -> nth_error e' j = nth_error [js "red"; js "green"] j)
  /\ (exists after,
        removeOption 1 p
        = Some (with_enum (match after with [] => None | _ => Some after end)
                          p)
        /\ S (List.length after) = 2
        /\ forall j, nth_error after j
                     = if Nat.ltb j 1 then nth_error [js "red"; js "green"] j
                       else nth_error [js "red"; js "green"] (S j))
  /\ removeOption 2 (addOption p) = Some p.
Proof.
  apply (@option_edits_touch_one_option
           (with_enum (Some [js "red"; js "green"]) default_property)
           [js "red"; js "green"] 1).
  - reflexivity.
  - simpl. lia.
Defined.

(* ===================================================================== *)
(** * What the compiled ruleset accepts *)
(* ===================================================================== *)

Lemma In_set (V : Type) (k : jsstring) (v : V) (o : JSObject V)
    (entry : jsstring * V) :
  In entry (set k v o) -> entry = (k, v) \/ In entry o.
Proof.
  unfold set. destruct (has k o).
  - induction o as [|[k0 v0] rest IH]; simpl; [tauto|].
    destruct (str_eqb k0 k); simpl; intuition.
  - destruct (array_index k) as [i|].
    + induction o as [|[k0 v0] rest IH]; simpl; [intuition|].
      destruct (array_index k0) as [i'|]; [destruct (N.ltb i i')|]; simpl;
        intuition.
    + rewrite in_app_iff. simpl. intuition.
Qed.

Lemma In_assign (V : Type) (k : jsstring) (v : V) (o : JSObject V)
    (entry : jsstring * V) :
  In entry (assign k v o) -> entry = (k, v) \/ In entry o.
Proof.
  unfold assign. destruct (_ && _)%bool; [now right | apply In_set].
Qed.

Lemma In_has (V : Type) (k : jsstring) (v : V) (o : JSObject V) :
  In (k, v) o -> has k o = true.
Proof.
  intros H. unfold has. apply existsb_exists.
  exists (k, v). split; [assumption | apply str_eqb_refl].
Qed.

Lemma In_compile_shape (rule : SchemaProperty -> ZodTypeAny)
    (req : list jsstring) (ps : JSObject SchemaProperty)
    (key : jsstring) (t : ZodTypeAny) :
  In (key, t) (DynamicForm.compile_shape rule ps req) ->
  exists p, In (key, p) ps /\ t = stored rule req key p.
Proof.
  rewrite compile_shape_fold.
  assert (forall acc,
            In (key, t) (fold_left (shape_step rule req) ps acc) ->
            In (key, t) acc
            \/ exists p, In (key, p) ps /\ t = stored rule req key p) as G.
  { induction ps as [|[k p] rest IH]; intros acc H; [now left|].
    simpl in H. apply IH in H. destruct H as [H | (q & Hq & Ht)].
    - unfold shape_step in H. simpl in H. apply In_assign in H.
      destruct H as [H | H]; [|now left].
      injection H as -> ->. right. exists p. split; [now left | reflexivity].
    - right. exists q. split; [now right | assumption]. }
  intros H. apply G in H. destruct H as [[] | H]. exact H.
Qed.

Lemma accepts_stored (is_email : jsstring -> bool) (req : list jsstring)
    (key : jsstring) (p : SchemaProperty) (v : JSValue) :
  accepts is_email (stored DynamicForm.zodType_of req key p) v
  = (satisfies is_email (requirement p) v
     || (negb (includes req key) && is_undefined v))%bool.
Proof.
  unfold stored. destruct (includes req key); cbv beta iota delta [negb andb].
  - rewrite accepts_zodType_of. now rewrite orb_false_r.
  - rewrite accepts_optional. now rewrite accepts_zodType_of.
Qed.

Lemma satisfies_undefined (is_email : jsstring -> bool) (p : SchemaProperty) :
  In (Schema.type p)
     (List.map js ["string"; "number"; "boolean"; "object"; "array"]) ->
  satisfies is_email (requirement p) VUndefined = false.
Proof.
  destruct p as [ty de en fm it mu ps rq]. unfold requirement. simpl.
  intros [<- | [<- | [<- | [<- | [<- | []]]]]]; simpl.
  - destruct (DynamicForm.format_is _ "email"); [reflexivity|].
    destruct (_ || _)%bool; [reflexivity|].
    destruct en; [|reflexivity]. now destruct mu as [[|]|].
  - reflexivity.
  - reflexivity.
  - now destruct ps.
  - reflexivity.
Qed.

Lemma satisfies_function (is_email : jsstring -> bool) (p : SchemaProperty) :
  In (Schema.type p)
     (List.map js ["string"; "number"; "boolean"; "object"; "array"]) ->
  satisfies is_email (requirement p) VFunction = false.
Proof.
  destruct p as [ty de en fm it mu ps rq]. unfold requirement. simpl.
  intros [<- | [<- | [<- | [<- | [<- | []]]]]]; simpl.
  - destruct (DynamicForm.format_is _ "email"); [reflexivity|].
    destruct (_ || _)%bool; [reflexivity|].
    destruct en; [|reflexivity]. now destruct mu as [[|]|].
  - reflexivity.
  - reflexivity.
  - now destruct ps.
  - reflexivity.
Qed.

(** The entries of a compiled shape are those of the properties not
    named [__proto__]. *)
Lemma In_compile_shape_key (rule : SchemaProperty -> ZodTypeAny)
    (req : list jsstring) (ps : JSObject SchemaProperty)
    (key : jsstring) (t : ZodTypeAny) :
  In (key, t) (DynamicForm.compile_shape rule ps req) ->
  key <> js "__proto__".
Proof.
  intros Hin -> . apply In_has in Hin. rewrite has_get in Hin.
  rewrite compile_shape_get_none in Hin by now right. discriminate.
Qed.

(** X10.  The ruleset compiled from a mapping (no key twice) accepts
    an object exactly when, for every property whose name is not
    [__proto__], the value read under its key meets the requirement of
    the property, or is [undefined] while the key is not required.
    The value read is the object's own, or for a key the object lacks
    what [Object.prototype] has under it: a function for [toString],
    [constructor] and the like, [undefined] otherwise - so an object
    that lacks an optional field named [toString] is rejected.  Keys of
    the object that are no properties play no part, and so does a
    property named [__proto__]; a value that is no object is rejected. *)
Theorem ruleset_accepts_exactly_the_conforming_objects :
  forall (is_email : jsstring -> bool)
         (schema_properties : JSObject SchemaProperty)
         (schema_required : list jsstring),
    distinct (keys schema_properties) = true ->
    (forall o,
        accepts is_email
          (DynamicForm.createZodSchema schema_properties schema_required)
          (VObject o) = true
        <->
        forall key property,
          In (key, property) schema_properties ->
          key <> js "__proto__" ->
          (satisfies is_email (requirement property) (read key o)
           || (negb (includes schema_required key)
               && is_undefined (read key o)))%bool = true)
    /\ (forall property,
          In (js "toString", property) schema_properties ->
          In (Schema.type property)
             (List.map js ["string"; "number"; "boolean"; "object"; "array"]) ->
          forall o, get (js "toString") o = None ->
          accepts is_email
            (DynamicForm.createZodSchema schema_properties schema_required)
            (VObject o) = false)
    /\ (forall v, (forall o, v <> VObject o) -> v <> VObjectPrototype ->
          accepts is_email
            (DynamicForm.createZodSchema schema_properties schema_required) v
          = false).
Proof.
  intros is_email ps req Hd.
  assert (forall o,
            accepts is_email (DynamicForm.createZodSchema ps req) (VObject o)
            = true
            <-> forall key property,
                In (key, property) ps -> key <> js "__proto__" ->
                (satisfies is_email (requirement property) (read key o)
                 || (negb (includes req key)
                     && is_undefined (read key o)))%bool = true) as Hiff.
  { intros o. unfold DynamicForm.createZodSchema.
    cbn [accepts]. rewrite forallb_forall. split.
    - intros H key p Hin Hkey.
      pose proof (@compile_shape_get DynamicForm.zodType_of req ps key p
                    Hd Hin Hkey) as Hg.
      apply get_In in Hg. specialize (H _ Hg). cbn [fst snd] in H.
      rewrite accepts_stored in H. exact H.
    - intros H [key t] Hin.
      pose proof (@In_compile_shape_key _ _ _ _ _ Hin) as Hkey.
      apply In_compile_shape in Hin.
      destruct Hin as (p & Hp & ->). cbn [fst snd].
      rewrite accepts_stored. now apply H. }
  split; [exact Hiff|]. split.
  - intros p Hin Hty o Hmiss.
    destruct (accepts _ _ _) eqn:E; [|reflexivity]. exfalso.
    assert (js "toString" <> js "__proto__") as Hne by discriminate.
    pose proof (proj1 (Hiff o) E _ _ Hin Hne) as E'.
    assert (read (js "toString") o = VFunction) as Hread
      by (unfold read; now rewrite Hmiss).
    rewrite Hread in E'.
    rewrite (satisfies_function is_email p Hty) in E'.
    rewrite andb_false_r in E'. discriminate.
  - intros v Hv Hp. destruct v; try reflexivity.
    + now destruct (Hv o).
    + now destruct Hp.
Qed.

Lemma ruleset_accepts_exactly_the_conforming_objects_witness :
  let is_email := fun _ : jsstring => false in
  (forall o,
      accepts is_email
        (DynamicForm.createZodSchema widget_properties widget_required)
        (VObject o) = true
      <->
      forall key property,
        In (key, property) widget_properties ->
        key <> js "__proto__" ->
        (satisfies is_email (requirement property) (read key o)
         || (negb (includes widget_required key)
             && is_undefined (read key o)))%bool = true)
  /\ (forall property,
        In (js "toString", property) widget_properties ->
        In (Schema.type property)
           (List.map js ["string"; "number"; "boolean"; "object"; "array"]) ->
        forall o, get (js "toString") o = None ->
        accepts is_email
          (DynamicForm.createZodSchema widget_properties widget_required)
          (VObject o) = false)
  /\ (forall v, (forall o, v <> VObject o) -> v <> VObjectPrototype ->
        accepts is_email
          (DynamicForm.createZodSchema widget_properties widget_required) v
        = false).
Proof.
  apply (ruleset_accepts_exactly_the_conforming_objects
           (fun _ : jsstring => false) widget_properties widget_required).
  reflexivity.
Defined.

(** An optional field named [toString]: the empty object is rejected,
    since what it has under that name is a function. *)
Example optional_toString_field_rejects_the_empty_object :
  accepts (fun _ => false)
    (DynamicForm.createZodSchema [(js "toString", default_property)] [])
    (VObject []) = false
  /\ accepts (fun _ => false)
       (DynamicForm.createZodSchema [(js "label", default_property)] [])
       (VObject []) = true.
Proof. split; reflexivity. Qed.

(** X11.  An object that lacks a required field of one of the five
    known types, whose name is not [__proto__], is rejected, whatever
    its other fields hold. *)
Theorem missing_required_field_is_rejected :
  forall (is_email : jsstring -> bool)
         (schema_properties : JSObject SchemaProperty)
         (schema_required : list jsstring)
         (key : jsstring) (property : SchemaProperty)
         (o : JSObject JSValue),
    distinct (keys schema_properties) = true ->
    In (key, property) schema_properties ->
    key <> js "__proto__" ->
    includes schema_required key = true ->
    In (Schema.type property)
       (List.map js ["string"; "number"; "boolean"; "object"; "array"]) ->
    get key o = None ->
    accepts is_email
      (DynamicForm.createZodSchema schema_properties schema_required)
      (VObject o) = false.
Proof.
  intros is_email ps req key p o Hd Hin Hkey Hreq Hty Hmiss.
  destruct (accepts _ _ _) eqn:E; [|reflexivity]. exfalso.
  unfold DynamicForm.createZodSchema in E. cbn [accepts] in E.
  rewrite forallb_forall in E.
  pose proof (@compile_shape_get DynamicForm.zodType_of req ps key p Hd Hin
                Hkey) as Hg.
  apply get_In in Hg. specialize (E _ Hg). cbn [fst snd] in E.
  rewrite accepts_stored, Hreq in E. unfold read in E. rewrite Hmiss in E.
  apply str_eqb_neq in Hkey. rewrite Hkey in E.
  destruct (includes prototype_functions key).
  - rewrite (satisfies_function is_email p Hty) in E. discriminate.
  - rewrite (satisfies_undefined is_email p Hty) in E. discriminate.
Qed.

Lemma missing_required_field_is_rejected_witness :
  accepts (fun _ : jsstring => false)
    (DynamicForm.createZodSchema widget_properties widget_required)
    (VObject [(js "name", VString (js "Widget"))]) = false.
Proof.
  apply (@missing_required_field_is_rejected
           (fun _ : jsstring => false) widget_properties widget_required
           (js "price")
           (mkSchemaProperty (js "number") None None None None None None None)
           [(js "name", VString (js "Widget"))]).
  - reflexivity.
  - simpl. right. left. reflexivity.
  - discriminate.
  - reflexivity.
  - simpl. right. left. reflexivity.
  - reflexivity.
Defined.

(* ===================================================================== *)
(** * Check boxes and text boxes against the compiled rules *)
(* ===================================================================== *)

(** X12.  The check boxes of a multiple-choice field work as a set
    toggle: ticking the box of an option makes it shown ticked,
    unticking makes it shown unticked (every occurrence of the option
    leaves the value), and the boxes of the other options are shown as
    before.  Ticking an unticked box and unticking it again gives the
    value back.  With options red and green, ticking both and unticking
    red leaves green alone. *)
Theorem check_boxes_toggle_membership :
  forall (opt : jsstring) (fieldValue : option (list jsstring)),
    FormFields.boxChecked opt
      (Some (FormFields.onCheckedChange opt true fieldValue)) = true
    /\ FormFields.boxChecked opt
         (Some (FormFields.onCheckedChange opt false fieldValue)) = false
    /\ (forall other checked, other <> opt ->
          FormFields.boxChecked other
            (Some (FormFields.onCheckedChange opt checked fieldValue))
          = FormFields.boxChecked other fieldValue)
    /\ (FormFields.boxChecked opt fieldValue = false ->
        FormFields.onCheckedChange opt false
          (Some (FormFields.onCheckedChange opt true fieldValue))
        = FormFields.currentValues fieldValue)
    /\ FormFields.onCheckedChange (js "red") false
         (Some (FormFields.onCheckedChange (js "green") true
                  (Some (FormFields.onCheckedChange (js "red") true None))))
       = [js "green"].
Proof.
  intros opt fv. unfold FormFields.boxChecked, FormFields.onCheckedChange.
  cbn [FormFields.currentValues].
  repeat match goal with |- _ /\ _ => split end.
  - rewrite includes_app. unfold includes at 2. simpl.
    rewrite str_eqb_refl. apply orb_true_r.
  - rewrite includes_filter_ne, str_eqb_refl. apply andb_false_r.
  - intros other checked Hne. apply str_eqb_neq in Hne. destruct checked.
    + rewrite includes_app. unfold includes at 2. simpl.
      rewrite Hne. now rewrite !orb_false_r.
    + rewrite includes_filter_ne, Hne. apply andb_true_r.
  - intros H. rewrite filter_app. simpl. rewrite str_eqb_refl. simpl.
    rewrite app_nil_r. now apply filter_ne_absent.
  - reflexivity.
Qed.

Lemma forallb_strings (is_email : jsstring -> bool) (xs : list jsstring) :
  forallb (accepts is_email z_string) (List.map VString xs) = true.
Proof. induction xs as [|x rest IH]; [reflexivity | exact IH]. Qed.

(** X13.  For a string property with options and the multiple flag,
    whose format is none of email, date and date-time, whatever the
    check boxes hand over passes the compiled rule - also the empty
    selection, so a required multiple-choice field can be submitted with
    nothing ticked once a box was ticked and unticked. *)
Theorem check_box_values_pass_the_rule :
  forall (is_email : jsstring -> bool) (p : SchemaProperty)
         (e : list jsstring) (opt : jsstring) (checked : bool)
         (fieldValue : option (list jsstring)),
    Schema.type p = js "string" ->
    enum p = Some e ->
    multiple p = Some true ->
    DynamicForm.format_is p "email" = false ->
    DynamicForm.format_is p "date" = false ->
    DynamicForm.format_is p "date-time" = false ->
    accepts is_email (DynamicForm.zodType_of p)
      (FormFields.strings_value
         (FormFields.onCheckedChange opt checked fieldValue)) = true
    /\ accepts is_email (DynamicForm.zodType_of p)
         (FormFields.strings_value
            (FormFields.onCheckedChange opt false
               (Some (FormFields.onCheckedChange opt true None)))) = true
    /\ FormFields.onCheckedChange opt false
         (Some (FormFields.onCheckedChange opt true None)) = [].
Proof.
  intros is_email [ty de en fm it mu ps rq] e opt checked fv.
  simpl. intros -> -> -> H1 H2 H3.
  assert (forall xs,
            accepts is_email
              (DynamicForm.zodType_of
                 (mkSchemaProperty (js "string") de (Some e) fm it
                                   (Some true) ps rq))
              (FormFields.strings_value xs) = true) as Hall.
  { intros xs. unfold DynamicForm.zodType_of.
    cbn [Schema.type Schema.enum Schema.multiple].
    change (str_eqb (js "string") (js "string")) with true. cbv iota.
    rewrite H1, H2, H3. cbn [orb]. cbv iota.
    unfold FormFields.strings_value. cbn [accepts].
    apply (forallb_strings is_email). }
  repeat match goal with |- _ /\ _ => split end.
  - apply Hall.
  - apply Hall.
  - unfold FormFields.onCheckedChange. simpl. now rewrite str_eqb_refl.
Qed.

Lemma check_box_values_pass_the_rule_witness :
  let p := mkSchemaProperty (js "string") None (Some [js "red"; js "green"])
             None None (Some true) None None in
  accepts (fun _ : jsstring => false) (DynamicForm.zodType_of p)
    (FormFields.strings_value
       (FormFields.onCheckedChange (js "red") true (Some [js "green"])))
  = true
  /\ accepts (fun _ : jsstring => false) (DynamicForm.zodType_of p)
       (FormFields.strings_value
          (FormFields.onCheckedChange (js "red") false
             (Some (FormFields.onCheckedChange (js "red") true None))))
     = true
  /\ FormFields.onCheckedChange (js "red") false
       (Some (FormFields.onCheckedChange (js "red") true None)) = [].
Proof.
  apply (@check_box_values_pass_the_rule
           (fun _ : jsstring => false)
           (mkSchemaProperty (js "string") None (Some [js "red"; js "green"])
              None None (Some true) None None)
           [js "red"; js "green"] (js "red") true (Some [js "green"]));
    reflexivity.
Defined.

(** X14.  An array-typed property is rendered as the fallback text
    box, which stores the typed text as a string, and the rule compiled
    for it asks for a sequence: whatever is typed is rejected. *)
Theorem array_field_text_is_always_rejected :
  forall (is_email : jsstring -> bool) (p : SchemaProperty) (text : jsstring),
    Schema.type p = js "array" ->
    DynamicForm.inputOnChange p text = Some (VString text)
    /\ accepts is_email (DynamicForm.zodType_of p) (VString text) = false.
Proof.
  intros is_email [ty de en fm it mu ps rq] text. simpl. intros ->.
  split; reflexivity.
Qed.

Lemma array_field_text_is_always_rejected_witness :
  let p := with_type (js "array") default_property in
  DynamicForm.inputOnChange p (js "a, b") = Some (VString (js "a, b"))
  /\ accepts (fun _ : jsstring => false) (DynamicForm.zodType_of p)
       (VString (js "a, b")) = false.
Proof.
  apply (array_field_text_is_always_rejected
           (fun _ : jsstring => false)
           (with_type (js "array") default_property) (js "a, b")).
  reflexivity.
Defined.

(** X15.  A string property without options, whose format is none of
    email, date and date-time, is rendered as a text box whose text is
    stored as it is and passes the compiled rule whatever it is - also
    the empty text, so a required text field passes once something was
    typed into it and deleted. *)
Theorem plain_text_always_passes :
  forall (is_email : jsstring -> bool) (p : SchemaProperty) (text : jsstring),
    Schema.type p = js "string" ->
    enum p = None ->
    DynamicForm.format_is p "email" = false ->
    DynamicForm.format_is p "date" = false ->
    DynamicForm.format_is p "date-time" = false ->
    DynamicForm.inputOnChange p text = Some (VString text)
    /\ accepts is_email (DynamicForm.zodType_of p) (VString text) = true
    /\ accepts is_email (DynamicForm.zodType_of p) (VString empty_string)
       = true.
Proof.
  intros is_email [ty de en fm it mu ps rq] text. simpl.
  intros -> -> H1 H2 H3.
  unfold DynamicForm.inputOnChange, DynamicForm.zodType_of.
  cbn [Schema.type Schema.enum].
  change (str_eqb (js "string") (js "boolean")) with false.
  change (str_eqb (js "string") (js "string")) with true. cbv iota.
  rewrite H1, H2, H3. cbn [orb]. cbv iota.
  repeat split.
Qed.

Lemma plain_text_always_passes_witness :
  let p := with_format (Some (js "markdown")) default_property in
  DynamicForm.inputOnChange p (js "# Title") = Some (VString (js "# Title"))
  /\ accepts (fun _ : jsstring => false) (DynamicForm.zodType_of p)
       (VString (js "# Title")) = true
  /\ accepts (fun _ : jsstring => false) (DynamicForm.zodType_of p)
       (VString empty_string) = true.
Proof.
  apply (plain_text_always_passes
           (fun _ : jsstring => false)
           (with_format (Some (js "markdown")) default_property)
           (js "# Title"));
    reflexivity.
Defined.

(* ===================================================================== *)
(** * Moving between the steps *)
(* ===================================================================== *)

(** X16.  In multi-step mode, from step 0 the Previous and Next
    buttons never leave the plan: the current step stays 0 or below the
    step count.  Where Next is shown, Previous undoes it; where
    Previous is shown, Next undoes it; where Next is not shown it does
    nothing, and Submit is shown in its place - exactly on the last
    step, or on step 0 of a schema without properties.  Every step of
    the plan is reached by pressing Next, and no step of a schema with
    properties is empty. *)
Theorem step_buttons_stay_in_the_plan :
  forall (A : Type) (propertyEntries : list A) (currentStep : nat),
    let count := DynamicForm.stepsCount true propertyEntries in
    (currentStep = 0 \/ (Z.of_nat currentStep < count)%Z) ->
    (DynamicForm.handleNext count currentStep = 0
     \/ (Z.of_nat (DynamicForm.handleNext count currentStep) < count)%Z)
    /\ (DynamicForm.handlePrevious currentStep = 0
        \/ (Z.of_nat (DynamicForm.handlePrevious currentStep) < count)%Z)
    /\ (FormFields.nextShown true count currentStep = true ->
        DynamicForm.handlePrevious (DynamicForm.handleNext count currentStep)
        = currentStep)
    /\ (FormFields.previousShown true currentStep = true ->
        DynamicForm.handleNext count (DynamicForm.handlePrevious currentStep)
        = currentStep)
    /\ (FormFields.nextShown true count currentStep = false ->
        DynamicForm.handleNext count currentStep = currentStep)
    /\ (FormFields.submitShown true count currentStep = true
        <-> (count - 1 <= Z.of_nat currentStep)%Z)
    /\ (forall k, (Z.of_nat k < count)%Z ->
          Nat.iter k (DynamicForm.handleNext count) 0 = k)
    /\ (propertyEntries <> [] ->
        DynamicForm.currentStepProperties true currentStep propertyEntries
        <> []).
Proof.
  intros A l step count Hinv.
  unfold FormFields.submitShown, FormFields.nextShown,
    FormFields.previousShown, DynamicForm.handleNext,
    DynamicForm.handlePrevious.
  cbn [andb].
  repeat match goal with |- _ /\ _ => split end.
  - destruct (Z.ltb_spec (Z.of_nat step) (count - 1)); [right; lia | exact Hinv].
  - destruct (Nat.ltb_spec 0 step); [right; lia | exact Hinv].
  - intros H. rewrite H.
    destruct (Nat.ltb_spec 0 (step + 1)); lia.
  - intros H. rewrite H. apply Nat.ltb_lt in H.
    destruct (Z.ltb_spec (Z.of_nat (step - 1)) (count - 1)); lia.
  - intros H. now rewrite H.
  - destruct (Z.ltb_spec (Z.of_nat step) (count - 1)); simpl; split;
      intros Hs; try discriminate; try reflexivity; lia.
  - intros k Hk. now apply handleNext_reaches.
  - intros Hne. unfold DynamicForm.currentStepProperties.
    rewrite slice_step. subst count. unfold DynamicForm.stepsCount in Hinv.
    rewrite ceil_third_nat in Hinv.
    assert (step * 3 < List.length l) as Hlt.
    { destruct l as [|a l']; [congruence|].
      destruct Hinv as [-> | Hlt]; [simpl; lia|].
      apply Nat2Z.inj_lt in Hlt.
      pose proof (Nat.div_mod_eq (List.length (a :: l') + 2) 3) as Ediv.
      pose proof (Nat.mod_upper_bound (List.length (a :: l') + 2) 3) as U.
      lia. }
    intros Hnil. apply (f_equal (@List.length A)) in Hnil.
    rewrite length_firstn, length_skipn in Hnil.
    change (List.length (@nil A)) with 0 in Hnil. lia.
Qed.

Lemma step_buttons_stay_in_the_plan_witness :
  let propertyEntries := [1; 2; 3; 4; 5; 6; 7] in
  let count := DynamicForm.stepsCount true propertyEntries in
  (DynamicForm.handleNext count 2 = 0
   \/ (Z.of_nat (DynamicForm.handleNext count 2) < count)%Z)
  /\ (DynamicForm.handlePrevious 2 = 0
      \/ (Z.of_nat (DynamicForm.handlePrevious 2) < count)%Z)
  /\ (FormFields.nextShown true count 2 = true ->
      DynamicForm.handlePrevious (DynamicForm.handleNext count 2) = 2)
  /\ (FormFields.previousShown true 2 = true ->
      DynamicForm.handleNext count (DynamicForm.handlePrevious 2) = 2)
  /\ (FormFields.nextShown true count 2 = false ->
      DynamicForm.handleNext count 2 = 2)
  /\ (FormFields.submitShown true count 2 = true
      <-> (count - 1 <= Z.of_nat 2)%Z)
  /\ (forall k, (Z.of_nat k < count)%Z ->
        Nat.iter k (DynamicForm.handleNext count) 0 = k)
  /\ (propertyEntries <> [] ->
      DynamicForm.currentStepProperties true 2 propertyEntries <> []).
Proof.
  apply (@step_buttons_stay_in_the_plan nat [1; 2; 3; 4; 5; 6; 7] 2).
  right. reflexivity.
Defined.

(* ===================================================================== *)
(** * The two copies of the validator compiler *)
(* ===================================================================== *)

Lemma compile_shape_ext (rule1 rule2 : SchemaProperty -> ZodTypeAny)
    (ps : JSObject SchemaProperty) (req : list jsstring) :
  (forall kq, In kq ps -> rule1 (snd kq) = rule2 (snd kq)) ->
  DynamicForm.compile_shape rule1 ps req
  = DynamicForm.compile_shape rule2 ps req.
Proof.
  unfold DynamicForm.compile_shape, entries.
  generalize (@empty_object ZodTypeAny).
  induction ps as [|kq rest IH]; intros acc H; [reflexivity|].
  simpl. rewrite (H kq) by now left.
  apply IH. intros kq' Hin. apply H. now right.
Qed.

Lemma size_nested (p q : SchemaProperty) (k : jsstring)
    (nested : JSObject SchemaProperty) :
  Schema.properties p = Some nested -> In (k, q) nested -> size q < size p.
Proof.
  destruct p as [ty de en fm it mu ps rq]. simpl. intros -> Hin.
  apply Nat.lt_succ_r.
  induction nested as [|[k0 q0] rest IH]; [contradiction|].
  simpl. destruct Hin as [E | Hin].
  - injection E as _ ->. lia.
  - specialize (IH Hin). lia.
Qed.

Lemma rules_agree_up_to (n : nat) :
  forall p, size p <= n -> multiple_free p = true ->
            BasicForm.zodType_of p = DynamicForm.zodType_of p.
Proof.
  induction n as [|n IH]; intros p Hsize Hfree.
  - destruct p as [ty de en fm it mu [nested|] rq]; simpl in Hsize; lia.
  - pose proof (@size_nested p) as Hsub.
    destruct p as [ty de en fm it mu ps rq].
    simpl in Hfree. apply andb_true_iff in Hfree.
    destruct Hfree as [Hmu Hnested].
    unfold BasicForm.zodType_of, DynamicForm.zodType_of; simpl.
    destruct (str_eqb ty (js "string")).
    { destruct (DynamicForm.format_is _ "email"); [reflexivity|].
      destruct (_ || _)%bool; [reflexivity|].
      destruct en; [|reflexivity]. now destruct mu as [[|]|]. }
    destruct (str_eqb ty (js "number")); [reflexivity|].
    destruct (str_eqb ty (js "boolean")); [reflexivity|].
    destruct (str_eqb ty (js "object")); [|reflexivity].
    destruct ps as [nested|]; [|reflexivity].
    f_equal. apply compile_shape_ext. intros [k q] Hin.
    rewrite forallb_forall in Hnested.
    apply IH.
    + specialize (Hsub q k nested eq_refl Hin). simpl in Hsub, Hsize.
      cbn [snd]. lia.
    + apply (Hnested _ Hin).
Qed.

(** X17.  On a schema none of whose properties, at any depth, has the
    multiple flag set, the earlier copy of the validator compiler and
    the one of the form with options build the same ruleset. *)
Theorem compilers_agree_without_multiple :
  forall (schema_properties : JSObject SchemaProperty)
         (schema_required : list jsstring),
    forallb (fun kq => multiple_free (snd kq)) schema_properties = true ->
    BasicForm.createZodSchema schema_properties schema_required
    = DynamicForm.createZodSchema schema_properties schema_required.
Proof.
  intros ps req H. unfold BasicForm.createZodSchema,
    DynamicForm.createZodSchema. f_equal.
  apply compile_shape_ext. intros kq Hin.
  rewrite forallb_forall in H.
  apply (rules_agree_up_to (n := size (snd kq))); [lia | now apply H].
Qed.

Lemma compilers_agree_without_multiple_witness :
  let address := with_required (Some [js "city"])
                   (with_properties
                      (Some [(js "city", default_property);
                             (js "kind",
                              with_enum (Some [js "home"; js "work"])
                                        default_property)])
                      (with_type (js "object") default_property)) in
  let schema_properties := [(js "name", default_property);
                            (js "address", address)] in
  BasicForm.createZodSchema schema_properties [js "name"]
  = DynamicForm.createZodSchema schema_properties [js "name"].
Proof.
  apply (compilers_agree_without_multiple
           [(js "name", default_property);
            (js "address",
             with_required (Some [js "city"])
               (with_properties
                  (Some [(js "city", default_property);
                         (js "kind",
                          with_enum (Some [js "home"; js "work"])
                                    default_property)])
                  (with_type (js "object") default_property)))]
           [js "name"]).
  reflexivity.
Defined.

(* ===================================================================== *)
(** * The list of saved schemas *)
(* ===================================================================== *)

Lemma edit_from_nth (i : nat) (clock : nat -> N) (edited : jsstring)
    (data : SchemaDocument.CreateSchemaRequest)
    (schemas : list SchemaDocument.ProductSchema) (k : nat) :
  nth_error (Index.edit_from i clock edited data schemas) k
  = option_map
      (fun schema =>
         if str_eqb (SchemaDocument.id schema) edited
         then SchemaDocument.mkProductSchema
                (SchemaDocument.id schema)
                (SchemaDocument.request_category data)
                (SchemaDocument.request_eventType data)
                (SchemaDocument.request_schema data)
                (SchemaDocument.createdAt schema) (clock (i + k))
         else schema)
      (nth_error schemas k).
Proof.
  revert i k. induction schemas as [|s rest IH]; intros i [|k]; simpl;
    try reflexivity.
  - now rewrite Nat.add_0_r.
  - rewrite IH. now rewrite Nat.add_succ_r.
Qed.

Lemma edit_from_map (A : Type) (f : SchemaDocument.ProductSchema -> A)
    (i : nat) (clock : nat -> N) (edited : jsstring)
    (data : SchemaDocument.CreateSchemaRequest)
    (schemas : list SchemaDocument.ProductSchema) :
  (forall s t, f (SchemaDocument.mkProductSchema
                    (SchemaDocument.id s)
                    (SchemaDocument.request_category data)
                    (SchemaDocument.request_eventType data)
                    (SchemaDocument.request_schema data)
                    (SchemaDocument.createdAt s) t) = f s) ->
  List.map f (Index.edit_from i clock edited data schemas)
  = List.map f schemas.
Proof.
  intros Hf. revert i. induction schemas as [|s rest IH]; intros i;
    [reflexivity|].
  simpl. rewrite IH. f_equal.
  destruct (str_eqb (SchemaDocument.id s) edited); [apply Hf | reflexivity].
Qed.

Lemma edit_from_unknown (i : nat) (clock : nat -> N) (edited : jsstring)
    (data : SchemaDocument.CreateSchemaRequest)
    (schemas : list SchemaDocument.ProductSchema) :
  includes (List.map SchemaDocument.id schemas) edited = false ->
  Index.edit_from i clock edited data schemas = schemas.
Proof.
  revert i. induction schemas as [|s rest IH]; intros i H; [reflexivity|].
  unfold includes in H. simpl in H. apply orb_false_iff in H.
  destruct H as [H1 H2]. simpl.
  rewrite (str_eqb_sym (SchemaDocument.id s) edited), H1.
  f_equal. now apply IH.
Qed.

(** X18.  Editing a saved schema keeps the number, the order, the ids
    and the creation times of all saved schemas; the schema at each
    position is the one that was there, or, when it has the edited id,
    the submitted category, event type and schema document under the
    old id and creation time, with the clock reading as update time.
    Editing an id that no saved schema has changes nothing. *)
Theorem edit_keeps_identity_and_place :
  forall (clock : nat -> N) (edited : jsstring)
         (data : SchemaDocument.CreateSchemaRequest)
         (schemas : list SchemaDocument.ProductSchema),
    List.length (Index.handleEditSchema clock edited data schemas)
    = List.length schemas
    /\ List.map SchemaDocument.id
                (Index.handleEditSchema clock edited data schemas)
       = List.map SchemaDocument.id schemas
    /\ List.map SchemaDocument.createdAt
                (Index.handleEditSchema clock edited data schemas)
       = List.map SchemaDocument.createdAt schemas
    /\ (forall k schema,
          nth_error schemas k = Some schema ->
          nth_error (Index.handleEditSchema clock edited data schemas) k
          = Some (if str_eqb (SchemaDocument.id schema) edited
                  then SchemaDocument.mkProductSchema
                         (SchemaDocument.id schema)
                         (SchemaDocument.request_category data)
                         (SchemaDocument.request_eventType data)
                         (SchemaDocument.request_schema data)
                         (SchemaDocument.createdAt schema) (clock k)
                  else schema))
    /\ (includes (List.map SchemaDocument.id schemas) edited = false ->
        Index.handleEditSchema clock edited data schemas = schemas).
Proof.
  intros clock edited data schemas. unfold Index.handleEditSchema.
  repeat match goal with |- _ /\ _ => split end.
  - rewrite <- (length_map SchemaDocument.id), edit_from_map by reflexivity.
    apply length_map.
  - now apply edit_from_map.
  - now apply edit_from_map.
  - intros k schema H. rewrite edit_from_nth, H. reflexivity.
  - apply edit_from_unknown.
Qed.

Lemma delete_unknown (deleted : jsstring)
    (schemas : list SchemaDocument.ProductSchema) :
  includes (List.map SchemaDocument.id schemas) deleted = false ->
  Index.handleDeleteSchema deleted schemas = schemas.
Proof.
  induction schemas as [|s rest IH]; intros H; [reflexivity|].
  unfold includes in H. simpl in H. apply orb_false_iff in H.
  destruct H as [H1 H2]. unfold Index.handleDeleteSchema. simpl.
  rewrite (str_eqb_sym (SchemaDocument.id s) deleted), H1. simpl.
  f_equal. now apply IH.
Qed.

(** X19.  Deleting by id removes every saved schema with that id and
    no other, and keeps the others in their order; deleting an id that
    no saved schema has changes nothing, so deleting twice is deleting
    once. *)
Theorem delete_removes_exactly_the_id :
  forall (deleted : jsstring) (schemas : list SchemaDocument.ProductSchema),
    (forall schema,
        In schema (Index.handleDeleteSchema deleted schemas)
        <-> In schema schemas /\ SchemaDocument.id schema <> deleted)
    /\ includes (List.map SchemaDocument.id
                          (Index.handleDeleteSchema deleted schemas))
                deleted = false
    /\ List.map SchemaDocument.id (Index.handleDeleteSchema deleted schemas)
       = filter (fun i => negb (str_eqb i deleted))
                (List.map SchemaDocument.id schemas)
    /\ (includes (List.map SchemaDocument.id schemas) deleted = false ->
        Index.handleDeleteSchema deleted schemas = schemas)
    /\ Index.handleDeleteSchema deleted
         (Index.handleDeleteSchema deleted schemas)
       = Index.handleDeleteSchema deleted schemas.
Proof.
  intros deleted schemas.
  assert (List.map SchemaDocument.id (Index.handleDeleteSchema deleted schemas)
          = filter (fun i => negb (str_eqb i deleted))
                   (List.map SchemaDocument.id schemas)) as Hids.
  { unfold Index.handleDeleteSchema.
    induction schemas as [|s rest IH]; [reflexivity|]. simpl.
    destruct (str_eqb (SchemaDocument.id s) deleted); simpl; now rewrite IH. }
  assert (includes (List.map SchemaDocument.id
                             (Index.handleDeleteSchema deleted schemas))
                   deleted = false) as Hgone.
  { rewrite Hids, includes_filter_ne, str_eqb_refl. apply andb_false_r. }
  repeat match goal with |- _ /\ _ => split end.
  - intros schema. unfold Index.handleDeleteSchema. rewrite filter_In.
    rewrite negb_true_iff, str_eqb_neq. tauto.
  - exact Hgone.
  - exact Hids.
  - apply delete_unknown.
  - now apply delete_unknown.
Qed.


(* ===================================================================== *)
(** * Saving a schema *)
(* ===================================================================== *)

(** X21.  Save is refused exactly when the category, the event type or
    the title is made of white space only (the empty text included),
    which is also exactly when the Add Property button is disabled.
    When it is not refused, what is sent is what the preview shows: the
    three texts as typed, not trimmed, and a document of type [object]
    with the properties mapping and the required list of the editor. *)
Theorem save_sends_what_the_preview_shows :
  forall (st : SaveSchema.FormState),
    (SaveSchema.handleSave st = None
     <-> (forallb is_whitespace (SaveSchema.category st) = true
          \/ forallb is_whitespace (SaveSchema.eventType st) = true
          \/ forallb is_whitespace (SaveSchema.title st) = true))
    /\ (SaveSchema.addPropertyDisabled st = true
        <-> SaveSchema.handleSave st = None)
    /\ (forall sent,
          SaveSchema.handleSave st = Some sent ->
          sent = SaveSchema.generatePreview st
          /\ SchemaDocument.request_category sent = SaveSchema.category st
          /\ SchemaDocument.request_eventType sent = SaveSchema.eventType st
          /\ SchemaDocument.title (SchemaDocument.request_schema sent)
             = SaveSchema.title st
          /\ SchemaDocument.type (SchemaDocument.request_schema sent)
             = js "object"
          /\ SchemaDocument.properties (SchemaDocument.request_schema sent)
             = SchemaBuilder.properties (SaveSchema.tree st)
          /\ SchemaDocument.required (SchemaDocument.request_schema sent)
             = SchemaBuilder.required (SaveSchema.tree st)).
Proof.
  intros st. unfold SaveSchema.handleSave, SaveSchema.addPropertyDisabled.
  fold (blank (SaveSchema.category st)) (blank (SaveSchema.eventType st))
       (blank (SaveSchema.title st)).
  rewrite <- !blank_spec.
  destruct (blank (SaveSchema.category st));
    destruct (blank (SaveSchema.eventType st));
    destruct (blank (SaveSchema.title st)); simpl;
    (split; [|split]);
    try (split; intros H; try discriminate; try reflexivity; tauto);
    try (split; intros H; try discriminate; try reflexivity;
         destruct H as [H | [H | H]]; discriminate);
    try (intros sent H; discriminate);
    intros sent H; injection H as <-; repeat split.
Qed.

(** X22.  Opening a saved schema in the editor and saving at once
    sends back the category, event type and schema document it was
    opened with, when none of category, event type and title is blank
    and the document's type is [object].  The editor opened without a
    schema refuses to save. *)
Theorem open_then_save_is_identity :
  forall (opened : SchemaDocument.CreateSchemaRequest),
    blank (SchemaDocument.request_category opened) = false ->
    blank (SchemaDocument.request_eventType opened) = false ->
    blank (SchemaDocument.title (SchemaDocument.request_schema opened))
    = false ->
    SchemaDocument.type (SchemaDocument.request_schema opened) = js "object" ->
    SaveSchema.handleSave (SaveSchema.initialState (Some opened)) = Some opened
    /\ SaveSchema.handleSave (SaveSchema.initialState None) = None.
Proof.
  intros [cat ev [ti de ty ps rq ad]]. simpl. intros H1 H2 H3 ->.
  split; [|reflexivity].
  unfold SaveSchema.handleSave. simpl.
  unfold blank in H1, H2, H3. now rewrite H1, H2, H3.
Qed.

Lemma open_then_save_is_identity_witness :
  let opened :=
    SchemaDocument.mkRequest (js "electronics") (js "product_created")
      (SchemaDocument.mkJSONSchema (js "Electronics") (js "Phones, laptops")
         (js "object") widget_properties widget_required false) in
  SaveSchema.handleSave (SaveSchema.initialState (Some opened)) = Some opened
  /\ SaveSchema.handleSave (SaveSchema.initialState None) = None.
Proof.
  apply (open_then_save_is_identity
           (SchemaDocument.mkRequest (js "electronics") (js "product_created")
              (SchemaDocument.mkJSONSchema (js "Electronics")
                 (js "Phones, laptops") (js "object")
                 widget_properties widget_required false)));
    reflexivity.
Defined.

(* ===================================================================== *)
(** * The tag input *)
(* ===================================================================== *)

Lemma trimStart_suffix (s : jsstring) : exists w, s = w ++ trimStart s.
Proof.
  induction s as [|c rest [w IH]]; [now exists []|].
  simpl. destruct (is_whitespace c).
  - exists (c :: w). simpl. now f_equal.
  - now exists [].
Qed.

Lemma trimStart_idempotent (s : jsstring) :
  trimStart (trimStart s) = trimStart s.
Proof.
  destruct (trimStart s) as [|c rest] eqn:E; [reflexivity|].
  apply trimStart_head in E. simpl. now rewrite E.
Qed.

(** Trimming twice is trimming once. *)
Lemma trim_idempotent (s : jsstring) : trim (trim s) = trim s.
Proof.
  unfold trim, trimEnd. set (u := trimStart s).
  assert (trimStart (rev (trimStart (rev u))) = rev (trimStart (rev u))) as H1.
  { destruct (trimStart_suffix (rev u)) as [w Hw].
    destruct (rev (trimStart (rev u))) as [|c t'] eqn:Et; [reflexivity|].
    assert (u = (c :: t') ++ rev w) as Hu.
    { rewrite <- Et, <- rev_app_distr, <- Hw. now rewrite rev_involutive. }
    assert (is_whitespace c = false) as Hc.
    { apply (@trimStart_head s c (t' ++ rev w)). exact Hu. }
    simpl. now rewrite Hc. }
  rewrite H1. rewrite rev_involutive. now rewrite trimStart_idempotent.
Qed.

Lemma filter_index_ne_removelast (A : Type) (xs : list A) :
  filter_index_ne (List.length xs - 1) xs = removelast xs.
Proof.
  induction xs as [|x [|y rest] IH]; try reflexivity.
  replace (List.length (x :: y :: rest) - 1)
    with (S (List.length (y :: rest) - 1)) by (cbn [List.length]; lia).
  cbn [filter_index_ne]. rewrite IH. reflexivity.
Qed.

(** X23.  Adding an item stores it trimmed at the end of the array,
    and clears the box; nothing is stored exactly when the item is
    blank or, trimmed, already in the array.  So an array without
    repeated items stays without them, and an array of non-empty items
    that are their own trimming stays one. *)
Theorem add_item_keeps_items_distinct_and_trimmed :
  forall (item : jsstring) (value : list jsstring),
    ArrayInput.inputValue (ArrayInput.addItem item value) = empty_string
    /\ (ArrayInput.emitted (ArrayInput.addItem item value) = None
        <-> blank item = true \/ includes value (trim item) = true)
    /\ (forall stored,
          ArrayInput.emitted (ArrayInput.addItem item value) = Some stored ->
          stored = value ++ [trim item]
          /\ (distinct value = true -> distinct stored = true)
          /\ (Forall (fun x => trim x = x /\ x <> []) value ->
              Forall (fun x => trim x = x /\ x <> []) stored)).
Proof.
  intros item value. unfold ArrayInput.addItem, blank.
  destruct (truthy_string (trim item)) eqn:Ht;
    destruct (includes value (trim item)) eqn:Hi; simpl;
    repeat match goal with |- _ /\ _ => split end;
    try reflexivity;
    try (split; intros H; try discriminate; try reflexivity; tauto);
    try (split; intros H; try discriminate;
         destruct H as [H | H]; discriminate);
    try (intros stored H; discriminate).
  intros stored H. injection H as <-. split; [reflexivity|]. split.
  - intros Hd. apply distinct_app_one; [assumption|].
    intros Hin. apply includes_In in Hin. congruence.
  - intros Hall. apply Forall_app. split; [assumption|].
    constructor; [|constructor]. split; [apply trim_idempotent|].
    intros E. now rewrite E in Ht.
Qed.

(** X24.  In the tag input, Enter and Space add the text of the box;
    Backspace in an empty box removes the last item and nothing else,
    and does nothing on an empty array or while the box has text; any
    other key changes nothing.  Adding a new item with Enter and then
    pressing Backspace gives the array back.  Leaving the box adds its
    text like Enter, except that a blank text is left in the box. *)
Theorem tag_input_keys :
  forall (current : jsstring) (value : list jsstring),
    ArrayInput.handleKeyDown (js "Enter") current value
    = ArrayInput.addItem current value
    /\ ArrayInput.handleKeyDown (js " ") current value
       = ArrayInput.addItem current value
    /\ ArrayInput.handleKeyDown (js "Backspace") empty_string value
       = ArrayInput.mkOutcome
           (match value with [] => None | _ => Some (removelast value) end)
           empty_string
    /\ (current <> empty_string ->
        ArrayInput.handleKeyDown (js "Backspace") current value
        = ArrayInput.mkOutcome None current)
    /\ (forall key,
          key <> js "Enter" -> key <> js " " -> key <> js "Backspace" ->
          ArrayInput.handleKeyDown key current value
          = ArrayInput.mkOutcome None current)
    /\ (blank current = false -> includes value (trim current) = false ->
        let added := ArrayInput.handleKeyDown (js "Enter") current value in
        ArrayInput.handleKeyDown (js "Backspace")
          (ArrayInput.inputValue added)
          (ArrayInput.next_value value added)
        = ArrayInput.mkOutcome (Some value) empty_string)
    /\ ArrayInput.handleInputBlur current value
       = (if blank current then ArrayInput.mkOutcome None current
          else ArrayInput.addItem current value).
Proof.
  intros current value.
  repeat match goal with |- _ /\ _ => split end.
  - reflexivity.
  - reflexivity.
  - unfold ArrayInput.handleKeyDown.
    change (str_eqb (js "Backspace") (js "Enter")) with false.
    change (str_eqb (js "Backspace") (js " ")) with false.
    change (str_eqb (js "Backspace") (js "Backspace")) with true.
    cbn [orb andb truthy_string empty_string negb].
    destruct value as [|x rest]; [reflexivity|].
    change (Nat.ltb 0 (List.length (x :: rest))) with true. cbv iota.
    unfold ArrayInput.removeItem. now rewrite filter_index_ne_removelast.
  - intros Hne. unfold ArrayInput.handleKeyDown.
    change (str_eqb (js "Backspace") (js "Enter")) with false.
    change (str_eqb (js "Backspace") (js " ")) with false.
    cbn [orb].
    destruct current as [|c rest]; [now destruct Hne|].
    cbn [truthy_string negb andb]. reflexivity.
  - intros key H1 H2 H3. apply str_eqb_neq in H1, H2, H3.
    unfold ArrayInput.handleKeyDown. now rewrite H1, H2, H3.
  - intros Hb Hi added. subst added.
    unfold blank in Hb. apply negb_false_iff in Hb.
    change (ArrayInput.handleKeyDown (js "Enter") current value)
      with (ArrayInput.addItem current value).
    unfold ArrayInput.addItem. rewrite Hb, Hi.
    cbn [andb negb ArrayInput.inputValue ArrayInput.next_value
         ArrayInput.emitted].
    unfold ArrayInput.handleKeyDown.
    change (str_eqb (js "Backspace") (js "Enter")) with false.
    change (str_eqb (js "Backspace") (js " ")) with false.
    change (str_eqb (js "Backspace") (js "Backspace")) with true.
    cbn [orb andb truthy_string empty_string negb].
    rewrite length_app. cbn [List.length].
    replace (Nat.ltb 0 (List.length value + 1)) with true
      by (symmetry; apply Nat.ltb_lt; lia).
    cbv iota. unfold ArrayInput.removeItem.
    replace (List.length value + 1 - 1) with (List.length value) by lia.
    now rewrite filter_index_ne_last.
  - unfold ArrayInput.handleInputBlur, blank.
    now destruct (truthy_string (trim current)).
Qed.

(* ===================================================================== *)
(** * The number box, whatever is typed *)
(* ===================================================================== *)

(** X25.  Whatever text is typed into the box of a number property,
    the box stores a number that is not [NaN], and the rule compiled
    for the property accepts it, required or not. *)
Theorem number_box_always_validates :
  forall (is_email : jsstring -> bool) (p : SchemaProperty)
         (schema_required : list jsstring) (key text : jsstring),
    Schema.type p = js "number" ->
    DynamicForm.inputOnChange p text
    = Some (VNumber (DynamicForm.numberOnChange text))
    /\ is_nan (DynamicForm.numberOnChange text) = false
    /\ accepts is_email (stored DynamicForm.zodType_of schema_required key p)
         (VNumber (DynamicForm.numberOnChange text)) = true.
Proof.
  intros is_email p req key text Hty.
  assert (is_nan (DynamicForm.numberOnChange text) = false) as Hnan.
  { unfold DynamicForm.numberOnChange.
    destruct (parseFloat text) as [| negative | negative m e];
      try reflexivity.
    now destruct (truthy_number (Decimal negative m e)). }
  split; [|split; [exact Hnan|]].
  - unfold DynamicForm.inputOnChange. rewrite Hty. reflexivity.
  - unfold stored. rewrite (zodType_of_number p Hty).
    destruct (negb (includes req key)).
    + rewrite accepts_optional. now rewrite numberOnChange_accepted.
    + apply numberOnChange_accepted.
Qed.

Lemma number_box_always_validates_witness :
  let p := with_type (js "number") default_property in
  DynamicForm.inputOnChange p (js "12.5kg")
  = Some (VNumber (DynamicForm.numberOnChange (js "12.5kg")))
  /\ is_nan (DynamicForm.numberOnChange (js "12.5kg")) = false
  /\ accepts (fun _ : jsstring => false)
       (stored DynamicForm.zodType_of [js "price"] (js "price") p)
       (VNumber (DynamicForm.numberOnChange (js "12.5kg"))) = true.
Proof.
  apply (number_box_always_validates
           (fun _ : jsstring => false)
           (with_type (js "number") default_property)
           [js "price"] (js "price") (js "12.5kg")).
  reflexivity.
Defined.

(* ===================================================================== *)
(** * The details the viewer shows *)
(* ===================================================================== *)

Lemma badges_up_to (toUpperCase : jsstring -> jsstring)
    (schema_required : list jsstring) (n : nat) :
  forall p name level base depth d,
    size p <= n ->
    In (depth, d)
       (blocks_at base (SchemaViewer.renderPropertyDetails toUpperCase
                          schema_required p name level)) ->
    SchemaViewer.requiredBadge d
    = includes schema_required (SchemaViewer.heading d)
    /\ base <= depth
    /\ SchemaViewer.marginLeft d = (level + (depth - base)) * 16.
Proof.
  induction n as [|n IH]; intros p name level base depth d Hsize Hin.
  - destruct p as [ty de en fm it mu [nested|] rq]; simpl in Hsize; lia.
  - pose proof (@size_nested p) as Hsub.
    destruct p as [ty de en fm it mu ps rq].
    cbn [blocks_at SchemaViewer.renderPropertyDetails
         SchemaViewer.nestedDetails Schema.properties Schema.type] in Hin.
    destruct Hin as [E | Hin].
    { injection E as <- <-. split; [reflexivity|]. split; [lia|].
      cbn [SchemaViewer.marginLeft]. f_equal. lia. }
    destruct ps as [nested|]; [|contradiction].
    destruct (str_eqb ty (js "object")); [|contradiction].
    apply in_concat in Hin. destruct Hin as [bs [Hbs Hd]].
    apply in_map_iff in Hbs. destruct Hbs as [d' [<- Hd']].
    apply in_map_iff in Hd'. destruct Hd' as [[k q] [<- Hkq]].
    cbn [fst snd] in Hd.
    apply IH in Hd.
    + destruct Hd as [Hbadge [Hle Hm]]. split; [exact Hbadge|].
      split; [lia|]. rewrite Hm. f_equal. lia.
    + specialize (Hsub q k nested eq_refl Hkq). simpl in Hsub, Hsize. lia.
Qed.

(** X26.  In the viewer, every block of the details of a property -
    its own and those of its nested properties at any depth - carries
    the Required badge exactly when the name in its heading is in the
    required list of the schema on view, whatever the required list of
    the object it is nested in; and the left margin of a block that is
    [depth] levels below the property is 16 pixels times the level of
    the property plus [depth]. *)
Theorem viewer_badge_follows_the_schema_list :
  forall (toUpperCase : jsstring -> jsstring)
         (schema_required : list jsstring)
         (p : SchemaProperty) (name : jsstring) (level depth : nat)
         (d : SchemaViewer.Details),
    In (depth, d)
       (blocks_at 0 (SchemaViewer.renderPropertyDetails toUpperCase
                       schema_required p name level)) ->
    SchemaViewer.requiredBadge d
    = includes schema_required (SchemaViewer.heading d)
    /\ SchemaViewer.marginLeft d = (level + depth) * 16.
Proof.
  intros toUpperCase req p name level depth d Hin.
  destruct (@badges_up_to toUpperCase req (size p) p name level 0 depth d)
    as [Hbadge [_ Hm]]; [lia | exact Hin |].
  split; [exact Hbadge|]. rewrite Hm. f_equal. lia.
Qed.

Lemma viewer_badge_follows_the_schema_list_witness :
  let address :=
    with_required (Some [js "city"])
      (with_properties (Some [(js "city", default_property)])
         (with_type (js "object") default_property)) in
  let city :=
    SchemaViewer.renderPropertyDetails (fun s => s) [js "address"]
      default_property (js "city") 1 in
  In (1, city)
     (blocks_at 0 (SchemaViewer.renderPropertyDetails (fun s => s)
                     [js "address"] address (js "address") 0))
  /\ SchemaViewer.requiredBadge city
     = includes [js "address"] (SchemaViewer.heading city)
  /\ SchemaViewer.marginLeft city = (0 + 1) * 16.
Proof.
  split; [right; left; reflexivity|].
  apply (@viewer_badge_follows_the_schema_list
           (fun s => s) [js "address"]
           (with_required (Some [js "city"])
              (with_properties (Some [(js "city", default_property)])
                 (with_type (js "object") default_property)))
           (js "address") 0 1).
  right. left. reflexivity.
Defined.

Lemma details_without_required_up_to (toUpperCase : jsstring -> jsstring)
    (schema_required : list jsstring) (n : nat) :
  forall p name level,
    size p <= n ->
    SchemaViewer.renderPropertyDetails toUpperCase schema_required
      (without_required p) name level
    = SchemaViewer.renderPropertyDetails toUpperCase schema_required
        p name level.
Proof.
  induction n as [|n IH]; intros p name level Hsize.
  - destruct p as [ty de en fm it mu [nested|] rq]; simpl in Hsize; lia.
  - pose proof (@size_nested p) as Hsub.
    destruct p as [ty de en fm it mu ps rq].
    cbn [without_required SchemaViewer.renderPropertyDetails
         Schema.properties Schema.type Schema.description Schema.enum
         Schema.format Schema.items Schema.multiple].
    f_equal.
    destruct ps as [nested|]; [|reflexivity].
    destruct (str_eqb ty (js "object")); [|reflexivity].
    f_equal. rewrite map_map. apply map_ext_in. intros [k q] Hkq.
    cbn [fst snd]. apply IH.
    specialize (Hsub q k nested eq_refl Hkq). simpl in Hsub, Hsize. lia.
Qed.

(** X27.  The viewer never reads the required list of a property:
    taking every required list out of a property's tree leaves the
    details it shows unchanged. *)
Theorem viewer_ignores_nested_required_lists :
  forall (toUpperCase : jsstring -> jsstring)
         (schema_required : list jsstring)
         (p : SchemaProperty) (name : jsstring) (level : nat),
    SchemaViewer.renderPropertyDetails toUpperCase schema_required
      (without_required p) name level
    = SchemaViewer.renderPropertyDetails toUpperCase schema_required
        p name level.
Proof.
  intros toUpperCase req p name level.
  apply (@details_without_required_up_to toUpperCase req (size p)). lia.
Qed.
